(** * nyaa/search.py: the two search query compilers

    A shallow embedding of [search_elastic] and [search_db] of
    [nyaa/search.py].  Both functions validate the raw request
    parameters, then build a query object step by step: an
    elasticsearch_dsl [Search] for the index backend, an SQLAlchemy
    [Query] for the datastore backend.  The embedding returns the
    compiled query object (what is handed to the backend), or the
    exception the Python code raises on the way.

    Strings are Rocq strings whose characters stand for the code points
    below 256; integers are [Z] (Python integers are unbounded); the
    double-precision arithmetic of the index pagination is the
    Standard Library's [SpecFloat] at binary64. *)

From Stdlib Require Import ZArith String Ascii List Bool Lia.
From Stdlib Require Import Floats.SpecFloat.
From stdpp Require Import base option gmap strings list.

Local Open Scope string_scope.
Local Open Scope list_scope.
Local Open Scope Z_scope.

(** ** Python exceptions and the error monad *)

Inductive Exn : Type :=
| HTTPException (code : Z)          (* flask.abort(code) *)
| KeyError (key : string)           (* d[key] on a missing key *)
| AttributeError (name : string)    (* getattr(obj, name) on a missing attribute *)
| ValueError (msg : string)
| ZeroDivisionError
| OverflowError.

Inductive result (A : Type) : Type :=
| Ok (a : A)
| Raise (e : Exn).
Arguments Ok {A} a.
Arguments Raise {A} e.

#[global] Instance result_ret : MRet result := fun A a => Ok a.
#[global] Instance result_bind : MBind result := fun A B f m =>
  match m with
  | Ok a => f a
  | Raise e => Raise e
  end.

Definition abort {A : Type} (code : Z) : result A := Raise (HTTPException code).

(** [if c: flask.abort(code)] *)
Definition abort_if (c : bool) (code : Z) : result unit :=
  if c then abort code else Ok tt.

(** [d[k]] on a dict with string keys. *)
Definition getitem {V : Type} (d : gmap string V) (k : string) : result V :=
  match d !! k with
  | Some v => Ok v
  | None => Raise (KeyError k)
  end.

(** [k in d] *)
Definition contains {V : Type} (d : gmap string V) (k : string) : bool :=
  bool_decide (is_Some (d !! k)).

(** ** Python strings *)

(** [str.lower] on one code point below 256: the ASCII capitals and the
    Latin-1 capitals (U+00C0..U+00DE without the multiplication sign
    U+00D7) move 32 places up, every other character is kept. *)
Definition lower_char (c : ascii) : ascii :=
  let n := N_of_ascii c in
  if (((65 <=? n) && (n <=? 90)) ||
      ((192 <=? n) && (n <=? 222) && negb (n =? 215)))%N
  then ascii_of_N (n + 32) else c.

Fixpoint lower (s : string) : string :=
  match s with
  | EmptyString => EmptyString
  | String c s' => String (lower_char c) (lower s')
  end.

(** [\d] *)
Definition is_digit (c : ascii) : bool :=
  let n := N_of_ascii c in ((48 <=? n) && (n <=? 57))%N.

Definition digit_value (c : ascii) : Z := Z.of_N (N_of_ascii c) - 48.

Fixpoint int_digits (acc : Z) (s : string) : result Z :=
  match s with
  | EmptyString => Ok acc
  | String c s' =>
      if is_digit c then int_digits (10 * acc + digit_value c) s'
      else Raise (ValueError "invalid literal for int() with base 10")
  end.

(** [int(s)] for the strings the search functions pass to it: a
    validated quality code or a [\d+] group of the category pattern.
    The cap that recent CPython versions put on the number of digits is
    left out. *)
Definition int (s : string) : result Z :=
  match s with
  | EmptyString => Raise (ValueError "invalid literal for int() with base 10")
  | _ => int_digits 0 s
  end.

(** The longest prefix of digits, and the rest. *)
Fixpoint span_digits (s : string) : string * string :=
  match s with
  | String c s' =>
      if is_digit c then let '(d, r) := span_digits s' in (String c d, r)
      else (EmptyString, s)
  | EmptyString => (EmptyString, EmptyString)
  end.

(** Every character is a digit. *)
Fixpoint all_digits (s : string) : bool :=
  match s with
  | EmptyString => true
  | String c s' => is_digit c && all_digits s'
  end.

Definition newline : string := String (ascii_of_N 10) EmptyString.

(** [re.match(r'^(\d+)_(\d+)$', category)]: the two groups, or [None].
    [\d+] is greedy and neither ["_"] nor the end of the string is a
    digit, so each group is the longest run of digits; [$] also matches
    just before one final newline. *)
Definition cat_match (category : string) : option (string * string) :=
  let '(g1, r1) := span_digits category in
  match g1, r1 with
  | String _ _, String "_"%char r2 =>
      let '(g2, r3) := span_digits r2 in
      match g2 with
      | String _ _ =>
          if bool_decide (r3 = EmptyString) || bool_decide (r3 = newline)
          then Some (g1, g2) else None
      | EmptyString => None
      end
  | _, _ => None
  end.

(** Truth value of a string, of an integer, of an optional integer. *)
Definition str_truthy (s : string) : bool := negb (bool_decide (s = EmptyString)).
Definition int_truthy (n : Z) : bool := negb (n =? 0).
Definition opt_int_truthy (o : option Z) : bool :=
  match o with
  | Some n => int_truthy n
  | None => false
  end.

(** ** Python floats: IEEE 754 binary64 *)

Definition prec : Z := 53.
Definition emax : Z := 1024.

(** [float(n)] and the implicit conversion of an int operand of [/]:
    the nearest double, ties to even; [OverflowError] when [n] is too
    large for a double. *)
Definition float_of_int (n : Z) : result spec_float :=
  match binary_normalize prec emax n 0 false with
  | S754_infinity _ => Raise OverflowError
  | f => Ok f
  end.

Definition is_zero (f : spec_float) : bool :=
  match f with
  | S754_zero _ => true
  | _ => false
  end.

(** [x / y] on two floats. *)
Definition float_truediv (x y : spec_float) : result spec_float :=
  if is_zero y then Raise ZeroDivisionError
  else Ok (SFdiv prec emax x y).

(** [n / y] with an int [n] and a float [y]. *)
Definition int_truediv_float (n : Z) (y : spec_float) : result spec_float :=
  x ← float_of_int n; float_truediv x y.

(** The ceiling of [m * 2^e]. *)
Definition ceil_scaled (m e : Z) : Z :=
  if 0 <=? e then m * 2 ^ e else - ((- m) / 2 ^ (- e)).

(** [math.ceil(x)]: an int in Python 3. *)
Definition math_ceil (x : spec_float) : result Z :=
  match x with
  | S754_zero _ => Ok 0
  | S754_finite s m e => Ok (ceil_scaled (if s then Z.neg m else Z.pos m) e)
  | S754_infinity _ => Raise OverflowError
  | S754_nan => Raise (ValueError "cannot convert float NaN to integer")
  end.

(** ** shlex.split(term, posix=False)

    [shlex.split] sets [whitespace_split] and empties [commenters]; in
    non-POSIX mode there are no escapes and a quoted part keeps its
    quotes.  [read_token] is then an automaton with three states:
    between tokens, inside quotes (the state is the quote character),
    inside a word. *)

Inductive lex_state : Type :=
| in_whitespace                 (* self.state is a space *)
| in_quotes (q : ascii)         (* state in self.quotes *)
| in_word.                      (* self.state is the letter a *)

(** [self.whitespace]: space, tab, carriage return, line feed. *)
Definition is_whitespace (c : ascii) : bool :=
  let n := N_of_ascii c in ((n =? 32) || (n =? 9) || (n =? 13) || (n =? 10))%N.

(** [self.quotes]: the single and the double quote. *)
Definition is_quote (c : ascii) : bool :=
  let n := N_of_ascii c in ((n =? 39) || (n =? 34))%N.

Definition push_char (token : string) (c : ascii) : string :=
  token +:+ String c EmptyString.

(** All tokens of the input: [list(lex)].  [token] is [self.token],
    [emitted] the tokens already returned, latest first. *)
Fixpoint read_tokens (state : lex_state) (token : string) (emitted : list string)
    (instream : string) : result (list string) :=
  match instream with
  | EmptyString =>
      match state with
      | in_whitespace => Ok (rev emitted)
      | in_quotes _ => Raise (ValueError "No closing quotation")
      | in_word => Ok (rev (token :: emitted))
      end
  | String nextchar rest =>
      match state with
      | in_whitespace =>
          if is_whitespace nextchar then
            read_tokens in_whitespace token emitted rest
          else if is_quote nextchar then
            read_tokens (in_quotes nextchar) (String nextchar EmptyString) emitted rest
          else
            read_tokens in_word (String nextchar EmptyString) emitted rest
      | in_quotes q =>
          if bool_decide (nextchar = q) then
            read_tokens in_whitespace EmptyString (push_char token nextchar :: emitted) rest
          else
            read_tokens (in_quotes q) (push_char token nextchar) emitted rest
      | in_word =>
          if is_whitespace nextchar then
            read_tokens in_whitespace EmptyString (token :: emitted) rest
          else
            read_tokens in_word (push_char token nextchar) emitted rest
      end
  end.

Definition shlex_split (s : string) : result (list string) :=
  read_tokens in_whitespace EmptyString [] s.

(** [len(item)] *)
Definition len (s : string) : Z := Z.of_nat (String.length s).

(** ** The request

    The keyword arguments of the two functions.  [search_db] has no
    [max_search_results] argument and ignores the field. *)

(** What the functions read of a [models.User]: its [id]. *)
Record User : Type := { user_id : Z }.

Record Request : Type := {
  term : string;
  user : option Z;
  sort : string;
  order : string;
  category : string;
  quality_filter : string;
  page : Z;
  rss : bool;
  admin : bool;
  logged_in_user : option User;
  per_page : Z;
  max_search_results : Z
}.

(** The defaults of the signature of [search_elastic]. *)
Definition default_request : Request :=
  {| term := ""; user := None; sort := "id"; order := "desc";
     category := "0_0"; quality_filter := "0"; page := 1; rss := false;
     admin := false; logged_in_user := None; per_page := 75;
     max_search_results := 1000 |}.

(** ** What the functions import: [nyaa.models] and [app.config]

    The lookups of the models and the values of [models.TorrentFlags]
    are declared outside [search.py]; the functions are parametric in
    them. *)

Record MainCategory : Type := { main_id : Z }.
Record SubCategory : Type := { sub_main_id : Z; sub_id : Z }.

Record Models : Type := {
  User_by_id : Z -> option User;
  MainCategory_by_id : Z -> option MainCategory;
  SubCategory_by_category_ids : Z -> Z -> option SubCategory;
  (* models.TorrentFlags, an IntEnum *)
  DELETED : Z;
  HIDDEN : Z;
  ANONYMOUS : Z;
  REMAKE : Z;
  TRUSTED : Z;
  COMPLETE : Z
}.

Record Config : Type := {
  ES_INDEX_NAME : option string;
  ENABLE_ELASTIC_SEARCH_HIGHLIGHT : bool
}.

(** ** elasticsearch_dsl: queries and the [Search] object *)

Inductive Value : Type :=
| Bool_ (b : bool)
| Int_ (n : Z).

#[global] Instance Value_eq_dec : EqDecision Value.
Proof. solve_decision. Defined.

Inductive Q : Type :=
| Q_term (field : string) (value : Value)          (* Q('term', field=value) *)
| Q_or (q1 q2 : Q)                                 (* q1 | q2 *)
| Q_bool (filter : list Q)                         (* Q('bool', filter=[...]) *)
| Q_simple_query_string (analyzer default_operator query : string).

Record Search : Type := {
  s_index : option string;
  s_query : option Q;
  s_filter : list Q;                 (* the filter clauses, in the order added *)
  s_sort : list string;
  s_slice : option (Z * Z);          (* s[from:to] *)
  s_highlight_options : option string;
  s_highlight : list string
}.

Definition Search_new (index : option string) : Search :=
  {| s_index := index; s_query := None; s_filter := []; s_sort := [];
     s_slice := None; s_highlight_options := None; s_highlight := [] |}.

(** [s.query(q)] on a search without a query yet *)
Definition Search_query (q : Q) (s : Search) : Search :=
  {| s_index := s_index s; s_query := Some q; s_filter := s_filter s;
     s_sort := s_sort s; s_slice := s_slice s;
     s_highlight_options := s_highlight_options s; s_highlight := s_highlight s |}.

(** [s.filter(q)]: one more clause, all of which a hit has to satisfy *)
Definition Search_filter (q : Q) (s : Search) : Search :=
  {| s_index := s_index s; s_query := s_query s; s_filter := s_filter s ++ [q];
     s_sort := s_sort s; s_slice := s_slice s;
     s_highlight_options := s_highlight_options s; s_highlight := s_highlight s |}.

(** [s.sort(key)] *)
Definition Search_sort (key : string) (s : Search) : Search :=
  {| s_index := s_index s; s_query := s_query s; s_filter := s_filter s;
     s_sort := [key]; s_slice := s_slice s;
     s_highlight_options := s_highlight_options s; s_highlight := s_highlight s |}.

(** [s[from_idx:to_idx]] *)
Definition Search_getitem (from_idx to_idx : Z) (s : Search) : Search :=
  {| s_index := s_index s; s_query := s_query s; s_filter := s_filter s;
     s_sort := s_sort s; s_slice := Some (from_idx, to_idx);
     s_highlight_options := s_highlight_options s; s_highlight := s_highlight s |}.

(** [s.highlight_options(tags_schema=...)] and [s.highlight(field)] *)
Definition Search_highlight_options (tags_schema : string) (s : Search) : Search :=
  {| s_index := s_index s; s_query := s_query s; s_filter := s_filter s;
     s_sort := s_sort s; s_slice := s_slice s;
     s_highlight_options := Some tags_schema; s_highlight := s_highlight s |}.

Definition Search_highlight (field : string) (s : Search) : Search :=
  {| s_index := s_index s; s_query := s_query s; s_filter := s_filter s;
     s_sort := s_sort s; s_slice := s_slice s;
     s_highlight_options := s_highlight_options s;
     s_highlight := s_highlight s ++ [field] |}.

(** ** SQLAlchemy: columns, filter expressions and the [Query] object *)

Inductive Table : Type := Torrent_ | Statistic | TorrentNameSearch.

#[global] Instance Table_eq_dec : EqDecision Table.
Proof. solve_decision. Defined.

Inductive Column : Type :=
| Torrent_id
| Torrent_filesize
| Torrent_uploader_id
| Torrent_main_category_id
| Torrent_sub_category_id
| Statistic_seed_count
| Statistic_leech_count
| Statistic_download_count.

(** [column.class_] *)
Definition class_ (c : Column) : Table :=
  match c with
  | Statistic_seed_count | Statistic_leech_count | Statistic_download_count => Statistic
  | _ => Torrent_
  end.

Inductive FullTextMode : Type := NATURAL.

Inductive Expr : Type :=
| E_eq (c : Column) (v : Z)                        (* column == v *)
| E_flags_is (mask : Z) (b : bool)                 (* Torrent.flags.op('&')(mask).is_(b) *)
| E_or (e1 e2 : Expr)                              (* e1 | e2 *)
| E_and (e1 e2 : Expr)                             (* e1 & e2 *)
| E_FullTextSearch (against : string) (model : Table) (mode : FullTextMode).

Inductive Ordering : Type :=
| desc (c : Column)
| asc (c : Column).

Inductive Paging : Type :=
| all_rows
| limit (n : Z)
| paginate_faste (page per_page step : Z).

Record Query : Type := {
  q_entity : Table;
  q_filter : list Expr;              (* the filter criteria, in the order added *)
  q_join : list Table;
  q_order_by : list Ordering;
  q_paging : Paging
}.

Definition Query_new (entity : Table) : Query :=
  {| q_entity := entity; q_filter := []; q_join := []; q_order_by := [];
     q_paging := all_rows |}.

(** [query.filter(e)] *)
Definition Query_filter (e : Expr) (q : Query) : Query :=
  {| q_entity := q_entity q; q_filter := q_filter q ++ [e]; q_join := q_join q;
     q_order_by := q_order_by q; q_paging := q_paging q |}.

(** [query.join(t)] *)
Definition Query_join (t : Table) (q : Query) : Query :=
  {| q_entity := q_entity q; q_filter := q_filter q; q_join := q_join q ++ [t];
     q_order_by := q_order_by q; q_paging := q_paging q |}.

(** [query.order_by(o)] *)
Definition Query_order_by (o : Ordering) (q : Query) : Query :=
  {| q_entity := q_entity q; q_filter := q_filter q; q_join := q_join q;
     q_order_by := q_order_by q ++ [o]; q_paging := q_paging q |}.

(** [query.limit(n)] *)
Definition Query_limit (n : Z) (q : Query) : Query :=
  {| q_entity := q_entity q; q_filter := q_filter q; q_join := q_join q;
     q_order_by := q_order_by q; q_paging := limit n |}.

(** [query.paginate_faste(page, per_page=per_page, step=step)] *)
Definition Query_paginate_faste (page per_page step : Z) (q : Query) : Query :=
  {| q_entity := q_entity q; q_filter := q_filter q; q_join := q_join q;
     q_order_by := q_order_by q; q_paging := paginate_faste page per_page step |}.

(** [getattr(column, name)()]: a column has the ordering methods [desc]
    and [asc]; no other spelling of the two names is an attribute of
    it. *)
Definition getattr_call (c : Column) (name : string) : result Ordering :=
  if bool_decide (name = "desc") then Ok (desc c)
  else if bool_decide (name = "asc") then Ok (asc c)
  else Raise (AttributeError name).

(** ** The two search functions *)

Section Search.

Variable models : Models.
Variable config : Config.

(** *** Steps the two functions share word for word *)

(** [order_keys], the same dict in both functions. *)
Definition order_keys : gmap string string :=
  list_to_map [("desc", "desc"); ("asc", "asc")].

(** [[
    if user:
        user = models.User.by_id(user)
        if not user:
            flask.abort(404)
        user = user.id
    ]] *)
Definition resolve_user (user : option Z) : result (option Z) :=
  if opt_int_truthy user then
    match user ≫= User_by_id models with
    | None => abort 404
    | Some u => Ok (Some (user_id u))
    end
  else Ok user.

(** [[
    same_user = False
    if logged_in_user:
        same_user = user == logged_in_user.id
    ]] *)
Definition same_user_of (user : option Z) (logged_in_user : option User) : bool :=
  match logged_in_user with
  | Some l => bool_decide (user = Some (user_id l))
  | None => false
  end.

(** *** search_elastic *)

Definition es_sort_keys : gmap string string :=
  list_to_map [("id", "id"); ("size", "filesize"); ("seeders", "seed_count");
               ("leechers", "leech_count"); ("downloads", "download_count")].

Definition quality_keys : list string := ["0"; "1"; "2"; "3"].

(** The category filter of [search_elastic]: the category objects and
    the two ids. *)
Definition es_category (category : string)
    : result (option MainCategory * option SubCategory * Z * Z) :=
  if str_truthy category then
    match cat_match category with
    | None => abort 400
    | Some (g1, g2) =>
        main_cat_id ← int g1;
        sub_cat_id ← int g2;
        if 0 <? main_cat_id then
          if 0 <? sub_cat_id then
            let sub_category := SubCategory_by_category_ids models main_cat_id sub_cat_id in
            abort_if (negb (bool_decide (is_Some sub_category))) 400;;
            Ok (None, sub_category, main_cat_id, sub_cat_id)
          else
            let main_category := MainCategory_by_id models main_cat_id in
            abort_if (negb (bool_decide (is_Some main_category))) 400;;
            Ok (main_category, None, main_cat_id, sub_cat_id)
        else Ok (None, None, main_cat_id, sub_cat_id)
    end
  else Ok (None, None, 0, 0).

(** General view (homepage, general search view). *)
Definition es_general_view (logged_in_user : option User) (rss admin : bool)
    (s : Search) : Search :=
  if negb admin then
    let s := Search_filter (Q_term "deleted" (Bool_ false)) s in
    match logged_in_user with
    | Some l =>
        if negb rss then
          let hiddenFilter := Q_term "hidden" (Bool_ false) in
          let userFilter := Q_term "uploader_id" (Int_ (user_id l)) in
          let combinedFilter := Q_or hiddenFilter userFilter in
          Search_filter (Q_bool [combinedFilter]) s
        else Search_filter (Q_term "hidden" (Bool_ false)) s
    | None => Search_filter (Q_term "hidden" (Bool_ false)) s
    end
  else s.

(** User view (/user/username). *)
Definition es_user_view (user : Z) (same_user rss admin : bool) (s : Search) : Search :=
  let s := Search_filter (Q_term "uploader_id" (Int_ user)) s in
  if negb admin then
    let s := Search_filter (Q_term "deleted" (Bool_ false)) s in
    if negb same_user || rss then
      let s := Search_filter (Q_term "hidden" (Bool_ false)) s in
      Search_filter (Q_term "anonymous" (Bool_ false)) s
    else s
  else s.

(** Lines 101-145: [same_user] and the branch on [if user:]. *)
Definition es_view (user : option Z) (logged_in_user : option User) (rss admin : bool)
    (s : Search) : Search :=
  let same_user := same_user_of user logged_in_user in
  match user with
  | Some u =>
      if int_truthy u then es_user_view u same_user rss admin s
      else es_general_view logged_in_user rss admin s
  | None => es_general_view logged_in_user rss admin s
  end.

(** Lines 147-151. *)
Definition es_category_filter (main_category : option MainCategory)
    (sub_category : option SubCategory) (main_cat_id sub_cat_id : Z) (s : Search) : Search :=
  if bool_decide (is_Some main_category) then
    Search_filter (Q_term "main_category_id" (Int_ main_cat_id)) s
  else if bool_decide (is_Some sub_category) then
    let s := Search_filter (Q_term "main_category_id" (Int_ main_cat_id)) s in
    Search_filter (Q_term "sub_category_id" (Int_ sub_cat_id)) s
  else s.

(** Lines 153-160. *)
Definition es_quality_filter (quality_filter : Z) (s : Search) : Search :=
  if quality_filter =? 0 then s
  else if quality_filter =? 1 then Search_filter (Q_term "remake" (Bool_ false)) s
  else if quality_filter =? 2 then Search_filter (Q_term "trusted" (Bool_ true)) s
  else if quality_filter =? 3 then Search_filter (Q_term "complete" (Bool_ true)) s
  else s.

(** Lines 165-172: the result window. *)
Definition es_window (rss : bool) (page per_page max_search_results : Z) (s : Search)
    : result Search :=
  if rss then Ok (Search_getitem 0 per_page s)
  else
    per_page_f ← float_of_int per_page;
    quotient ← int_truediv_float max_search_results per_page_f;
    pages ← math_ceil quotient;
    let max_page := Z.min page pages in
    let from_idx := (max_page - 1) * per_page in
    let to_idx := Z.min max_search_results (max_page * per_page) in
    Ok (Search_getitem from_idx to_idx s).

Definition search_elastic (r : Request) : result Search :=
  let sort := sort r in
  let order := order r in
  let sort_ := lower sort in
  abort_if (negb (contains es_sort_keys sort_)) 400;;
  es_sort ← getitem es_sort_keys sort;
  let order_ := lower order in
  abort_if (negb (contains order_keys order_)) 400;;
  (* Only allow ID, desc if RSS *)
  '(sort, order) ← (if rss r then id_key ← getitem es_sort_keys "id"; Ok (id_key, "desc")
                    else Ok (sort, order));
  (* funky, es sort is default asc, prefixed by '-' if desc *)
  let es_sort := if bool_decide ("desc" = order) then "-" +:+ es_sort else es_sort in
  abort_if (negb (bool_decide (lower (quality_filter r) ∈ quality_keys))) 400;;
  quality_filter ← int (quality_filter r);
  '(main_category, sub_category, main_cat_id, sub_cat_id) ← es_category (category r);
  user ← resolve_user (user r);
  let s := Search_new (ES_INDEX_NAME config) in
  let s :=
    if str_truthy (term r) then
      Search_query (Q_simple_query_string "my_search_analyzer" "AND" (term r)) s
    else s in
  let s := es_view user (logged_in_user r) (rss r) (admin r) s in
  let s := es_category_filter main_category sub_category main_cat_id sub_cat_id s in
  let s := es_quality_filter quality_filter s in
  let s := Search_sort es_sort s in
  s ← es_window (rss r) (page r) (per_page r) (max_search_results r) s;
  let s :=
    if ENABLE_ELASTIC_SEARCH_HIGHLIGHT config then
      Search_highlight "display_name" (Search_highlight_options "styled" s)
    else s in
  Ok s.

(** *** search_db *)

Definition sort_keys : gmap string Column :=
  list_to_map [("id", Torrent_id); ("size", Torrent_filesize);
               ("seeders", Statistic_seed_count);
               ("leechers", Statistic_leech_count);
               ("downloads", Statistic_download_count)].

Definition filter_keys : gmap string (option (Z * bool)) :=
  list_to_map [("0", None);
               ("1", Some (REMAKE models, false));
               ("2", Some (TRUSTED models, true));
               ("3", Some (COMPLETE models, true))].

(** Lines 229-248: the category objects and the two ids.  The test
    after the two lookups is on [category], the argument string. *)
Definition db_category (category : string)
    : result (option MainCategory * option SubCategory * Z * Z) :=
  if str_truthy category then
    match cat_match category with
    | None => abort 400
    | Some (g1, g2) =>
        main_cat_id ← int g1;
        sub_cat_id ← int g2;
        if 0 <? main_cat_id then
          let '(main_category, sub_category) :=
            if 0 <? sub_cat_id
            then (None, SubCategory_by_category_ids models main_cat_id sub_cat_id)
            else (MainCategory_by_id models main_cat_id, None) in
          abort_if (negb (str_truthy category)) 400;;
          Ok (main_category, sub_category, main_cat_id, sub_cat_id)
        else Ok (None, None, main_cat_id, sub_cat_id)
    end
  else Ok (None, None, 0, 0).

(** General view (homepage, general search view). *)
Definition db_general_view (logged_in_user : option User) (rss admin : bool)
    (query : Query) : Query :=
  if negb admin then
    let query := Query_filter (E_flags_is (DELETED models) false) query in
    match logged_in_user with
    | Some l =>
        if negb rss then
          Query_filter (E_or (E_flags_is (HIDDEN models) false)
                             (E_eq Torrent_uploader_id (user_id l))) query
        else Query_filter (E_flags_is (HIDDEN models) false) query
    | None => Query_filter (E_flags_is (HIDDEN models) false) query
    end
  else query.

(** User view (/user/username). *)
Definition db_user_view (user : Z) (same_user rss admin : bool) (query : Query) : Query :=
  let query := Query_filter (E_eq Torrent_uploader_id user) query in
  if negb admin then
    let query := Query_filter (E_flags_is (DELETED models) false) query in
    if negb same_user || rss then
      Query_filter (E_flags_is (Z.lor (HIDDEN models) (ANONYMOUS models)) false) query
    else query
  else query.

(** Lines 255-289 without the choice of the base query: [same_user]
    and the branch on [if user:]. *)
Definition db_view (user : option Z) (logged_in_user : option User) (rss admin : bool)
    (query : Query) : Query :=
  let same_user := same_user_of user logged_in_user in
  match user with
  | Some u =>
      if int_truthy u then db_user_view u same_user rss admin query
      else db_general_view logged_in_user rss admin query
  | None => db_general_view logged_in_user rss admin query
  end.

(** Lines 291-295. *)
Definition db_category_filter (main_category : option MainCategory)
    (sub_category : option SubCategory) (main_cat_id sub_cat_id : Z) (query : Query) : Query :=
  if bool_decide (is_Some main_category) then
    Query_filter (E_eq Torrent_main_category_id main_cat_id) query
  else if bool_decide (is_Some sub_category) then
    Query_filter (E_and (E_eq Torrent_main_category_id main_cat_id)
                        (E_eq Torrent_sub_category_id sub_cat_id)) query
  else query.

(** Lines 297-298. *)
Definition db_quality_filter (filter_tuple : option (Z * bool)) (query : Query) : Query :=
  match filter_tuple with
  | Some (flag, value) => Query_filter (E_flags_is flag value) query
  | None => query
  end.

(** The loop of lines 301-304 over the tokens. *)
Fixpoint db_term_items (items : list string) (query : Query) : Query :=
  match items with
  | [] => query
  | item :: items' =>
      let query :=
        if 2 <=? len item
        then Query_filter (E_FullTextSearch item TorrentNameSearch NATURAL) query
        else query in
      db_term_items items' query
  end.

(** Lines 300-304. *)
Definition db_term_filter (term : string) (query : Query) : result Query :=
  if str_truthy term then
    items ← shlex_split term;
    Ok (db_term_items items query)
  else Ok query.

Definition search_db (r : Request) : result Query :=
  let sort := sort r in
  let order := order r in
  let sort_ := lower sort in
  abort_if (negb (contains sort_keys sort_)) 400;;
  sort ← getitem sort_keys sort;
  let order_ := lower order in
  abort_if (negb (contains order_keys order_)) 400;;
  filter_tuple ← match filter_keys !! lower (quality_filter r) with
                 | Some filter_tuple => Ok filter_tuple
                 | None => abort 400
                 end;
  user ← resolve_user (user r);
  '(main_category, sub_category, main_cat_id, sub_cat_id) ← db_category (category r);
  (* Force sort by id desc if rss *)
  '(sort, order) ← (if rss r then id_key ← getitem sort_keys "id"; Ok (id_key, "desc")
                    else Ok (sort, order));
  let query :=
    if str_truthy (term r) then Query_new TorrentNameSearch else Query_new Torrent_ in
  let query := db_view user (logged_in_user r) (rss r) (admin r) query in
  let query := db_category_filter main_category sub_category main_cat_id sub_cat_id query in
  let query := db_quality_filter filter_tuple query in
  query ← db_term_filter (term r) query;
  (* Sort and order *)
  let query :=
    if negb (bool_decide (class_ sort = Torrent_)) then Query_join (class_ sort) query
    else query in
  ordering ← getattr_call sort order;
  let query := Query_order_by ordering query in
  let query :=
    if rss r then Query_limit (per_page r) query
    else Query_paginate_faste (page r) (per_page r) 5 query in
  Ok query.

End Search.

(** ** Records and what a compiled filter selects *)

(** A torrent row with its statistics, as far as the filters and the
    sort keys read it.  [uploader_id] is nullable. *)
Record Torrent : Type := {
  torrent_id : Z;
  filesize : Z;
  uploader_id : option Z;
  main_category_id : Z;
  sub_category_id : Z;
  flags : Z;
  seed_count : Z;
  leech_count : Z;
  download_count : Z
}.

Section Semantics.

Variable models : Models.

(** The full-text engines of the two backends are outside the program:
    whether a record matches a [simple_query_string] query, and whether
    it matches a natural-language [FullTextSearch]. *)
Variable simple_query_string_hit : string -> string -> string -> Torrent -> bool.
Variable fulltext_hit : string -> Torrent -> bool.

(** [flags & mask] is not zero *)
Definition has_flag (t : Torrent) (mask : Z) : bool :=
  negb (Z.land (flags t) mask =? 0).

(** Modelled from the spec: the index document of a record.  How the
    index is filled is outside [search.py]; the spec's Record has one
    [flags] bitset over deleted, hidden, anonymous, remake, trusted and
    complete, and the atoms of its predicates ([deleted=false], ...)
    read one bit each.  The document carries each bit as a boolean
    field, next to the uploader and the two category ids. *)
Definition doc_field (t : Torrent) (field : string) : option Value :=
  if (field =? "uploader_id")%string then Int_ <$> uploader_id t
  else if (field =? "main_category_id")%string then Some (Int_ (main_category_id t))
  else if (field =? "sub_category_id")%string then Some (Int_ (sub_category_id t))
  else if (field =? "deleted")%string then Some (Bool_ (has_flag t (DELETED models)))
  else if (field =? "hidden")%string then Some (Bool_ (has_flag t (HIDDEN models)))
  else if (field =? "anonymous")%string then Some (Bool_ (has_flag t (ANONYMOUS models)))
  else if (field =? "remake")%string then Some (Bool_ (has_flag t (REMAKE models)))
  else if (field =? "trusted")%string then Some (Bool_ (has_flag t (TRUSTED models)))
  else if (field =? "complete")%string then Some (Bool_ (has_flag t (COMPLETE models)))
  else None.

(** A record satisfies an index query. *)
Fixpoint es_matches (t : Torrent) (q : Q) : bool :=
  match q with
  | Q_term field value => bool_decide (doc_field t field = Some value)
  | Q_or q1 q2 => es_matches t q1 || es_matches t q2
  | Q_bool fs => forallb (es_matches t) fs
  | Q_simple_query_string analyzer default_operator qs =>
      simple_query_string_hit analyzer default_operator qs t
  end.

(** A record is a hit of a compiled search: it matches the query, if
    there is one, and every filter clause. *)
Definition es_hit (t : Torrent) (s : Search) : bool :=
  match s_query s with
  | Some q => es_matches t q
  | None => true
  end && forallb (es_matches t) (s_filter s).

Definition column_value (t : Torrent) (c : Column) : option Z :=
  match c with
  | Torrent_id => Some (torrent_id t)
  | Torrent_filesize => Some (filesize t)
  | Torrent_uploader_id => uploader_id t
  | Torrent_main_category_id => Some (main_category_id t)
  | Torrent_sub_category_id => Some (sub_category_id t)
  | Statistic_seed_count => Some (seed_count t)
  | Statistic_leech_count => Some (leech_count t)
  | Statistic_download_count => Some (download_count t)
  end.

(** A row satisfies a filter expression.  [x IS FALSE] holds of the
    integer 0 and [x IS TRUE] of every other integer; a comparison with
    NULL is not true, and the expressions have no negation, so NULL
    counts as false. *)
Fixpoint db_matches (t : Torrent) (e : Expr) : bool :=
  match e with
  | E_eq c v => bool_decide (column_value t c = Some v)
  | E_flags_is mask b =>
      if b then negb (Z.land (flags t) mask =? 0) else Z.land (flags t) mask =? 0
  | E_or e1 e2 => db_matches t e1 || db_matches t e2
  | E_and e1 e2 => db_matches t e1 && db_matches t e2
  | E_FullTextSearch against _ _ => fulltext_hit against t
  end.

(** A row is selected by a compiled query: it satisfies every filter
    criterion. *)
Definition db_hit (t : Torrent) (q : Query) : bool :=
  forallb (db_matches t) (q_filter q).

End Semantics.

(** ** A concrete instance

    Models for the examples: one bit for each flag, a directory with
    the users 1 and 2, and a catalogue with the main categories 1 and 3
    and the sub-category (1, 2). *)

Definition nyaa_models : Models :=
  {| User_by_id := fun n => if (n =? 1) || (n =? 2) then Some {| user_id := n |} else None;
     MainCategory_by_id := fun m =>
       if (m =? 1) || (m =? 3) then Some {| main_id := m |} else None;
     SubCategory_by_category_ids := fun m s =>
       if (m =? 1) && (s =? 2) then Some {| sub_main_id := m; sub_id := s |} else None;
     ANONYMOUS := 1; HIDDEN := 2; TRUSTED := 4; REMAKE := 8; COMPLETE := 16;
     DELETED := 32 |}.

Definition nyaa_config : Config :=
  {| ES_INDEX_NAME := Some "nyaa"; ENABLE_ELASTIC_SEARCH_HIGHLIGHT := false |}.

Definition with_sort (sort order : string) (rss : bool) (r : Request) : Request :=
  {| term := term r; user := user r; sort := sort; order := order;
     category := category r; quality_filter := quality_filter r; page := page r;
     rss := rss; admin := admin r; logged_in_user := logged_in_user r;
     per_page := per_page r; max_search_results := max_search_results r |}.

Definition with_order (order : string) (r : Request) : Request :=
  {| term := term r; user := user r; sort := sort r; order := order;
     category := category r; quality_filter := quality_filter r; page := page r;
     rss := rss r; admin := admin r; logged_in_user := logged_in_user r;
     per_page := per_page r; max_search_results := max_search_results r |}.

Definition with_category (category : string) (r : Request) : Request :=
  {| term := term r; user := user r; sort := sort r; order := order r;
     category := category; quality_filter := quality_filter r; page := page r;
     rss := rss r; admin := admin r; logged_in_user := logged_in_user r;
     per_page := per_page r; max_search_results := max_search_results r |}.

(** The five sort keys and the two orders, as the validation layer of
    the spec lists them. *)
Definition valid_sort_keys : list string := ["id"; "size"; "seeders"; "leechers"; "downloads"].
Definition valid_orders : list string := ["desc"; "asc"].

(** The quality predicates of the spec (all: no predicate; no-remakes:
    remake=false; trusted-only: trusted=true; complete-only:
    complete=true), as each backend writes them. *)
Definition es_quality_terms (code : string) : list Q :=
  if bool_decide (code = "1") then [Q_term "remake" (Bool_ false)]
  else if bool_decide (code = "2") then [Q_term "trusted" (Bool_ true)]
  else if bool_decide (code = "3") then [Q_term "complete" (Bool_ true)]
  else [].

Definition db_quality_exprs (models : Models) (code : string) : list Expr :=
  if bool_decide (code = "1") then [E_flags_is (REMAKE models) false]
  else if bool_decide (code = "2") then [E_flags_is (TRUSTED models) true]
  else if bool_decide (code = "3") then [E_flags_is (COMPLETE models) true]
  else [].

Definition is_fulltext (e : Expr) : bool :=
  match e with
  | E_FullTextSearch _ _ _ => true
  | _ => false
  end.

Definition with_quality_filter (quality_filter : string) (r : Request) : Request :=
  {| term := term r; user := user r; sort := sort r; order := order r;
     category := category r; quality_filter := quality_filter; page := page r;
     rss := rss r; admin := admin r; logged_in_user := logged_in_user r;
     per_page := per_page r; max_search_results := max_search_results r |}.

(** The visibility predicates in the words of the spec, over the bits
    of a record.  Profile view of the user [u]: the record is uploaded
    by [u] and not deleted, and it is neither hidden nor anonymous
    unless the viewer is the owner outside RSS. *)
Definition spec_profile_visible (models : Models) (u : Z) (owner_outside_rss : bool)
    (t : Torrent) : bool :=
  bool_decide (uploader_id t = Some u)
  && negb (has_flag t (DELETED models))
  && (owner_outside_rss
      || (negb (has_flag t (HIDDEN models)) && negb (has_flag t (ANONYMOUS models)))).

(** General view: the record is not deleted, and it is not hidden or it
    is uploaded by the logged-in viewer of a request that is not RSS
    ([viewer] is [None] for an anonymous viewer and for RSS). *)
Definition spec_general_visible (models : Models) (viewer : option Z) (t : Torrent) : bool :=
  negb (has_flag t (DELETED models))
  && (negb (has_flag t (HIDDEN models))
      || match viewer with
         | Some v => bool_decide (uploader_id t = Some v)
         | None => false
         end).

Definition with_viewer (user : option Z) (logged_in_user : option User) (rss : bool)
    (r : Request) : Request :=
  {| term := term r; user := user; sort := sort r; order := order r;
     category := category r; quality_filter := quality_filter r; page := page r;
     rss := rss; admin := admin r; logged_in_user := logged_in_user;
     per_page := per_page r; max_search_results := max_search_results r |}.

Definition with_term (term : string) (r : Request) : Request :=
  {| term := term; user := user r; sort := sort r; order := order r;
     category := category r; quality_filter := quality_filter r; page := page r;
     rss := rss r; admin := admin r; logged_in_user := logged_in_user r;
     per_page := per_page r; max_search_results := max_search_results r |}.





(** The character [q] does not occur in the string. *)
Fixpoint char_free (q : ascii) (s : string) : bool :=
  match s with
  | EmptyString => true
  | String c s' => negb (bool_decide (c = q)) && char_free q s'
  end.

(** The window in the words of the spec: [ceil(maxResults/perPage)] is
    the exact ceiling of the quotient. *)
Definition ceil_div (a b : Z) : Z := - ((- a) / b).

Definition spec_window (page per_page max_results : Z) : Z * Z :=
  let effective_page := Z.min page (ceil_div max_results per_page) in
  ((effective_page - 1) * per_page, Z.min max_results (effective_page * per_page)).

Definition with_paging (page per_page max_search_results : Z) (rss : bool)
    (r : Request) : Request :=
  {| term := term r; user := user r; sort := sort r; order := order r;
     category := category r; quality_filter := quality_filter r; page := page;
     rss := rss; admin := admin r; logged_in_user := logged_in_user r;
     per_page := per_page; max_search_results := max_search_results |}.

(** The sort keys that live on the statistics relation. *)
Definition statistic_sort_keys : list string := ["seeders"; "leechers"; "downloads"].

(** The viewed user is absent ([None] or 0) or in the directory. *)
Definition user_known (models : Models) (user : option Z) : Prop :=
  match user with
  | Some n => n = 0 \/ is_Some (User_by_id models n)
  | None => True
  end.


(** The category code is empty, or well formed and, when its main id is
    positive, in the catalogue: the pair when the sub id is positive,
    the main id otherwise. *)
Definition category_known (models : Models) (category : string) : Prop :=
  category = EmptyString \/
  exists g1 g2 main_cat_id sub_cat_id,
    cat_match category = Some (g1, g2) /\
    int g1 = Ok main_cat_id /\ int g2 = Ok sub_cat_id /\
    (0 < main_cat_id ->
     if 0 <? sub_cat_id
     then is_Some (SubCategory_by_category_ids models main_cat_id sub_cat_id)
     else is_Some (MainCategory_by_id models main_cat_id)).

(** The page count of the index window computes: both conversions to
    float, the division and the ceiling go through. *)
Definition page_count (per_page max_search_results : Z) : result Z :=
  per_page_f ← float_of_int per_page;
  quotient ← int_truediv_float max_search_results per_page_f;
  math_ceil quotient.

(** The string without its whitespace characters. *)
Fixpoint without_whitespace (s : string) : string :=
  match s with
  | EmptyString => EmptyString
  | String c s' =>
      if is_whitespace c then without_whitespace s'
      else String c (without_whitespace s')
  end.

(** No character of the string is whitespace. *)
Fixpoint whitespace_free (s : string) : bool :=
  match s with
  | EmptyString => true
  | String c s' => negb (is_whitespace c) && whitespace_free s'
  end.

(** The strings of a list, one after the other. *)
Fixpoint concat_strings (l : list string) : string :=
  match l with
  | [] => EmptyString
  | s :: l' => s +:+ concat_strings l'
  end.

(** The two shapes of a token: a non-empty word without whitespace, or
    a quoted string, from a quote to the next occurrence of the same
    quote, both kept. *)
Definition token_shape (item : string) : Prop :=
  (item <> EmptyString /\ whitespace_free item = true) \/
  (exists q body,
     is_quote q = true /\ char_free q body = true /\
     item = String q (body +:+ String q EmptyString)).

Definition with_user (user : option Z) (r : Request) : Request :=
  {| term := term r; user := user; sort := sort r; order := order r;
     category := category r; quality_filter := quality_filter r; page := page r;
     rss := rss r; admin := admin r; logged_in_user := logged_in_user r;
     per_page := per_page r; max_search_results := max_search_results r |}.

Definition with_admin (admin : bool) (r : Request) : Request :=
  {| term := term r; user := user r; sort := sort r; order := order r;
     category := category r; quality_filter := quality_filter r; page := page r;
     rss := rss r; admin := admin; logged_in_user := logged_in_user r;
     per_page := per_page r; max_search_results := max_search_results r |}.

Definition with_page (page : Z) (r : Request) : Request :=
  {| term := term r; user := user r; sort := sort r; order := order r;
     category := category r; quality_filter := quality_filter r; page := page;
     rss := rss r; admin := admin r; logged_in_user := logged_in_user r;
     per_page := per_page r; max_search_results := max_search_results r |}.

(** * Properties *)

(** ** The dicts *)

Local Ltac nodup_keys := apply (bool_decide_unpack _); vm_compute; exact I.

Lemma es_sort_keys_lookup k v :
  es_sort_keys !! k = Some v <->
  (k, v) ∈ [("id", "id"); ("size", "filesize"); ("seeders", "seed_count");
            ("leechers", "leech_count"); ("downloads", "download_count")].
Proof. unfold es_sort_keys. rewrite <- elem_of_list_to_map; [done | nodup_keys]. Qed.

Lemma sort_keys_lookup k v :
  sort_keys !! k = Some v <->
  (k, v) ∈ [("id", Torrent_id); ("size", Torrent_filesize);
            ("seeders", Statistic_seed_count); ("leechers", Statistic_leech_count);
            ("downloads", Statistic_download_count)].
Proof. unfold sort_keys. rewrite <- elem_of_list_to_map; [done | nodup_keys]. Qed.

Lemma es_sort_keys_None k : es_sort_keys !! k = None <-> k ∉ valid_sort_keys.
Proof. unfold es_sort_keys. by rewrite <- not_elem_of_list_to_map. Qed.

Lemma sort_keys_None k : sort_keys !! k = None <-> k ∉ valid_sort_keys.
Proof. unfold sort_keys. by rewrite <- not_elem_of_list_to_map. Qed.

Lemma order_keys_None k : order_keys !! k = None <-> k ∉ valid_orders.
Proof. unfold order_keys. by rewrite <- not_elem_of_list_to_map. Qed.

Lemma contains_true {V} (d : gmap string V) k :
  contains d k = true <-> d !! k <> None.
Proof.
  unfold contains. rewrite bool_decide_eq_true, <- not_eq_None_Some. done.
Qed.

Lemma contains_es_sort_keys k : contains es_sort_keys k = true <-> k ∈ valid_sort_keys.
Proof.
  rewrite contains_true, es_sort_keys_None.
  split; [apply dec_stable | auto].
Qed.

Lemma contains_sort_keys k : contains sort_keys k = true <-> k ∈ valid_sort_keys.
Proof.
  rewrite contains_true, sort_keys_None.
  split; [apply dec_stable | auto].
Qed.

Lemma contains_order_keys k : contains order_keys k = true <-> k ∈ valid_orders.
Proof.
  rewrite contains_true, order_keys_None.
  split; [apply dec_stable | auto].
Qed.

Lemma getitem_None {V} (d : gmap string V) k :
  d !! k = None -> getitem d k = Raise (KeyError k).
Proof. unfold getitem. by intros ->. Qed.

Lemma getitem_Some {V} (d : gmap string V) k v :
  d !! k = Some v -> getitem d k = Ok v.
Proof. unfold getitem. by intros ->. Qed.

(** ** Sort keys that are valid only after lower-casing *)

(** C9: a sort parameter that is one of the five keys only after
    lower-casing passes the validation of both functions, which tests
    the lower-cased string, and then fails the lookup of the original
    string in the sort-key dict: both calls raise [KeyError] with the
    original string as key, neither the 400 rejection nor a query. *)
Theorem sort_case_variant_raises_KeyError models config r :
  lower (sort r) ∈ valid_sort_keys ->
  sort r ∉ valid_sort_keys ->
  contains es_sort_keys (lower (sort r)) = true /\
  contains sort_keys (lower (sort r)) = true /\
  search_elastic models config r = Raise (KeyError (sort r)) /\
  search_db models r = Raise (KeyError (sort r)).
Proof.
  intros Hlow Hraw.
  pose proof (proj2 (contains_es_sort_keys _) Hlow) as Hes.
  pose proof (proj2 (contains_sort_keys _) Hlow) as Hdb.
  repeat split; try done.
  - unfold search_elastic.
    by rewrite Hes, (getitem_None _ _ (proj2 (es_sort_keys_None _) Hraw)).
  - unfold search_db.
    by rewrite Hdb, (getitem_None _ _ (proj2 (sort_keys_None _) Hraw)).
Qed.

Lemma sort_case_variant_raises_KeyError_witness :
  (lower "ID" ∈ valid_sort_keys) /\ ("ID" ∉ valid_sort_keys) /\
  search_elastic nyaa_models nyaa_config (with_sort "ID" "desc" false default_request)
    = Raise (KeyError "ID") /\
  search_db nyaa_models (with_sort "ID" "desc" false default_request)
    = Raise (KeyError "ID").
Proof.
  assert (H1 : lower "ID" ∈ valid_sort_keys) by (apply (bool_decide_unpack _); vm_compute; exact I).
  assert (H2 : "ID" ∉ valid_sort_keys) by (apply (bool_decide_unpack _); vm_compute; exact I).
  split; [exact H1 | split; [exact H2 |]].
  exact (proj2 (proj2 (sort_case_variant_raises_KeyError nyaa_models nyaa_config
                  (with_sort "ID" "desc" false default_request) H1 H2))).
Defined.

(** ** The error monad *)

Lemma bind_Ok {A B} (m : result A) (f : A -> result B) b :
  m ≫= f = Ok b <-> exists a, m = Ok a /\ f a = Ok b.
Proof.
  destruct m as [a|e]; cbn; split.
  - eauto.
  - by intros (a' & [= ->] & ?).
  - done.
  - by intros (a' & [=] & ?).
Qed.

Lemma abort_if_Ok c code u : abort_if c code = Ok u <-> c = false.
Proof. destruct c, u; cbn; split; done. Qed.

Lemma abort_if_false code : abort_if false code = Ok tt.
Proof. done. Qed.

Lemma abort_if_true code : abort_if true code = Raise (HTTPException code).
Proof. done. Qed.

(** Taking a successful run apart, one step at a time. *)
Local Tactic Notation "inv_bind" hyp(H) "as" simple_intropattern(a) simple_intropattern(Ha) :=
  apply bind_Ok in H as (a & Ha & H).

(** ** What a successful call went through *)

Lemma rss_pair_Ok {K} (d : gmap string K) (rss : bool) (k : K) sort order p :
  d !! "id" = Some k ->
  (if rss then id_key ← getitem d "id"; Ok (id_key, "desc") else Ok (sort, order)) = Ok p ->
  p = if rss then (k, "desc") else (sort, order).
Proof.
  intros Hid. destruct rss; cbn.
  - rewrite (getitem_Some _ _ _ Hid). cbn. congruence.
  - congruence.
Qed.

Lemma search_elastic_Ok models config r s :
  search_elastic models config r = Ok s ->
  exists es_sort qf main_category sub_category main_cat_id sub_cat_id u s',
    lower (sort r) ∈ valid_sort_keys /\
    es_sort_keys !! sort r = Some es_sort /\
    lower (order r) ∈ valid_orders /\
    lower (quality_filter r) ∈ quality_keys /\
    int (quality_filter r) = Ok qf /\
    es_category models (category r)
      = Ok (main_category, sub_category, main_cat_id, sub_cat_id) /\
    resolve_user models (user r) = Ok u /\
    es_window (rss r) (page r) (per_page r) (max_search_results r)
      (Search_sort
         (if bool_decide ("desc" = if rss r then "desc" else order r)
          then "-" +:+ es_sort else es_sort)
         (es_quality_filter qf
            (es_category_filter main_category sub_category main_cat_id sub_cat_id
               (es_view u (logged_in_user r) (rss r) (admin r)
                  (if str_truthy (term r)
                   then Search_query
                          (Q_simple_query_string "my_search_analyzer" "AND" (term r))
                          (Search_new (ES_INDEX_NAME config))
                   else Search_new (ES_INDEX_NAME config)))))) = Ok s' /\
    s = (if ENABLE_ELASTIC_SEARCH_HIGHLIGHT config
         then Search_highlight "display_name" (Search_highlight_options "styled" s')
         else s').
Proof.
  unfold search_elastic. intros H.
  inv_bind H as [] Hsort_. apply abort_if_Ok, negb_false_iff, contains_es_sort_keys in Hsort_.
  inv_bind H as es_sort Hsort. unfold getitem in Hsort.
  destruct (es_sort_keys !! sort r) as [es_sort'|] eqn:Hlookup; [|done].
  injection Hsort as ->.
  inv_bind H as [] Horder_. apply abort_if_Ok, negb_false_iff, contains_order_keys in Horder_.
  inv_bind H as [sort' order'] Hrss.
  apply (rss_pair_Ok _ _ "id") in Hrss; [|done].
  assert (Horder : order' = if rss r then "desc" else order r)
    by (destruct (rss r); congruence).
  clear Hrss. subst order'.
  inv_bind H as [] Hq. apply abort_if_Ok, negb_false_iff, bool_decide_eq_true in Hq.
  inv_bind H as qf Hqf.
  inv_bind H as [[[main_category sub_category] main_cat_id] sub_cat_id] Hcat.
  inv_bind H as u Hu.
  inv_bind H as s' Hs'.
  injection H as <-.
  by exists es_sort, qf, main_category, sub_category, main_cat_id, sub_cat_id, u, s'.
Qed.

Lemma search_elastic_run models config r
    es_sort qf main_category sub_category main_cat_id sub_cat_id u s' :
  lower (sort r) ∈ valid_sort_keys ->
  es_sort_keys !! sort r = Some es_sort ->
  lower (order r) ∈ valid_orders ->
  lower (quality_filter r) ∈ quality_keys ->
  int (quality_filter r) = Ok qf ->
  es_category models (category r)
    = Ok (main_category, sub_category, main_cat_id, sub_cat_id) ->
  resolve_user models (user r) = Ok u ->
  es_window (rss r) (page r) (per_page r) (max_search_results r)
    (Search_sort
       (if bool_decide ("desc" = if rss r then "desc" else order r)
        then "-" +:+ es_sort else es_sort)
       (es_quality_filter qf
          (es_category_filter main_category sub_category main_cat_id sub_cat_id
             (es_view u (logged_in_user r) (rss r) (admin r)
                (if str_truthy (term r)
                 then Search_query
                        (Q_simple_query_string "my_search_analyzer" "AND" (term r))
                        (Search_new (ES_INDEX_NAME config))
                 else Search_new (ES_INDEX_NAME config)))))) = Ok s' ->
  search_elastic models config r
    = Ok (if ENABLE_ELASTIC_SEARCH_HIGHLIGHT config
          then Search_highlight "display_name" (Search_highlight_options "styled" s')
          else s').
Proof.
  intros Hsort_ Hsort Horder_ Hq Hqf Hcat Hu Hs'.
  unfold search_elastic.
  rewrite (proj2 (contains_es_sort_keys _) Hsort_), (getitem_Some _ _ _ Hsort).
  rewrite (proj2 (contains_order_keys _) Horder_).
  rewrite (bool_decide_eq_true_2 _ Hq), Hqf, Hcat, Hu.
  destruct (rss r); [rewrite (getitem_Some _ "id" "id") by done|];
    cbn [negb abort_if mbind result_bind]; by rewrite Hs'.
Qed.

Lemma search_db_Ok models r q :
  search_db models r = Ok q ->
  exists column filter_tuple u main_category sub_category main_cat_id sub_cat_id q' ordering,
    lower (sort r) ∈ valid_sort_keys /\
    sort_keys !! sort r = Some column /\
    lower (order r) ∈ valid_orders /\
    filter_keys models !! lower (quality_filter r) = Some filter_tuple /\
    resolve_user models (user r) = Ok u /\
    db_category models (category r)
      = Ok (main_category, sub_category, main_cat_id, sub_cat_id) /\
    db_term_filter (term r)
      (db_quality_filter filter_tuple
         (db_category_filter main_category sub_category main_cat_id sub_cat_id
            (db_view models u (logged_in_user r) (rss r) (admin r)
               (if str_truthy (term r) then Query_new TorrentNameSearch
                else Query_new Torrent_)))) = Ok q' /\
    getattr_call (if rss r then Torrent_id else column)
                 (if rss r then "desc" else order r) = Ok ordering /\
    q = (if rss r then Query_limit (per_page r)
         else Query_paginate_faste (page r) (per_page r) 5)
          (Query_order_by ordering
             (let sort := if rss r then Torrent_id else column in
              if negb (bool_decide (class_ sort = Torrent_))
              then Query_join (class_ sort) q' else q')).
Proof.
  unfold search_db. intros H.
  inv_bind H as [] Hsort_. apply abort_if_Ok, negb_false_iff, contains_sort_keys in Hsort_.
  inv_bind H as column Hsort. unfold getitem in Hsort.
  destruct (sort_keys !! sort r) as [column'|] eqn:Hlookup; [|done].
  injection Hsort as ->.
  inv_bind H as [] Horder_. apply abort_if_Ok, negb_false_iff, contains_order_keys in Horder_.
  inv_bind H as filter_tuple Hq.
  destruct (filter_keys models !! lower (quality_filter r)) as [ft|] eqn:Hft; [|done].
  injection Hq as ->.
  inv_bind H as u Hu.
  inv_bind H as [[[main_category sub_category] main_cat_id] sub_cat_id] Hcat.
  inv_bind H as [sort' order'] Hrss.
  apply (rss_pair_Ok _ _ Torrent_id) in Hrss; [|done].
  assert (Hpair : sort' = (if rss r then Torrent_id else column) /\
                  order' = (if rss r then "desc" else order r))
    by (destruct (rss r); split; congruence).
  clear Hrss. destruct Hpair as [-> ->].
  inv_bind H as q' Hq'.
  inv_bind H as ordering Hordering.
  injection H as <-.
  exists column, filter_tuple, u, main_category, sub_category, main_cat_id, sub_cat_id,
    q', ordering.
  repeat split; try done. by destruct (rss r).
Qed.


(** ** What the last steps keep of a search and of a query *)

Lemma es_window_Ok rss page per_page max_search_results s s' :
  es_window rss page per_page max_search_results s = Ok s' ->
  exists from_idx to_idx,
    s' = Search_getitem from_idx to_idx s /\
    forall s0, es_window rss page per_page max_search_results s0
               = Ok (Search_getitem from_idx to_idx s0).
Proof.
  unfold es_window. destruct rss.
  - intros [= <-]. eauto.
  - intros H.
    inv_bind H as per_page_f Hf. inv_bind H as quotient Hquot.
    inv_bind H as pages Hpages. injection H as <-.
    rewrite Hf. cbn. rewrite Hquot. cbn. rewrite Hpages. cbn. eauto.
Qed.

Lemma search_elastic_sort models config r s :
  search_elastic models config r = Ok s ->
  exists es_sort,
    es_sort_keys !! sort r = Some es_sort /\
    s_sort s = [if bool_decide ("desc" = if rss r then "desc" else order r)
                then "-" +:+ es_sort else es_sort].
Proof.
  intros H. apply search_elastic_Ok in H
    as (es_sort & qf & mc & sc & m & sid & u & s' & _ & Hsort & _ & _ & _ & _ & _ & Hs' & ->).
  exists es_sort. split; [done|].
  apply es_window_Ok in Hs' as (from_idx & to_idx & -> & _).
  by destruct (ENABLE_ELASTIC_SEARCH_HIGHLIGHT config).
Qed.

Lemma search_db_order_by models r q :
  search_db models r = Ok q ->
  exists column ordering,
    sort_keys !! sort r = Some column /\
    getattr_call (if rss r then Torrent_id else column)
                 (if rss r then "desc" else order r) = Ok ordering /\
    q_order_by q = [ordering].
Proof.
  intros H. apply search_db_Ok in H
    as (column & ft & u & mc & sc & m & sid & q' & ordering
        & _ & Hsort & _ & _ & _ & _ & Hq' & Hordering & ->).
  exists column, ordering. repeat split; try done.
  assert (Hnil : q_order_by q' = []).
  { unfold db_term_filter in Hq'.
    assert (Hitems : forall items q0, q_order_by (db_term_items items q0) = q_order_by q0).
    { induction items as [|item items IH]; intros q0; cbn; [done|].
      rewrite IH. by destruct (2 <=? len item). }
    assert (Hbase : q_order_by
        (db_quality_filter ft (db_category_filter mc sc m sid
           (db_view models u (logged_in_user r) (rss r) (admin r)
              (if str_truthy (term r) then Query_new TorrentNameSearch
               else Query_new Torrent_)))) = []).
    { unfold db_quality_filter, db_category_filter, db_view, db_user_view, db_general_view.
      repeat case_match; done. }
    destruct (str_truthy (term r)) eqn:Hterm.
    - inv_bind Hq' as items Hsplit. injection Hq' as <-. by rewrite Hitems.
    - by injection Hq' as <-. }
  destruct (rss r); cbn; repeat case_match; cbn; by rewrite Hnil.
Qed.

(** For an RSS request [search_db] orders by [id], descending, whatever
    sort and order the caller gave. *)
Lemma search_db_rss_order_by models r q :
  rss r = true ->
  search_db models r = Ok q ->
  q_order_by q = [desc Torrent_id].
Proof.
  intros Hrss H. apply search_db_order_by in H as (column & ordering & _ & Hord & ->).
  rewrite Hrss in Hord. by injection Hord as <-.
Qed.

(** For an RSS request [search_elastic] sorts descending, by the key of
    the caller. *)
Lemma search_elastic_rss_sort models config r s :
  rss r = true ->
  search_elastic models config r = Ok s ->
  exists es_sort, es_sort_keys !! sort r = Some es_sort /\ s_sort s = ["-" +:+ es_sort].
Proof.
  intros Hrss H. apply search_elastic_sort in H as (es_sort & Hsort & ->).
  rewrite Hrss. by exists es_sort.
Qed.

(** ** RSS requests and the forced sort *)

(** C1 (the code departs from the claim): for an RSS request both
    functions are to sort by [id], descending, whatever the caller
    asked for.  [search_db] does; [search_elastic] has looked the
    caller's key up before it overwrites [sort], so for [sort='size']
    the compiled search sorts by [-filesize]: descending, on the
    caller's key. *)
Theorem rss_sort_key_not_forced_in_search_elastic :
  let r := with_sort "size" "asc" true default_request in
  (exists s, search_elastic nyaa_models nyaa_config r = Ok s /\ s_sort s = ["-filesize"]) /\
  (exists q, search_db nyaa_models r = Ok q /\ q_order_by q = [desc Torrent_id]).
Proof. split; eexists; split; vm_compute; reflexivity. Qed.

(** ** Category codes *)

Lemma span_digits_all_digits s d r : span_digits s = (d, r) -> all_digits d = true.
Proof.
  revert d r. induction s as [|c s IH]; intros d r; cbn.
  - by intros [= <- <-].
  - destruct (is_digit c) eqn:Hc.
    + destruct (span_digits s) as [d' r'] eqn:Hs. intros [= <- <-].
      cbn. rewrite Hc. by eapply IH.
    + by intros [= <- <-].
Qed.

Lemma int_digits_all_digits s acc :
  all_digits s = true -> 0 <= acc -> exists n, int_digits acc s = Ok n /\ 0 <= n.
Proof.
  revert acc. induction s as [|c s IH]; intros acc; cbn.
  - eauto.
  - intros [Hc Hs]%andb_true_iff Hacc. rewrite Hc. apply IH; [done|].
    unfold is_digit in Hc. apply andb_true_iff in Hc as [Hlo%N.leb_le _].
    unfold digit_value. lia.
Qed.

(** The two groups of a matching category code are numbers. *)
Lemma cat_match_int category g1 g2 :
  cat_match category = Some (g1, g2) ->
  exists main_cat_id sub_cat_id,
    int g1 = Ok main_cat_id /\ int g2 = Ok sub_cat_id /\
    0 <= main_cat_id /\ 0 <= sub_cat_id.
Proof.
  unfold cat_match. intros H.
  destruct (span_digits category) as [d1 r1] eqn:H1.
  destruct d1 as [|c1 d1]; [done|].
  destruct r1 as [|u r2]; [done|].
  destruct (span_digits r2) as [d2 r3] eqn:H2.
  apply span_digits_all_digits in H1, H2.
  repeat case_match; try done. injection H as <- <-.
  destruct (int_digits_all_digits _ 0 H1) as (m & Hm & ?); [done|].
  destruct (int_digits_all_digits _ 0 H2) as (n & Hn & ?); [done|].
  by exists m, n.
Qed.


(** [search_elastic] goes on only with a category it found. *)
Lemma es_category_known models category main_category sub_category main_cat_id sub_cat_id :
  es_category models category
    = Ok (main_category, sub_category, main_cat_id, sub_cat_id) ->
  0 < main_cat_id ->
  if 0 <? sub_cat_id
  then main_category = None /\
       sub_category = SubCategory_by_category_ids models main_cat_id sub_cat_id /\
       is_Some sub_category
  else sub_category = None /\
       main_category = MainCategory_by_id models main_cat_id /\
       is_Some main_category.
Proof.
  unfold es_category. intros H Hmain.
  destruct (str_truthy category); [|injection H as <- <- <- <-; lia].
  destruct (cat_match category) as [[g1 g2]|]; [|done].
  inv_bind H as m Hm. inv_bind H as n Hn.
  destruct (0 <? m) eqn:Hpos.
  - destruct (0 <? n) eqn:Hsub.
    + inv_bind H as [] Hfound. injection H as <- <- <- <-. rewrite Hsub.
      apply abort_if_Ok, negb_false_iff, bool_decide_eq_true in Hfound. done.
    + inv_bind H as [] Hfound. injection H as <- <- <- <-. rewrite Hsub.
      apply abort_if_Ok, negb_false_iff, bool_decide_eq_true in Hfound. done.
  - injection H as <- <- <- <-. lia.
Qed.

(** A request for a category that the catalogue does not know never
    compiles in [search_elastic]. *)
Lemma search_elastic_unknown_category models config r g1 g2 main_cat_id sub_cat_id :
  cat_match (category r) = Some (g1, g2) ->
  int g1 = Ok main_cat_id ->
  int g2 = Ok sub_cat_id ->
  0 < main_cat_id ->
  (if 0 <? sub_cat_id
   then SubCategory_by_category_ids models main_cat_id sub_cat_id = None
   else MainCategory_by_id models main_cat_id = None) ->
  forall s, search_elastic models config r <> Ok s.
Proof.
  intros Hmatch Hg1 Hg2 Hmain Hunknown s H.
  apply search_elastic_Ok in H
    as (es_sort & qf & mc & sc & m & sid & u & s' & _ & _ & _ & _ & _ & Hcat & _).
  assert (Hids : m = main_cat_id /\ sid = sub_cat_id).
  { unfold es_category in Hcat.
    destruct (str_truthy (category r)) eqn:Htruthy.
    - rewrite Hmatch, Hg1, Hg2 in Hcat. cbn [mbind result_bind] in Hcat.
      repeat case_match; try done;
        first [ by injection Hcat as _ _ <- <-
              | by (inv_bind Hcat as [] Hfound; injection Hcat as _ _ <- <-) ].
    - unfold str_truthy in Htruthy.
      apply negb_false_iff, bool_decide_eq_true in Htruthy.
      by rewrite Htruthy in Hmatch. }
  destruct Hids as [-> ->].
  pose proof (es_category_known _ _ _ _ _ _ Hcat Hmain) as Hknown.
  destruct (0 <? sub_cat_id).
  - destruct Hknown as (_ & -> & [x Hx]). congruence.
  - destruct Hknown as (_ & -> & [x Hx]). congruence.
Qed.

(** C3 (the code departs from the claim): a request whose main
    category, or whose (main, sub) pair, is not in the catalogue is to
    be rejected with a 400 by both functions.  [search_elastic] does;
    the test of [search_db] after its lookups is on the argument
    string, which is not empty there, so it never fires: the request
    for the unknown main category 9, and the one for the unknown pair
    (1, 9), compile to a query without any category filter. *)
Theorem unknown_category_not_rejected_by_search_db :
  MainCategory_by_id nyaa_models 9 = None /\
  SubCategory_by_category_ids nyaa_models 1 9 = None /\
  search_elastic nyaa_models nyaa_config (with_category "9_0" default_request)
    = Raise (HTTPException 400) /\
  search_elastic nyaa_models nyaa_config (with_category "1_9" default_request)
    = Raise (HTTPException 400) /\
  (exists q, search_db nyaa_models (with_category "9_0" default_request) = Ok q /\
             q_filter q = [E_flags_is 32 false; E_flags_is 2 false]) /\
  (exists q, search_db nyaa_models (with_category "1_9" default_request) = Ok q /\
             q_filter q = [E_flags_is 32 false; E_flags_is 2 false]).
Proof.
  repeat split; try (vm_compute; reflexivity);
    eexists; split; vm_compute; reflexivity.
Qed.

(** ** Orders that are valid only after lower-casing *)

Lemma getattr_call_case_variant column order :
  lower order = "desc" -> order <> "desc" ->
  getattr_call column order = Raise (AttributeError order).
Proof.
  intros Hlow Hraw. unfold getattr_call.
  rewrite (bool_decide_eq_false_2 _ Hraw).
  case_bool_decide as Hasc; [|done].
  subst order. vm_compute in Hlow. done.
Qed.

(** The claim C10 as it is written fails on RSS requests: there the
    order is replaced by ['desc'] before the comparison, and the
    compiled search sorts descending. *)
Lemma order_case_variant_rss_counterexample :
  ~ (forall models config r s,
       lower (order r) = "desc" -> order r <> "desc" ->
       search_elastic models config r = Ok s ->
       exists es_sort, es_sort_keys !! sort r = Some es_sort /\ s_sort s = [es_sort]).
Proof.
  intros H.
  destruct (H nyaa_models nyaa_config (with_sort "id" "DESC" true default_request)
              {| s_index := Some "nyaa"; s_query := None;
                 s_filter := [Q_term "deleted" (Bool_ false);
                              Q_term "hidden" (Bool_ false)];
                 s_sort := ["-id"]; s_slice := Some (0, 75);
                 s_highlight_options := None; s_highlight := [] |})
    as (es_sort & Hkey & Hsorted).
  - vm_compute. reflexivity.
  - vm_compute. discriminate.
  - vm_compute. reflexivity.
  - vm_compute in Hkey. injection Hkey as <-. cbn in Hsorted. discriminate.
Qed.

(** C10, amended: for a request that is not RSS and whose order is
    ['desc'] only after lower-casing, the validation accepts the order;
    [search_elastic] compares the original string with ['desc'], adds
    no ['-'] prefix, and the compiled search sorts ascending where the
    same request with order ['desc'] sorts descending; [search_db] uses
    the original string as the attribute name of the direction, which a
    column does not have, so the call that compiles with order ['desc']
    raises [AttributeError] and no query is returned. *)
Theorem order_case_variant_non_rss models config r :
  lower (order r) = "desc" ->
  order r <> "desc" ->
  rss r = false ->
  contains order_keys (lower (order r)) = true /\
  (forall s, search_elastic models config r = Ok s ->
     exists es_sort, es_sort_keys !! sort r = Some es_sort /\ s_sort s = [es_sort]) /\
  (forall s, search_elastic models config (with_order "desc" r) = Ok s ->
     exists es_sort,
       es_sort_keys !! sort r = Some es_sort /\
       s_sort s = ["-" +:+ es_sort] /\
       search_elastic models config r = Ok (Search_sort es_sort s)) /\
  (forall q, search_db models r <> Ok q) /\
  (forall q, search_db models (with_order "desc" r) = Ok q ->
     search_db models r = Raise (AttributeError (order r))).
Proof.
  intros Hlow Hraw Hrss.
  assert (Hvalid : lower (order r) ∈ valid_orders) by (rewrite Hlow; set_solver).
  split; [by apply contains_order_keys|].
  split; [|split; [|split]].
  - intros s H. apply search_elastic_sort in H as (es_sort & Hsort & ->).
    exists es_sort. split; [done|]. rewrite Hrss.
    by rewrite bool_decide_eq_false_2.
  - intros s H. apply search_elastic_Ok in H
      as (es_sort & qf & mc & sc & m & sid & u & s' & Hs_ & Hsort & _ & Hq & Hqf
          & Hcat & Hu & Hs' & ->).
    cbn [sort order with_order rss quality_filter category user term page per_page
         max_search_results logged_in_user admin] in *.
    rewrite Hrss in Hs'.
    apply es_window_Ok in Hs' as (from_idx & to_idx & -> & Hwin).
    exists es_sort. split; [done|]. split.
    { by destruct (ENABLE_ELASTIC_SEARCH_HIGHLIGHT config). }
    eapply eq_trans;
      [eapply search_elastic_run; try done; rewrite Hrss; apply Hwin|].
    rewrite (bool_decide_eq_false_2 _ (not_eq_sym Hraw)).
    by destruct (ENABLE_ELASTIC_SEARCH_HIGHLIGHT config).
  - intros q H. apply search_db_order_by in H as (column & ordering & _ & Hord & _).
    rewrite Hrss, getattr_call_case_variant in Hord; done.
  - intros q H. apply search_db_Ok in H
      as (column & ft & u & mc & sc & m & sid & q' & ordering
          & Hs_ & Hsort & _ & Hft & Hu & Hcat & Hq' & _ & _).
    cbn [sort order with_order rss quality_filter category user term page per_page
         max_search_results logged_in_user admin] in *.
    unfold search_db.
    rewrite (proj2 (contains_sort_keys _) Hs_), (getitem_Some _ _ _ Hsort).
    rewrite (proj2 (contains_order_keys _) Hvalid).
    rewrite Hft, Hu, Hcat, Hrss.
    cbn [negb abort_if mbind result_bind]. rewrite Hrss in Hq'. rewrite Hq'.
    cbn [mbind result_bind].
    by rewrite getattr_call_case_variant.
Qed.

Lemma order_case_variant_non_rss_witness :
  lower "DESC" = "desc" /\ "DESC" <> "desc" /\
  search_elastic nyaa_models nyaa_config (with_order "DESC" default_request)
    = Ok (Search_sort "id"
            {| s_index := Some "nyaa"; s_query := None;
               s_filter := [Q_term "deleted" (Bool_ false);
                            Q_term "hidden" (Bool_ false)];
               s_sort := ["-id"]; s_slice := Some (0, 75);
               s_highlight_options := None; s_highlight := [] |}) /\
  search_db nyaa_models (with_order "DESC" default_request)
    = Raise (AttributeError "DESC").
Proof.
  assert (H1 : lower (order (with_order "DESC" default_request)) = "desc")
    by (vm_compute; reflexivity).
  assert (H2 : order (with_order "DESC" default_request) <> "desc")
    by (vm_compute; discriminate).
  assert (H3 : rss (with_order "DESC" default_request) = false) by reflexivity.
  destruct (order_case_variant_non_rss nyaa_models nyaa_config
              (with_order "DESC" default_request) H1 H2 H3)
    as (_ & _ & Hes & _ & Hdb).
  split; [exact H1 | split; [exact H2 | split]].
  - destruct (Hes {| s_index := Some "nyaa"; s_query := None;
                     s_filter := [Q_term "deleted" (Bool_ false);
                                  Q_term "hidden" (Bool_ false)];
                     s_sort := ["-id"]; s_slice := Some (0, 75);
                     s_highlight_options := None; s_highlight := [] |})
      as (es_sort & Hkey & _ & Hrun); [vm_compute; reflexivity |].
    vm_compute in Hkey. injection Hkey as <-. exact Hrun.
  - eapply Hdb. vm_compute. reflexivity.
Defined.

(** ** Quality codes *)

(** Lower-casing leaves a digit alone and makes no other character a
    digit. *)
Lemma lower_char_digit c : is_digit (lower_char c) = true -> lower_char c = c.
Proof.
  destruct c as [[] [] [] [] [] [] [] []]; vm_compute; congruence.
Qed.

Lemma lower_all_digits s : all_digits (lower s) = true -> lower s = s.
Proof.
  induction s as [|c s IH]; cbn; [done|].
  intros [Hc Hs]%andb_true_iff. by rewrite lower_char_digit, IH.
Qed.

Lemma quality_keys_all_digits k : k ∈ quality_keys -> all_digits k = true.
Proof.
  unfold quality_keys. rewrite !elem_of_cons, elem_of_nil.
  intros [->|[->|[->|[->|[]]]]]; reflexivity.
Qed.

Lemma lower_quality_key code : lower code ∈ quality_keys <-> code ∈ quality_keys.
Proof.
  split; intros H.
  - by rewrite <- (lower_all_digits code (quality_keys_all_digits _ H)).
  - by rewrite (lower_all_digits code);
      [|apply quality_keys_all_digits in H as Hd;
        revert H; unfold quality_keys; rewrite !elem_of_cons, elem_of_nil;
        intros [->|[->|[->|[->|[]]]]]; reflexivity].
Qed.

Lemma filter_keys_None models k : filter_keys models !! k = None <-> k ∉ quality_keys.
Proof. unfold filter_keys. by rewrite <- not_elem_of_list_to_map. Qed.

Lemma filter_keys_lookup models k v :
  filter_keys models !! k = Some v <->
  (k, v) ∈ [("0", None); ("1", Some (REMAKE models, false));
            ("2", Some (TRUSTED models, true)); ("3", Some (COMPLETE models, true))].
Proof. unfold filter_keys. rewrite <- elem_of_list_to_map; [done | nodup_keys]. Qed.

(** ** Each step only adds filters *)

Lemma es_view_filter u liu rss admin s :
  s_filter (es_view u liu rss admin s)
  = s_filter s ++ s_filter (es_view u liu rss admin (Search_new None)).
Proof.
  unfold es_view, es_user_view, es_general_view.
  repeat case_match; cbn; rewrite <- ?app_assoc, ?app_nil_r; done.
Qed.

Lemma es_category_filter_filter mc sc m sid s :
  s_filter (es_category_filter mc sc m sid s)
  = s_filter s ++ s_filter (es_category_filter mc sc m sid (Search_new None)).
Proof.
  unfold es_category_filter.
  repeat case_match; cbn; rewrite <- ?app_assoc, ?app_nil_r; done.
Qed.

Lemma es_quality_filter_filter qf s :
  s_filter (es_quality_filter qf s)
  = s_filter s ++ s_filter (es_quality_filter qf (Search_new None)).
Proof.
  unfold es_quality_filter.
  repeat case_match; cbn; rewrite ?app_nil_r; done.
Qed.

Lemma db_view_filter models u liu rss admin q :
  q_filter (db_view models u liu rss admin q)
  = q_filter q ++ q_filter (db_view models u liu rss admin (Query_new Torrent_)).
Proof.
  unfold db_view, db_user_view, db_general_view.
  repeat case_match; cbn; rewrite <- ?app_assoc, ?app_nil_r; done.
Qed.

Lemma db_category_filter_filter mc sc m sid q :
  q_filter (db_category_filter mc sc m sid q)
  = q_filter q ++ q_filter (db_category_filter mc sc m sid (Query_new Torrent_)).
Proof.
  unfold db_category_filter.
  repeat case_match; cbn; rewrite ?app_nil_r; done.
Qed.

Lemma db_quality_filter_filter ft q :
  q_filter (db_quality_filter ft q)
  = q_filter q ++ q_filter (db_quality_filter ft (Query_new Torrent_)).
Proof.
  unfold db_quality_filter.
  repeat case_match; cbn; rewrite ?app_nil_r; done.
Qed.

(** The loop over the tokens adds one match predicate for each token of
    length 2 or more, in the order of the tokens. *)
Lemma db_term_items_filter items q :
  q_filter (db_term_items items q)
  = q_filter q ++
    map (fun item => E_FullTextSearch item TorrentNameSearch NATURAL)
        (List.filter (fun item => 2 <=? len item) items).
Proof.
  revert q. induction items as [|item items IH]; intros q; cbn.
  - by rewrite app_nil_r.
  - rewrite IH. destruct (2 <=? len item); cbn; [|done].
    by rewrite <- app_assoc.
Qed.

(** The filters of a compiled search: those of the view, then those of
    the category, then those of the quality code. *)
Lemma search_elastic_filter models config r s :
  search_elastic models config r = Ok s ->
  exists u main_category sub_category main_cat_id sub_cat_id qf,
    resolve_user models (user r) = Ok u /\
    es_category models (category r)
      = Ok (main_category, sub_category, main_cat_id, sub_cat_id) /\
    quality_filter r ∈ quality_keys /\
    int (quality_filter r) = Ok qf /\
    s_filter s
    = s_filter (es_view u (logged_in_user r) (rss r) (admin r) (Search_new None))
      ++ s_filter (es_category_filter main_category sub_category main_cat_id sub_cat_id
                     (Search_new None))
      ++ s_filter (es_quality_filter qf (Search_new None)).
Proof.
  intros H. apply search_elastic_Ok in H
    as (es_sort & qf & mc & sc & m & sid & u & s' & _ & _ & _ & Hq & Hqf
        & Hcat & Hu & Hs' & ->).
  exists u, mc, sc, m, sid, qf. apply (proj1 (lower_quality_key _)) in Hq.
  split; [done|]. split; [done|]. split; [done|]. split; [done|].
  apply es_window_Ok in Hs' as (from_idx & to_idx & -> & _).
  transitivity (s_filter (es_quality_filter qf
      (es_category_filter mc sc m sid
         (es_view u (logged_in_user r) (rss r) (admin r)
            (if str_truthy (term r)
             then Search_query
                    (Q_simple_query_string "my_search_analyzer" "AND" (term r))
                    (Search_new (ES_INDEX_NAME config))
             else Search_new (ES_INDEX_NAME config)))))).
  { by destruct (ENABLE_ELASTIC_SEARCH_HIGHLIGHT config). }
  rewrite es_quality_filter_filter, es_category_filter_filter, es_view_filter.
  rewrite <- app_assoc. by destruct (str_truthy (term r)).
Qed.

(** The filter criteria of a compiled query: those of the view, of the
    category and of the quality code, then the match predicates of the
    tokens of the term. *)
Lemma search_db_filter models r q :
  search_db models r = Ok q ->
  exists u main_category sub_category main_cat_id sub_cat_id filter_tuple items,
    resolve_user models (user r) = Ok u /\
    db_category models (category r)
      = Ok (main_category, sub_category, main_cat_id, sub_cat_id) /\
    filter_keys models !! lower (quality_filter r) = Some filter_tuple /\
    (if str_truthy (term r) then shlex_split (term r) = Ok items else items = []) /\
    q_filter q
    = q_filter (db_view models u (logged_in_user r) (rss r) (admin r) (Query_new Torrent_))
      ++ q_filter (db_category_filter main_category sub_category main_cat_id sub_cat_id
                     (Query_new Torrent_))
      ++ q_filter (db_quality_filter filter_tuple (Query_new Torrent_))
      ++ map (fun item => E_FullTextSearch item TorrentNameSearch NATURAL)
             (List.filter (fun item => 2 <=? len item) items).
Proof.
  intros H. apply search_db_Ok in H
    as (column & ft & u & mc & sc & m & sid & q' & ordering
        & _ & _ & _ & Hft & Hu & Hcat & Hq' & _ & ->).
  assert (Hitems : exists items,
    (if str_truthy (term r) then shlex_split (term r) = Ok items else items = []) /\
    q' = db_term_items items
           (db_quality_filter ft (db_category_filter mc sc m sid
              (db_view models u (logged_in_user r) (rss r) (admin r)
                 (if str_truthy (term r) then Query_new TorrentNameSearch
                  else Query_new Torrent_))))).
  { unfold db_term_filter in Hq'. destruct (str_truthy (term r)).
    - inv_bind Hq' as items Hsplit. injection Hq' as <-. by exists items.
    - injection Hq' as <-. by exists []. }
  destruct Hitems as (items & Hsplit & ->).
  exists u, mc, sc, m, sid, ft, items.
  split; [done|]. split; [done|]. split; [done|]. split; [done|].
  transitivity (q_filter (db_term_items items
      (db_quality_filter ft (db_category_filter mc sc m sid
         (db_view models u (logged_in_user r) (rss r) (admin r)
            (if str_truthy (term r) then Query_new TorrentNameSearch
             else Query_new Torrent_)))))).
  { destruct (rss r); cbn; by repeat case_match. }
  rewrite db_term_items_filter, db_quality_filter_filter, db_category_filter_filter,
    db_view_filter.
  rewrite <- !app_assoc. by destruct (str_truthy (term r)).
Qed.

Lemma lower_valid_sort_key k : k ∈ valid_sort_keys -> lower k = k.
Proof.
  unfold valid_sort_keys. rewrite !elem_of_cons, elem_of_nil.
  intros [->|[->|[->|[->|[->|[]]]]]]; reflexivity.
Qed.

Lemma es_quality_filter_terms code qf :
  code ∈ quality_keys ->
  int code = Ok qf ->
  s_filter (es_quality_filter qf (Search_new None)) = es_quality_terms code.
Proof.
  unfold quality_keys. rewrite !elem_of_cons, elem_of_nil.
  intros [->|[->|[->|[->|[]]]]]; intros [= <-]; reflexivity.
Qed.

Lemma db_quality_filter_exprs models code filter_tuple :
  filter_keys models !! lower code = Some filter_tuple ->
  q_filter (db_quality_filter filter_tuple (Query_new Torrent_))
  = db_quality_exprs models code.
Proof.
  intros H.
  assert (Hkey : code ∈ quality_keys).
  { apply (proj1 (lower_quality_key code)). apply dec_stable. intros Hn.
    apply (filter_keys_None models) in Hn. congruence. }
  rewrite (lower_all_digits code) in H.
  2:{ apply quality_keys_all_digits. by apply (proj2 (lower_quality_key code)). }
  apply filter_keys_lookup in H.
  rewrite !elem_of_cons, elem_of_nil in H.
  destruct H as [[= -> ->]|[[= -> ->]|[[= -> ->]|[[= -> ->]|[]]]]]; reflexivity.
Qed.



(** ** Visibility *)

Lemma land_lor_eqb_0 f a b :
  (Z.land f (Z.lor a b) =? 0) = (Z.land f a =? 0) && (Z.land f b =? 0).
Proof.
  rewrite Z.land_lor_distr_r.
  destruct (Z.land f a =? 0) eqn:Ha, (Z.land f b =? 0) eqn:Hb; cbn;
    rewrite ?Z.eqb_eq, ?Z.eqb_neq in *; rewrite Z.lor_eq_0_iff; tauto.
Qed.

Lemma term_uploader_matches models (t : Torrent) (u : Z) :
  bool_decide (doc_field models t "uploader_id" = Some (Int_ u))
  = bool_decide (uploader_id t = Some u).
Proof.
  apply bool_decide_ext. cbn. destruct (uploader_id t); cbn; split; congruence.
Qed.

Lemma term_flag_false_matches (b : bool) :
  bool_decide (Some (Bool_ b) = Some (Bool_ false)) = negb b.
Proof. by destruct b. Qed.

Lemma term_flag_true_matches (b : bool) :
  bool_decide (Some (Bool_ b) = Some (Bool_ true)) = b.
Proof. by destruct b. Qed.

(** Both sides are conjunctions of tests on the uploader and on bits
    of [flags]: evaluate the two filter lists on the record and compare. *)
Local Ltac compare_filters :=
  cbn -[doc_field]; rewrite ?term_uploader_matches; cbn;
  rewrite ?term_flag_false_matches, ?term_flag_true_matches, ?land_lor_eqb_0;
  unfold has_flag;
  rewrite ?negb_involutive, ?andb_true_r, ?andb_assoc.

(** C2: for every tuple of viewed user, logged-in user, admin flag and
    RSS flag, the visibility filters that [search_elastic] compiles
    (lines 101-145) and the ones that [search_db] compiles (lines
    255-289) are satisfied by exactly the same records; and these are
    the leading filters of the search and of the query that the two
    functions compile for a request. *)
Theorem visibility_equivalence models :
  (forall (u : option Z) (logged_in_user : option User) (rss admin : bool)
          simple_query_string_hit fulltext_hit (t : Torrent),
     forallb (es_matches models simple_query_string_hit t)
             (s_filter (es_view u logged_in_user rss admin (Search_new None)))
     = forallb (db_matches fulltext_hit t)
             (q_filter (db_view models u logged_in_user rss admin (Query_new Torrent_)))) /\
  (forall config r s q,
     search_elastic models config r = Ok s ->
     search_db models r = Ok q ->
     exists u es_rest db_rest,
       resolve_user models (user r) = Ok u /\
       s_filter s
       = s_filter (es_view u (logged_in_user r) (rss r) (admin r) (Search_new None))
         ++ es_rest /\
       q_filter q
       = q_filter (db_view models u (logged_in_user r) (rss r) (admin r)
                     (Query_new Torrent_))
         ++ db_rest).
Proof.
  split.
  - intros u logged_in_user rss admin sqs_hit ft_hit t.
    unfold es_view, db_view, es_user_view, db_user_view, es_general_view, db_general_view.
    destruct u as [u|]; [destruct (int_truthy u)|];
      destruct admin, rss, logged_in_user as [l|];
      try destruct (same_user_of (Some u) (Some l));
      by compare_filters.
  - intros config r s q Hs Hq.
    apply search_elastic_filter in Hs
      as (u & mc & sc & m & sid & qf & Hu & _ & _ & _ & ->).
    apply search_db_filter in Hq
      as (u' & mc' & sc' & m' & sid' & ft & items & Hu' & _ & _ & _ & ->).
    rewrite Hu in Hu'. injection Hu' as <-.
    by eexists u, _, _.
Qed.

Lemma visibility_equivalence_witness :
  exists s q es_rest db_rest,
    search_elastic nyaa_models nyaa_config default_request = Ok s /\
    search_db nyaa_models default_request = Ok q /\
    s_filter s = [Q_term "deleted" (Bool_ false); Q_term "hidden" (Bool_ false)] ++ es_rest /\
    q_filter q = [E_flags_is 32 false; E_flags_is 2 false] ++ db_rest.
Proof.
  eexists _, _.
  assert (Hs : search_elastic nyaa_models nyaa_config default_request = Ok
                 (Search_getitem 0 75
                    (Search_sort "-id"
                       (Search_filter (Q_term "hidden" (Bool_ false))
                          (Search_filter (Q_term "deleted" (Bool_ false))
                             (Search_new (Some "nyaa")))))))
    by (vm_compute; reflexivity).
  assert (Hq : search_db nyaa_models default_request = Ok
                 (Query_paginate_faste 1 75 5
                    (Query_order_by (desc Torrent_id)
                       (Query_filter (E_flags_is 2 false)
                          (Query_filter (E_flags_is 32 false) (Query_new Torrent_))))))
    by (vm_compute; reflexivity).
  destruct (proj2 (visibility_equivalence nyaa_models) nyaa_config default_request _ _ Hs Hq)
    as (u & es_rest & db_rest & Hu & Hes & Hdb).
  injection Hu as <-.
  exists es_rest, db_rest. split; [exact Hs|]. split; [exact Hq|].
  split; [exact Hes | exact Hdb].
Defined.

Lemma resolve_user_absent models user :
  opt_int_truthy user = false -> resolve_user models user = Ok user.
Proof. unfold resolve_user. by intros ->. Qed.

(** C4: profile view, not admin.  Both functions filter on the viewed
    uploader and on deleted=false; they add hidden=false and
    anonymous=false unless the logged-in viewer is the viewed user and
    the request is not RSS.  So the owner outside RSS is shown that
    user's hidden and anonymous records, every other viewer and every
    RSS request is not, and a deleted record is never shown. *)
Theorem profile_view_visibility models config r u :
  admin r = false ->
  resolve_user models (user r) = Ok (Some u) ->
  u <> 0 ->
  let owner_outside_rss :=
    match logged_in_user r with
    | Some l => bool_decide (user_id l = u)
    | None => false
    end && negb (rss r) in
  let es_visibility :=
    [Q_term "uploader_id" (Int_ u); Q_term "deleted" (Bool_ false)]
    ++ (if owner_outside_rss then []
        else [Q_term "hidden" (Bool_ false); Q_term "anonymous" (Bool_ false)]) in
  let db_visibility :=
    [E_eq Torrent_uploader_id u; E_flags_is (DELETED models) false]
    ++ (if owner_outside_rss then []
        else [E_flags_is (Z.lor (HIDDEN models) (ANONYMOUS models)) false]) in
  (forall s, search_elastic models config r = Ok s ->
     exists main_category sub_category main_cat_id sub_cat_id qf,
       s_filter s
       = es_visibility
         ++ s_filter (es_quality_filter qf
                        (es_category_filter main_category sub_category
                           main_cat_id sub_cat_id (Search_new None)))) /\
  (forall q, search_db models r = Ok q ->
     exists main_category sub_category main_cat_id sub_cat_id filter_tuple post,
       q_filter q
       = db_visibility
         ++ q_filter (db_quality_filter filter_tuple
                        (db_category_filter main_category sub_category
                           main_cat_id sub_cat_id (Query_new Torrent_)))
         ++ post /\
       forallb is_fulltext post = true) /\
  (forall simple_query_string_hit fulltext_hit t,
     forallb (es_matches models simple_query_string_hit t) es_visibility
     = spec_profile_visible models u owner_outside_rss t /\
     forallb (db_matches fulltext_hit t) db_visibility
     = spec_profile_visible models u owner_outside_rss t).
Proof.
  intros Hadmin Hu Hnz owner_outside_rss es_visibility db_visibility.
  assert (Hsame : same_user_of (Some u) (logged_in_user r) && negb (rss r)
                  = owner_outside_rss).
  { unfold owner_outside_rss, same_user_of. destruct (logged_in_user r) as [l|]; [|done].
    f_equal. apply bool_decide_ext. split; congruence. }
  assert (Htruthy : int_truthy u = true)
    by (unfold int_truthy; by apply negb_true_iff, Z.eqb_neq).
  assert (Hes : s_filter (es_view (Some u) (logged_in_user r) (rss r) (admin r)
                            (Search_new None)) = es_visibility).
  { unfold es_view, es_user_view, es_visibility. rewrite Htruthy, Hadmin, <- Hsame.
    by destruct (same_user_of _ _), (rss r). }
  assert (Hdb : q_filter (db_view models (Some u) (logged_in_user r) (rss r) (admin r)
                            (Query_new Torrent_)) = db_visibility).
  { unfold db_view, db_user_view, db_visibility. rewrite Htruthy, Hadmin, <- Hsame.
    by destruct (same_user_of _ _), (rss r). }
  split; [|split].
  - intros s H. apply search_elastic_filter in H
      as (u' & mc & sc & m & sid & qf & Hu' & _ & _ & _ & ->).
    rewrite Hu in Hu'. injection Hu' as <-.
    exists mc, sc, m, sid, qf.
    by rewrite Hes, (es_quality_filter_filter qf (es_category_filter _ _ _ _ _)).
  - intros q H. apply search_db_filter in H
      as (u' & mc & sc & m & sid & filter_tuple & items & Hu' & _ & _ & _ & ->).
    rewrite Hu in Hu'. injection Hu' as <-.
    exists mc, sc, m, sid, filter_tuple,
      (map (fun item => E_FullTextSearch item TorrentNameSearch NATURAL)
           (List.filter (fun item => 2 <=? len item) items)).
    split.
    + rewrite Hdb, (db_quality_filter_filter filter_tuple (db_category_filter _ _ _ _ _)).
      by rewrite <- !app_assoc.
    + apply forallb_forall. intros e (item & <- & _)%in_map_iff. done.
  - intros sqs ft t.
    unfold es_visibility, db_visibility, spec_profile_visible.
    destruct owner_outside_rss; cbn -[doc_field]; rewrite term_uploader_matches; cbn;
      rewrite ?term_flag_false_matches, ?land_lor_eqb_0; unfold has_flag;
      rewrite ?negb_involutive, ?andb_true_r, ?orb_false_l, ?andb_assoc; done.
Qed.

Lemma profile_view_visibility_witness :
  let r := with_viewer (Some 1) (Some {| user_id := 1 |}) false default_request in
  admin r = false /\
  resolve_user nyaa_models (user r) = Ok (Some 1) /\
  1 <> 0 /\
  (exists s, search_elastic nyaa_models nyaa_config r = Ok s /\
             s_filter s = [Q_term "uploader_id" (Int_ 1); Q_term "deleted" (Bool_ false)]) /\
  (forall simple_query_string_hit fulltext_hit t,
     forallb (es_matches nyaa_models simple_query_string_hit t)
             [Q_term "uploader_id" (Int_ 1); Q_term "deleted" (Bool_ false)]
     = spec_profile_visible nyaa_models 1 true t /\
     forallb (db_matches fulltext_hit t)
             [E_eq Torrent_uploader_id 1; E_flags_is 32 false]
     = spec_profile_visible nyaa_models 1 true t).
Proof.
  intros r.
  assert (H1 : admin r = false) by reflexivity.
  assert (H2 : resolve_user nyaa_models (user r) = Ok (Some 1)) by reflexivity.
  assert (H3 : 1 <> 0) by lia.
  destruct (profile_view_visibility nyaa_models nyaa_config r 1 H1 H2 H3)
    as (Hes & _ & Hsem).
  split; [exact H1 | split; [exact H2 | split; [exact H3 | split]]].
  - eexists. split; [vm_compute; reflexivity|].
    destruct (Hes _ eq_refl) as (mc & sc & m & sid & qf & Hfilter).
    vm_compute. reflexivity.
  - exact Hsem.
Defined.

(** C5: general view, not admin.  Both functions filter on
    deleted=false; for a logged-in viewer outside RSS they add the
    disjunction of hidden=false and uploader = the viewer, for an
    anonymous viewer and for every RSS request they add hidden=false
    alone. *)
Theorem general_view_visibility models config r :
  admin r = false ->
  opt_int_truthy (user r) = false ->
  let viewer :=
    match logged_in_user r with
    | Some l => if rss r then None else Some (user_id l)
    | None => None
    end in
  let es_visibility :=
    [Q_term "deleted" (Bool_ false);
     match viewer with
     | Some v => Q_bool [Q_or (Q_term "hidden" (Bool_ false))
                              (Q_term "uploader_id" (Int_ v))]
     | None => Q_term "hidden" (Bool_ false)
     end] in
  let db_visibility :=
    [E_flags_is (DELETED models) false;
     match viewer with
     | Some v => E_or (E_flags_is (HIDDEN models) false) (E_eq Torrent_uploader_id v)
     | None => E_flags_is (HIDDEN models) false
     end] in
  (forall s, search_elastic models config r = Ok s ->
     exists main_category sub_category main_cat_id sub_cat_id qf,
       s_filter s
       = es_visibility
         ++ s_filter (es_quality_filter qf
                        (es_category_filter main_category sub_category
                           main_cat_id sub_cat_id (Search_new None)))) /\
  (forall q, search_db models r = Ok q ->
     exists main_category sub_category main_cat_id sub_cat_id filter_tuple post,
       q_filter q
       = db_visibility
         ++ q_filter (db_quality_filter filter_tuple
                        (db_category_filter main_category sub_category
                           main_cat_id sub_cat_id (Query_new Torrent_)))
         ++ post /\
       forallb is_fulltext post = true) /\
  (forall simple_query_string_hit fulltext_hit t,
     forallb (es_matches models simple_query_string_hit t) es_visibility
     = spec_general_visible models viewer t /\
     forallb (db_matches fulltext_hit t) db_visibility
     = spec_general_visible models viewer t).
Proof.
  intros Hadmin Habsent viewer es_visibility db_visibility.
  pose proof (resolve_user_absent models _ Habsent) as Hu.
  assert (Hes : s_filter (es_view (user r) (logged_in_user r) (rss r) (admin r)
                            (Search_new None)) = es_visibility).
  { unfold es_view, es_general_view, es_visibility, viewer. rewrite Hadmin.
    destruct (user r) as [u|]; cbn in Habsent; rewrite ?Habsent;
      by destruct (logged_in_user r), (rss r). }
  assert (Hdb : q_filter (db_view models (user r) (logged_in_user r) (rss r) (admin r)
                            (Query_new Torrent_)) = db_visibility).
  { unfold db_view, db_general_view, db_visibility, viewer. rewrite Hadmin.
    destruct (user r) as [u|]; cbn in Habsent; rewrite ?Habsent;
      by destruct (logged_in_user r), (rss r). }
  split; [|split].
  - intros s H. apply search_elastic_filter in H
      as (u' & mc & sc & m & sid & qf & Hu' & _ & _ & _ & ->).
    rewrite Hu in Hu'. injection Hu' as <-.
    exists mc, sc, m, sid, qf.
    by rewrite Hes, (es_quality_filter_filter qf (es_category_filter _ _ _ _ _)).
  - intros q H. apply search_db_filter in H
      as (u' & mc & sc & m & sid & filter_tuple & items & Hu' & _ & _ & _ & ->).
    rewrite Hu in Hu'. injection Hu' as <-.
    exists mc, sc, m, sid, filter_tuple,
      (map (fun item => E_FullTextSearch item TorrentNameSearch NATURAL)
           (List.filter (fun item => 2 <=? len item) items)).
    split.
    + rewrite Hdb, (db_quality_filter_filter filter_tuple (db_category_filter _ _ _ _ _)).
      by rewrite <- !app_assoc.
    + apply forallb_forall. intros e (item & <- & _)%in_map_iff. done.
  - intros sqs ft t.
    unfold es_visibility, db_visibility, spec_general_visible.
    destruct viewer as [v|]; cbn -[doc_field]; rewrite ?term_uploader_matches; cbn;
      rewrite ?term_flag_false_matches; unfold has_flag;
      rewrite ?negb_involutive, ?andb_true_r, ?orb_false_r; done.
Qed.

Lemma general_view_visibility_witness :
  let r := with_viewer None (Some {| user_id := 2 |}) false default_request in
  admin r = false /\
  opt_int_truthy (user r) = false /\
  (exists q, search_db nyaa_models r = Ok q /\
             q_filter q = [E_flags_is 32 false;
                           E_or (E_flags_is 2 false) (E_eq Torrent_uploader_id 2)]) /\
  (forall simple_query_string_hit fulltext_hit t,
     forallb (es_matches nyaa_models simple_query_string_hit t)
             [Q_term "deleted" (Bool_ false);
              Q_bool [Q_or (Q_term "hidden" (Bool_ false))
                           (Q_term "uploader_id" (Int_ 2))]]
     = spec_general_visible nyaa_models (Some 2) t /\
     forallb (db_matches fulltext_hit t)
             [E_flags_is 32 false;
              E_or (E_flags_is 2 false) (E_eq Torrent_uploader_id 2)]
     = spec_general_visible nyaa_models (Some 2) t).
Proof.
  intros r.
  assert (H1 : admin r = false) by reflexivity.
  assert (H2 : opt_int_truthy (user r) = false) by reflexivity.
  destruct (general_view_visibility nyaa_models nyaa_config r H1 H2)
    as (_ & Hdb & Hsem).
  split; [exact H1 | split; [exact H2 | split]].
  - eexists. split; [vm_compute; reflexivity|].
    destruct (Hdb _ eq_refl) as (mc & sc & m & sid & filter_tuple & post & Hfilter & _).
    vm_compute. reflexivity.
  - exact Hsem.
Defined.

(** ** Tokens of the search term *)

Lemma push_char_nonempty word c : push_char word c <> EmptyString.
Proof. unfold push_char. by destruct word. Qed.



Lemma string_append_assoc (s1 s2 s3 : string) :
  (s1 +:+ s2) +:+ s3 = s1 +:+ (s2 +:+ s3).
Proof.
  induction s1 as [|c s1 IH]; [done|].
  change (String c ((s1 +:+ s2) +:+ s3) = String c (s1 +:+ (s2 +:+ s3))).
  by rewrite IH.
Qed.

(** Inside quotes everything up to the closing quote, whitespace
    included, goes into the token; the token ends with the closing
    quote and keeps both quotes. *)
Lemma read_tokens_in_quotes q body : forall token emitted rest,
  char_free q body = true ->
  read_tokens (in_quotes q) token emitted (body +:+ String q rest)
  = read_tokens in_whitespace EmptyString
      ((token +:+ body +:+ String q EmptyString) :: emitted) rest.
Proof.
  induction body as [|c body IH]; intros token emitted rest Hfree.
  - change (EmptyString +:+ String q rest) with (String q rest).
    cbn -[bool_decide]. by rewrite bool_decide_eq_true_2.
  - change (String c body +:+ String q rest) with (String c (body +:+ String q rest)).
    cbn -[bool_decide] in Hfree |- *.
    apply andb_true_iff in Hfree as [Hc%negb_true_iff Hbody].
    rewrite Hc, IH by done. unfold push_char.
    by rewrite string_append_assoc.
Qed.

Lemma read_tokens_quoted q body token emitted rest :
  is_quote q = true ->
  char_free q body = true ->
  read_tokens in_whitespace token emitted (String q (body +:+ String q rest))
  = read_tokens in_whitespace EmptyString
      (String q (body +:+ String q EmptyString) :: emitted) rest.
Proof.
  intros Hq Hfree. cbn -[bool_decide is_whitespace is_quote].
  assert (Hws : is_whitespace q = false).
  { destruct q as [[] [] [] [] [] [] [] []]; vm_compute in Hq |- *; congruence. }
  rewrite Hws, Hq. by rewrite read_tokens_in_quotes.
Qed.

(** A quote that is never closed: [ValueError]. *)
Lemma read_tokens_unclosed q body : forall token emitted,
  char_free q body = true ->
  read_tokens (in_quotes q) token emitted body
  = Raise (ValueError "No closing quotation").
Proof.
  induction body as [|c body IH]; intros token emitted Hfree;
    cbn -[bool_decide]; [done|].
  cbn [char_free] in Hfree. apply andb_true_iff in Hfree as [Hc%negb_true_iff Hbody].
  rewrite Hc. by apply IH.
Qed.



Lemma str_truthy_nonempty s : str_truthy s = true <-> s <> EmptyString.
Proof.
  unfold str_truthy. rewrite negb_true_iff, bool_decide_eq_false. done.
Qed.



(** ** Double-precision arithmetic of the result window *)

Lemma digits2_pos_bounds p :
  2 ^ (Z.pos (digits2_pos p) - 1) <= Z.pos p < 2 ^ Z.pos (digits2_pos p).
Proof.
  induction p as [p IH|p IH|]; cbn [digits2_pos].
  - rewrite Pos2Z.inj_succ, Z.pow_succ_r by lia.
    replace (Z.succ (Z.pos (digits2_pos p)) - 1) with (Z.succ (Z.pos (digits2_pos p) - 1)) by lia.
    rewrite Z.pow_succ_r by lia. lia.
  - rewrite Pos2Z.inj_succ, Z.pow_succ_r by lia.
    replace (Z.succ (Z.pos (digits2_pos p)) - 1) with (Z.succ (Z.pos (digits2_pos p) - 1)) by lia.
    rewrite Z.pow_succ_r by lia. lia.
  - cbn. lia.
Qed.

(** The bounds of a number fix its number of binary digits. *)
Lemma Zdigits2_unique m d :
  0 < d -> 2 ^ (d - 1) <= m < 2 ^ d -> Zdigits2 m = d.
Proof.
  intros Hd [Hlo Hhi].
  assert (0 < m) by (pose proof (Z.pow_pos_nonneg 2 (d - 1)); lia).
  destruct m as [|p|p]; try lia. cbn.
  pose proof (digits2_pos_bounds p) as [Hlo' Hhi'].
  set (d' := Z.pos (digits2_pos p)) in *.
  assert (0 < d') by (unfold d'; lia).
  destruct (Z.lt_trichotomy d' d) as [Hlt|[Heq|Hgt]]; [|done|].
  - assert (2 ^ d' <= 2 ^ (d - 1)) by (apply Z.pow_le_mono_r; lia). lia.
  - assert (2 ^ d <= 2 ^ (d' - 1)) by (apply Z.pow_le_mono_r; lia). lia.
Qed.

Lemma iter_xO p k : Z.pos (Pos.iter xO p k) = Z.pos p * 2 ^ Z.pos k.
Proof.
  induction k as [|k IH] using Pos.peano_ind.
  - cbn. lia.
  - rewrite Pos.iter_succ, Pos2Z.inj_succ, Z.pow_succ_r by lia.
    rewrite Pos2Z.inj_xO, IH. lia.
Qed.

(** A mantissa of 53 digits is not shifted; one of 54 digits is
    shifted by one place. *)
Lemma shr_fexp_53 m e l :
  Zdigits2 m = 53 -> -1074 <= e ->
  shr_fexp prec emax m e l = (shr_record_of_loc m l, e).
Proof.
  intros Hd He. unfold shr_fexp. rewrite Hd.
  replace (fexp prec emax (53 + e) - e) with 0
    by (unfold fexp, SpecFloat.emin, prec, emax; lia).
  done.
Qed.

Lemma shr_fexp_54 m e l :
  Zdigits2 m = 54 -> -1075 <= e ->
  shr_fexp prec emax m e l = (shr_1 (shr_record_of_loc m l), e + 1).
Proof.
  intros Hd He. unfold shr_fexp. rewrite Hd.
  replace (fexp prec emax (54 + e) - e) with 1
    by (unfold fexp, SpecFloat.emin, prec, emax; lia).
  done.
Qed.

Lemma binary_round_aux_exact s m e :
  Zdigits2 (Z.pos m) = 53 -> -1074 <= e <= 971 ->
  binary_round_aux prec emax s (Z.pos m) e loc_Exact = S754_finite s m e.
Proof.
  intros Hd He. unfold binary_round_aux.
  rewrite shr_fexp_53 by (done || lia).
  cbn [shr_record_of_loc shr_m loc_of_shr_record round_nearest_even].
  rewrite shr_fexp_53 by (done || lia).
  cbn [shr_record_of_loc shr_m].
  replace (e <=? emax - prec) with true; [done|].
  symmetry. apply Z.leb_le. unfold emax, prec. lia.
Qed.

Lemma binary_normalize_pos n :
  0 < n < 2 ^ 53 ->
  exists m e,
    binary_normalize prec emax n 0 false = S754_finite false m e /\
    2 ^ 52 <= Z.pos m < 2 ^ 53 /\
    -52 <= e <= 0 /\
    Z.pos m = n * 2 ^ (- e) /\
    n < 2 ^ (53 + e).
Proof.
  intros [Hpos Hlt]. destruct n as [|p|p]; try lia.
  pose proof (digits2_pos_bounds p) as [Hlo Hhi].
  set (d := Z.pos (digits2_pos p)) in *.
  assert (Hd : 1 <= d <= 53).
  { split; [unfold d; lia|].
    destruct (Z_le_gt_dec d 53) as [|Hgt]; [done|].
    assert (2 ^ 53 <= 2 ^ (d - 1)) by (apply Z.pow_le_mono_r; lia). lia. }
  cbn [binary_normalize]. unfold binary_round. fold d.
  replace (fexp prec emax (d + 0)) with (d - 53)
    by (unfold fexp, SpecFloat.emin, prec, emax; lia).
  unfold shl_align.
  destruct (d - 53 - 0) as [|k|k] eqn:Hk; try lia.
  - assert (H53 : d = 53) by lia. rewrite H53 in Hlo, Hhi.
    change (53 - 1) with 52 in Hlo.
    exists p, 0. rewrite binary_round_aux_exact.
    + split; [done|]. split; [lia|]. split; [lia|]. split; [cbn; lia|].
      change (53 + 0) with 53. lia.
    + cbn. fold d. lia.
    + lia.
  - assert (Hk' : Z.pos k = 53 - d) by lia.
    exists (Pos.iter xO p k), (d - 53).
    assert (Hm : Z.pos (Pos.iter xO p k) = Z.pos p * 2 ^ (53 - d))
      by (rewrite iter_xO, Hk'; done).
    assert (Hpow : 2 ^ (d - 1) * 2 ^ (53 - d) = 2 ^ 52 /\ 2 ^ d * 2 ^ (53 - d) = 2 ^ 53).
    { rewrite <- !Z.pow_add_r by lia. split; f_equal; lia. }
    assert (0 < 2 ^ (53 - d)) by (apply Z.pow_pos_nonneg; lia).
    rewrite binary_round_aux_exact.
    + split; [done|]. split; [nia|]. split; [lia|]. split.
      * rewrite Hm. do 2 f_equal. lia.
      * replace (53 + (d - 53)) with d by lia. done.
    + apply Zdigits2_unique; [lia|]. change (53 - 1) with 52. nia.
    + lia.
Qed.

Lemma div_eucl_div_mod a b : Z.div_eucl a b = (a / b, a mod b).
Proof. unfold Z.div, Z.modulo. by destruct (Z.div_eucl a b). Qed.

Lemma SFdiv_core_binary_53 (ma mb : positive) ea eb :
  Zdigits2 (Z.pos ma) = 53 -> Zdigits2 (Z.pos mb) = 53 ->
  -52 <= ea <= 0 -> -52 <= eb <= 0 ->
  SFdiv_core_binary prec emax (Z.pos ma) ea (Z.pos mb) eb
  = (Z.pos ma * 2 ^ 53 / Z.pos mb, ea - eb - 53,
     new_location (Z.pos mb) (Z.pos ma * 2 ^ 53 mod Z.pos mb)).
Proof.
  intros Hda Hdb Hea Heb. unfold SFdiv_core_binary. rewrite Hda, Hdb.
  replace (Z.min (fexp prec emax (53 + ea - (53 + eb))) (ea - eb)) with (ea - eb - 53)
    by (unfold fexp, SpecFloat.emin, prec, emax; lia).
  replace (ea - eb - (ea - eb - 53)) with 53 by lia.
  rewrite Z.shiftl_mul_pow2 by lia.
  by rewrite div_eucl_div_mod.
Qed.

Lemma new_location_cases mb r :
  0 <= r < mb ->
  (r = 0 /\ new_location mb r = loc_Exact) \/
  (0 < r /\ 2 * r < mb /\ new_location mb r = loc_Inexact Lt) \/
  (0 < r /\ 2 * r = mb /\ new_location mb r = loc_Inexact Eq) \/
  (0 < r /\ mb < 2 * r /\ new_location mb r = loc_Inexact Gt).
Proof.
  intros Hr. unfold new_location.
  destruct (Z.even mb) eqn:Heven.
  - unfold new_location_even. destruct (Z.eqb_spec r 0) as [Hr0|Hr0]; [by left|].
    right. destruct (Z.compare_spec (2 * r) mb); [right; left | left | right; right];
      (split; [lia | split; [lia | done]]).
  - unfold new_location_odd. destruct (Z.eqb_spec r 0) as [Hr0|Hr0]; [by left|].
    right.
    assert (Hodd : Z.odd mb = true) by (by rewrite <- Z.negb_even, Heven).
    apply Z.odd_spec in Hodd as [k Hk].
    destruct (Z.compare_spec (2 * r + 1) mb); [left | left | right; right];
      (split; [lia | split; [lia | done]]).
Qed.

Lemma final_shift R e :
  2 ^ 52 <= R <= 2 ^ 53 -> -1074 <= e <= 900 ->
  exists m' e2,
    (let '(mrs'', e'') := shr_fexp prec emax R e loc_Exact in
     match shr_m mrs'' with
     | Z0 => S754_zero false
     | Z.pos m => if e'' <=? emax - prec then S754_finite false m e''
                  else S754_infinity false
     | Z.neg _ => S754_nan
     end) = S754_finite false m' e2 /\
    e <= e2 <= e + 1 /\
    Z.pos m' * 2 ^ (e2 - e) = R.
Proof.
  intros [Hlo Hhi] He.
  destruct (Z.eq_dec R (2 ^ 53)) as [->|Hne].
  - rewrite shr_fexp_54 by (done || lia).
    cbn [shr_record_of_loc shr_1 shr_m Z.pow Z.pow_pos Pos.iter Z.mul Pos.mul].
    exists (Z.to_pos (2 ^ 52)), (e + 1).
    replace (e + 1 <=? emax - prec) with true
      by (symmetry; apply Z.leb_le; unfold emax, prec; lia).
    split; [done|]. split; [lia|].
    replace (e + 1 - e) with 1 by lia. done.
  - destruct R as [|p|p]; try lia.
    rewrite shr_fexp_53; [|apply Zdigits2_unique; lia|lia].
    cbn [shr_record_of_loc shr_m].
    exists p, e.
    replace (e <=? emax - prec) with true
      by (symmetry; apply Z.leb_le; unfold emax, prec; lia).
    split; [done|]. split; [lia|].
    replace (e - e) with 0 by lia. lia.
Qed.

(** Rounding the quotient [q + r/mb]: the result is [R * 2^e], where
    [R] is a nearest integer for a quotient of 53 digits and a nearest
    even integer for one of 54 digits. *)
Lemma binary_round_aux_div q r (mb : positive) e :
  0 <= r < Z.pos mb ->
  2 ^ 52 <= q < 2 ^ 54 ->
  -1074 <= e <= 800 ->
  exists m' e2 R,
    binary_round_aux prec emax false q e (new_location (Z.pos mb) r)
    = S754_finite false m' e2 /\
    e <= e2 /\
    Z.pos m' * 2 ^ (e2 - e) = R /\
    ((q < 2 ^ 53 /\ 2 * Z.abs (R * Z.pos mb - (q * Z.pos mb + r)) <= Z.pos mb) \/
     (2 ^ 53 <= q /\ R mod 2 = 0 /\
      Z.abs (R * Z.pos mb - (q * Z.pos mb + r)) <= Z.pos mb)).
Proof.
  intros Hr Hq He. unfold binary_round_aux.
  destruct (Z_lt_ge_dec q (2 ^ 53)) as [Hsmall|Hbig].
  - rewrite shr_fexp_53; [|apply Zdigits2_unique; lia|lia].
    destruct (new_location_cases _ _ Hr)
      as [(Hr0 & ->)|[(Hr0 & Hhalf & ->)|[(Hr0 & Hhalf & ->)|(Hr0 & Hhalf & ->)]]];
      cbn [shr_record_of_loc shr_m loc_of_shr_record round_nearest_even].
    + destruct (final_shift q e) as (m' & e2 & -> & He2 & HR); [lia | lia |].
      exists m', e2, q. repeat split; lia.
    + destruct (final_shift q e) as (m' & e2 & -> & He2 & HR); [lia | lia |].
      exists m', e2, q. repeat split; lia.
    + destruct (Z.even q).
      * destruct (final_shift q e) as (m' & e2 & -> & He2 & HR); [lia | lia |].
        exists m', e2, q. repeat split; lia.
      * destruct (final_shift (q + 1) e) as (m' & e2 & -> & He2 & HR); [lia | lia |].
        exists m', e2, (q + 1). repeat split; lia.
    + destruct (final_shift (q + 1) e) as (m' & e2 & -> & He2 & HR); [lia | lia |].
      exists m', e2, (q + 1). repeat split; lia.
  - rewrite shr_fexp_54; [|apply Zdigits2_unique; lia|lia].
    assert (Hpow : forall m' e2 R', e + 1 <= e2 -> Z.pos m' * 2 ^ (e2 - (e + 1)) = R' ->
                     Z.pos m' * 2 ^ (e2 - e) = 2 * R').
    { intros m' e2 R' Hle <-. replace (e2 - e) with (Z.succ (e2 - (e + 1))) by lia.
      rewrite Z.pow_succ_r by lia. lia. }
    destruct q as [|[p|p|]|]; try lia.
    + (* odd quotient *)
      destruct (new_location_cases _ _ Hr)
        as [(Hr0 & ->)|[(Hr0 & Hhalf & ->)|[(Hr0 & Hhalf & ->)|(Hr0 & Hhalf & ->)]]];
        cbn [shr_record_of_loc shr_1 shr_m loc_of_shr_record round_nearest_even orb].
      * destruct (Z.even (Z.pos p)).
        -- destruct (final_shift (Z.pos p) (e + 1)) as (m' & e2 & -> & He2 & HR);
             [lia | lia |].
           exists m', e2, (2 * Z.pos p). split; [done|]. split; [lia|].
           split; [apply Hpow; lia|]. right. split; [lia|]. split; [|lia].
           by rewrite Z.mul_comm, Z.mod_mul.
        -- destruct (final_shift (Z.pos p + 1) (e + 1)) as (m' & e2 & -> & He2 & HR);
             [lia | lia |].
           exists m', e2, (2 * (Z.pos p + 1)). split; [done|]. split; [lia|].
           split; [apply Hpow; lia|]. right. split; [lia|]. split; [|lia].
           by rewrite Z.mul_comm, Z.mod_mul.
      * destruct (final_shift (Z.pos p + 1) (e + 1)) as (m' & e2 & -> & He2 & HR);
          [lia | lia |].
        exists m', e2, (2 * (Z.pos p + 1)). split; [done|]. split; [lia|].
        split; [apply Hpow; lia|]. right. split; [lia|]. split; [|lia].
        by rewrite Z.mul_comm, Z.mod_mul.
      * destruct (final_shift (Z.pos p + 1) (e + 1)) as (m' & e2 & -> & He2 & HR);
          [lia | lia |].
        exists m', e2, (2 * (Z.pos p + 1)). split; [done|]. split; [lia|].
        split; [apply Hpow; lia|]. right. split; [lia|]. split; [|lia].
        by rewrite Z.mul_comm, Z.mod_mul.
      * destruct (final_shift (Z.pos p + 1) (e + 1)) as (m' & e2 & -> & He2 & HR);
          [lia | lia |].
        exists m', e2, (2 * (Z.pos p + 1)). split; [done|]. split; [lia|].
        split; [apply Hpow; lia|]. right. split; [lia|]. split; [|lia].
        by rewrite Z.mul_comm, Z.mod_mul.
    + (* even quotient *)
      destruct (new_location_cases _ _ Hr)
        as [(Hr0 & ->)|[(Hr0 & Hhalf & ->)|[(Hr0 & Hhalf & ->)|(Hr0 & Hhalf & ->)]]];
        cbn [shr_record_of_loc shr_1 shr_m loc_of_shr_record round_nearest_even orb];
        (destruct (final_shift (Z.pos p) (e + 1)) as (m' & e2 & -> & He2 & HR);
           [lia | lia |];
         exists m', e2, (2 * Z.pos p); split; [done|]; split; [lia|];
         split; [apply Hpow; lia|]; right; split; [lia|]; split; [|lia];
         by rewrite Z.mul_comm, Z.mod_mul).
Qed.

Lemma ceil_div_unique x y c :
  0 < y -> (c - 1) * y < x <= c * y -> ceil_div x y = c.
Proof.
  intros Hy Hx. unfold ceil_div.
  rewrite <- (Z.div_unique (- x) y (- c) (c * y - x)); lia.
Qed.

Lemma ceil_scaled_shift m e2 e R :
  e < 0 -> e <= e2 -> m * 2 ^ (e2 - e) = R ->
  ceil_scaled m e2 = ceil_div R (2 ^ (- e)).
Proof.
  intros He Hle <-. unfold ceil_scaled.
  assert (Hpos : 0 < 2 ^ (- e)) by (apply Z.pow_pos_nonneg; lia).
  destruct (Z.leb_spec 0 e2) as [Hnonneg|Hneg].
  - symmetry. apply ceil_div_unique; [done|].
    replace (e2 - e) with (e2 + - e) by lia. rewrite Z.pow_add_r by lia. nia.
  - unfold ceil_div. f_equal.
    replace (2 ^ (- e)) with (2 ^ (- e2) * 2 ^ (e2 - e))
      by (rewrite <- Z.pow_add_r by lia; f_equal; lia).
    rewrite <- Z.mul_opp_l.
    rewrite Z.div_mul_cancel_r; [done| |].
    + apply Z.pow_nonzero; lia.
    + apply Z.pow_nonzero; lia.
Qed.

Lemma ceil_of_rounded a b mb S T R :
  0 <= a -> 0 < b -> 0 < mb -> b < S -> S mod 2 = 0 ->
  T * b = a * mb * S ->
  (2 * Z.abs (R * mb - T) <= mb \/ (R mod 2 = 0 /\ Z.abs (R * mb - T) <= mb)) ->
  ceil_div R S = ceil_div a b.
Proof.
  intros Ha Hb Hmb HS Heven HT Hround.
  set (D := R * b - a * S).
  assert (HX : (R * mb - T) * b = mb * D) by (unfold D; lia).
  assert (HD : 2 * Z.abs D <= b \/ (R mod 2 = 0 /\ Z.abs D <= b)).
  { destruct Hround as [H|[HR H]]; [left | right; split; [done|]]; nia. }
  pose proof (Z.div_mod a b ltac:(lia)) as Hdiv.
  pose proof (Z.mod_pos_bound a b Hb) as Hrho.
  set (k := a / b) in *. set (rho := a mod b) in *.
  assert (HDW : D = b * (R - k * S) - rho * S) by (unfold D; nia).
  destruct (Z.eq_dec rho 0) as [Hrho0|Hrho0].
  - assert (HR : R = k * S).
    { rewrite Hrho0 in HDW.
      destruct HD as [H|[HR H]].
      - nia.
      - assert (Hdiff : (R - k * S) mod 2 = 0).
        { rewrite Zminus_mod, HR, Z.mul_mod, Heven, Z.mul_0_r by lia. done. }
        assert (Hbound : Z.abs (R - k * S) <= 1) by nia.
        apply Z.mod_divide in Hdiff as [j Hj]; [|lia]. lia. }
    rewrite HR. rewrite (ceil_div_unique (k * S) S k), (ceil_div_unique a b k); lia.
  - assert (HDb : Z.abs D <= b) by lia.
    assert (Hlow : 0 < R - k * S) by nia.
    assert (Hhigh : R - k * S <= S) by nia.
    rewrite (ceil_div_unique R S (k + 1)), (ceil_div_unique a b (k + 1)); lia.
Qed.

Lemma float_of_int_pos n :
  0 < n < 2 ^ 53 ->
  exists m e,
    float_of_int n = Ok (S754_finite false m e) /\
    2 ^ 52 <= Z.pos m < 2 ^ 53 /\
    -52 <= e <= 0 /\
    Z.pos m = n * 2 ^ (- e) /\
    n < 2 ^ (53 + e).
Proof.
  intros Hn. destruct (binary_normalize_pos n Hn) as (m & e & Hnorm & Hrest).
  exists m, e. split; [|done]. unfold float_of_int. by rewrite Hnorm.
Qed.

(** The ceiling of the double-precision quotient of two integers below
    [2^53] is the ceiling of their exact quotient. *)
Lemma float_ceil_div a b :
  0 <= a < 2 ^ 53 ->
  0 < b < 2 ^ 53 ->
  (per_page_f ← float_of_int b;
   quotient ← int_truediv_float a per_page_f;
   math_ceil quotient) = Ok (ceil_div a b).
Proof.
  intros Ha Hb.
  destruct (float_of_int_pos b Hb) as (mb & eb & -> & Hmb & Heb & Hmb_eq & Hb_lt).
  cbn [mbind result_bind]. unfold int_truediv_float.
  destruct (Z.eq_dec a 0) as [->|Ha0].
  - cbn. unfold ceil_div. by rewrite Z.div_0_l by lia.
  - destruct (float_of_int_pos a ltac:(lia)) as (ma & ea & -> & Hma & Hea & Hma_eq & Ha_lt).
    cbn [mbind result_bind float_truediv is_zero SFdiv xorb].
    rewrite SFdiv_core_binary_53; try (apply Zdigits2_unique; lia); try lia.
    set (T := Z.pos ma * 2 ^ 53).
    pose proof (Z.div_mod T (Z.pos mb) ltac:(lia)) as HT.
    pose proof (Z.mod_pos_bound T (Z.pos mb) ltac:(lia)) as Hr.
    assert (Hq : 2 ^ 52 <= T / Z.pos mb < 2 ^ 54).
    { split.
      - apply Z.div_le_lower_bound; [lia|]. unfold T. lia.
      - apply Z.div_lt_upper_bound; [lia|]. unfold T. lia. }
    destruct (binary_round_aux_div (T / Z.pos mb) (T mod Z.pos mb) mb (ea - eb - 53))
      as (m' & e2 & R & -> & He2 & HR & Hround); [done | done | lia |].
    cbn [mbind result_bind math_ceil]. f_equal.
    rewrite (ceil_scaled_shift _ _ (ea - eb - 53) R); [|lia|lia|done].
    assert (Hpows : 2 ^ (- (ea - eb - 53)) * 2 ^ (- eb) = 2 ^ 53 * 2 ^ (- ea)).
    { rewrite <- !Z.pow_add_r by lia. f_equal. lia. }
    assert (0 < 2 ^ (- ea)) by (apply Z.pow_pos_nonneg; lia).
    assert (0 < 2 ^ (- eb)) by (apply Z.pow_pos_nonneg; lia).
    apply (ceil_of_rounded a b (Z.pos mb) _ T R); try lia.
    + assert (2 ^ (53 + eb) <= 2 ^ (- (ea - eb - 53)))
        by (apply Z.pow_le_mono_r; lia).
      lia.
    + replace (- (ea - eb - 53)) with (Z.succ (52 + eb - ea)) by lia.
      rewrite Z.pow_succ_r by lia. by rewrite Z.mul_comm, Z.mod_mul.
Qed.

(** ** The result window of the index backend *)

Lemma es_window_not_rss page per_page max_search_results s :
  0 < per_page < 2 ^ 53 ->
  0 <= max_search_results < 2 ^ 53 ->
  es_window false page per_page max_search_results s
  = Ok (Search_getitem (fst (spec_window page per_page max_search_results))
                       (snd (spec_window page per_page max_search_results)) s).
Proof.
  intros Hper Hmax. unfold es_window.
  pose proof (float_ceil_div max_search_results per_page Hmax Hper) as Hceil.
  destruct (float_of_int per_page) as [per_page_f|]; [|done].
  cbn [mbind result_bind] in Hceil |- *.
  destruct (int_truediv_float max_search_results per_page_f) as [quotient|]; [|done].
  cbn [mbind result_bind] in Hceil |- *.
  by rewrite Hceil.
Qed.

Lemma search_elastic_slice models config r s :
  search_elastic models config r = Ok s ->
  exists s0 s',
    es_window (rss r) (page r) (per_page r) (max_search_results r) s0 = Ok s' /\
    s_slice s = s_slice s'.
Proof.
  intros H. apply search_elastic_Ok in H
    as (es_sort & qf & mc & sc & m & sid & u & s' & _ & _ & _ & _ & _ & _ & _ & Hs' & ->).
  eexists _, s'. split; [exact Hs'|].
  by destruct (ENABLE_ELASTIC_SEARCH_HIGHLIGHT config).
Qed.




(** ** The two compiled queries select the same records

    For a request without a search term that both functions compile,
    every record is a hit of the compiled search exactly when it is
    selected by the compiled query. *)

Lemma es_steps_query qf mc sc m sid u liu rss admin s :
  s_query (es_quality_filter qf
             (es_category_filter mc sc m sid (es_view u liu rss admin s)))
  = s_query s.
Proof.
  unfold es_quality_filter, es_category_filter, es_view, es_user_view, es_general_view.
  repeat case_match; done.
Qed.

Lemma category_agree models category mc sc m sid mc' sc' m' sid' :
  es_category models category = Ok (mc, sc, m, sid) ->
  db_category models category = Ok (mc', sc', m', sid') ->
  mc = mc' /\ sc = sc' /\ m = m' /\ sid = sid'.
Proof.
  unfold es_category, db_category.
  destruct (str_truthy category); [|by intros [= <- <- <- <-] [= <- <- <- <-]].
  destruct (cat_match category) as [[g1 g2]|]; [|done].
  destruct (int g1) as [n1|]; [|done]. destruct (int g2) as [n2|]; [|done].
  cbn [mbind result_bind].
  destruct (0 <? n1); [|by intros [= <- <- <- <-] [= <- <- <- <-]].
  destruct (0 <? n2).
  - destruct (SubCategory_by_category_ids models n1 n2); [|done].
    by intros [= <- <- <- <-] [= <- <- <- <-].
  - destruct (MainCategory_by_id models n1); [|done].
    by intros [= <- <- <- <-] [= <- <- <- <-].
Qed.

Lemma category_filters_agree models mc sc m sid simple_query_string_hit fulltext_hit t :
  forallb (es_matches models simple_query_string_hit t)
          (s_filter (es_category_filter mc sc m sid (Search_new None)))
  = forallb (db_matches fulltext_hit t)
          (q_filter (db_category_filter mc sc m sid (Query_new Torrent_))).
Proof.
  unfold es_category_filter, db_category_filter.
  repeat case_bool_decide; cbn; rewrite ?andb_true_r; try done.
  all: repeat (f_equal; try (apply bool_decide_ext; split; congruence)).
Qed.

Lemma view_filters_agree models u liu rss admin simple_query_string_hit fulltext_hit t :
  forallb (es_matches models simple_query_string_hit t)
          (s_filter (es_view u liu rss admin (Search_new None)))
  = forallb (db_matches fulltext_hit t)
          (q_filter (db_view models u liu rss admin (Query_new Torrent_))).
Proof.
  unfold es_view, db_view, es_user_view, db_user_view, es_general_view, db_general_view.
  destruct u as [u|]; [destruct (int_truthy u)|];
    destruct admin, rss, liu as [l|];
    try destruct (same_user_of (Some u) (Some l));
    by compare_filters.
Qed.

Lemma quality_filters_agree models code simple_query_string_hit fulltext_hit t :
  forallb (es_matches models simple_query_string_hit t) (es_quality_terms code)
  = forallb (db_matches fulltext_hit t) (db_quality_exprs models code).
Proof.
  unfold es_quality_terms, db_quality_exprs.
  repeat case_bool_decide; by compare_filters.
Qed.

(** X24: the two backends select the same records.  For a request
    without a term that both functions compile, a record is selected by
    the search of [search_elastic] exactly when it is selected by the
    query of [search_db]: visibility, category and quality filters
    together, with the flag fields of an index document read off the
    flags of the record. *)
Lemma compiled_queries_agree models config r s q :
  term r = EmptyString ->
  search_elastic models config r = Ok s ->
  search_db models r = Ok q ->
  forall simple_query_string_hit fulltext_hit t,
    es_hit models simple_query_string_hit t s = db_hit fulltext_hit t q.
Proof.
  intros Hterm Hs Hq sqs_hit ft_hit t. unfold es_hit, db_hit.
  assert (Hquery : s_query s = None).
  { apply search_elastic_Ok in Hs
      as (es_sort & qf & mc & sc & m & sid & u & s' & _ & _ & _ & _ & _ & _ & _ & Hs' & ->).
    apply es_window_Ok in Hs' as (from_idx & to_idx & -> & _).
    transitivity (s_query (es_quality_filter qf
        (es_category_filter mc sc m sid
           (es_view u (logged_in_user r) (rss r) (admin r)
              (if str_truthy (term r)
               then Search_query
                      (Q_simple_query_string "my_search_analyzer" "AND" (term r))
                      (Search_new (ES_INDEX_NAME config))
               else Search_new (ES_INDEX_NAME config)))))).
    { by destruct (ENABLE_ELASTIC_SEARCH_HIGHLIGHT config). }
    by rewrite es_steps_query, Hterm. }
  rewrite Hquery. cbn [andb].
  apply search_elastic_filter in Hs
    as (u & mc & sc & m & sid & qf & Hu & Hcat & Hkey & Hqf & ->).
  apply search_db_filter in Hq
    as (u' & mc' & sc' & m' & sid' & ft & items & Hu' & Hcat' & Hft & Hitems & ->).
  rewrite Hu in Hu'. injection Hu' as <-.
  destruct (category_agree _ _ _ _ _ _ _ _ _ _ Hcat Hcat') as (<- & <- & <- & <-).
  rewrite Hterm in Hitems. change (items = []) in Hitems. subst items.
  cbn [List.filter map].
  rewrite app_nil_r, !forallb_app.
  rewrite (es_quality_filter_terms _ _ Hkey Hqf), (db_quality_filter_exprs _ _ _ Hft).
  by rewrite (view_filters_agree models u _ _ _ sqs_hit ft_hit),
    (category_filters_agree models mc sc m sid sqs_hit ft_hit),
    (quality_filters_agree models _ sqs_hit ft_hit).
Qed.

(** * Further properties of the two functions *)

(** ** After the validation of sort, order and quality code *)

Lemma valid_sort_key_lookup k :
  k ∈ valid_sort_keys ->
  lower k ∈ valid_sort_keys /\
  (exists es_sort, es_sort_keys !! k = Some es_sort) /\
  (exists column, sort_keys !! k = Some column).
Proof.
  intros Hk. rewrite (lower_valid_sort_key _ Hk). split; [done|]. split.
  - destruct (es_sort_keys !! k) eqn:H; [by eauto|]. by apply es_sort_keys_None in H.
  - destruct (sort_keys !! k) eqn:H; [by eauto|]. by apply sort_keys_None in H.
Qed.

Lemma int_quality_key code :
  code ∈ quality_keys -> exists qf, int code = Ok qf.
Proof.
  unfold quality_keys. rewrite !elem_of_cons, elem_of_nil.
  intros [->|[->|[->|[->|[]]]]]; by eexists.
Qed.

Lemma filter_keys_quality_key models code :
  code ∈ quality_keys ->
  exists filter_tuple, filter_keys models !! lower code = Some filter_tuple.
Proof.
  intros Hk. destruct (filter_keys models !! lower code) eqn:H; [by eauto|].
  apply filter_keys_None in H. by apply (proj2 (lower_quality_key code)) in Hk.
Qed.

(** What is left of [search_elastic] once sort, order and quality code
    have passed. *)
Lemma search_elastic_validated models config r es_sort qf :
  lower (sort r) ∈ valid_sort_keys ->
  es_sort_keys !! sort r = Some es_sort ->
  lower (order r) ∈ valid_orders ->
  quality_filter r ∈ quality_keys ->
  int (quality_filter r) = Ok qf ->
  search_elastic models config r
  = ('(main_category, sub_category, main_cat_id, sub_cat_id) ←
       es_category models (category r);
     user ← resolve_user models (user r);
     s ← es_window (rss r) (page r) (per_page r) (max_search_results r)
           (Search_sort
              (if bool_decide ("desc" = if rss r then "desc" else order r)
               then "-" +:+ es_sort else es_sort)
              (es_quality_filter qf
                 (es_category_filter main_category sub_category main_cat_id sub_cat_id
                    (es_view user (logged_in_user r) (rss r) (admin r)
                       (if str_truthy (term r)
                        then Search_query
                               (Q_simple_query_string "my_search_analyzer" "AND" (term r))
                               (Search_new (ES_INDEX_NAME config))
                        else Search_new (ES_INDEX_NAME config))))));
     Ok (if ENABLE_ELASTIC_SEARCH_HIGHLIGHT config
         then Search_highlight "display_name" (Search_highlight_options "styled" s)
         else s)).
Proof.
  intros Hsort_ Hsort Horder_ Hq Hqf. unfold search_elastic.
  rewrite (proj2 (contains_es_sort_keys _) Hsort_), (getitem_Some _ _ _ Hsort).
  rewrite (proj2 (contains_order_keys _) Horder_).
  rewrite (bool_decide_eq_true_2 _ (proj2 (lower_quality_key _) Hq)), Hqf.
  destruct (rss r); [rewrite (getitem_Some _ "id" "id") by done|]; reflexivity.
Qed.

(** What is left of [search_db] once sort, order and quality code have
    passed. *)
Lemma search_db_validated models r column filter_tuple :
  lower (sort r) ∈ valid_sort_keys ->
  sort_keys !! sort r = Some column ->
  lower (order r) ∈ valid_orders ->
  filter_keys models !! lower (quality_filter r) = Some filter_tuple ->
  search_db models r
  = (user ← resolve_user models (user r);
     '(main_category, sub_category, main_cat_id, sub_cat_id) ←
       db_category models (category r);
     query ← db_term_filter (term r)
               (db_quality_filter filter_tuple
                  (db_category_filter main_category sub_category main_cat_id sub_cat_id
                     (db_view models user (logged_in_user r) (rss r) (admin r)
                        (if str_truthy (term r) then Query_new TorrentNameSearch
                         else Query_new Torrent_))));
     ordering ← getattr_call (if rss r then Torrent_id else column)
                             (if rss r then "desc" else order r);
     Ok ((if rss r then Query_limit (per_page r)
          else Query_paginate_faste (page r) (per_page r) 5)
           (Query_order_by ordering
              (let sort := if rss r then Torrent_id else column in
               if negb (bool_decide (class_ sort = Torrent_))
               then Query_join (class_ sort) query else query)))).
Proof.
  intros Hsort_ Hsort Horder_ Hft. unfold search_db.
  rewrite (proj2 (contains_sort_keys _) Hsort_), (getitem_Some _ _ _ Hsort).
  rewrite (proj2 (contains_order_keys _) Horder_), Hft.
  destruct (rss r); [rewrite (getitem_Some _ "id" Torrent_id) by done|]; reflexivity.
Qed.

(** With one of the five sort keys, a bad order or a bad quality code
    is answered with a 400 by both functions. *)
Lemma order_or_quality_400 models config r :
  sort r ∈ valid_sort_keys ->
  lower (order r) ∉ valid_orders \/ quality_filter r ∉ quality_keys ->
  search_elastic models config r = Raise (HTTPException 400) /\
  search_db models r = Raise (HTTPException 400).
Proof.
  intros Hsort Hbad.
  destruct (valid_sort_key_lookup _ Hsort) as (Hlow & [es_sort Hes] & [column Hdb]).
  unfold search_elastic, search_db.
  rewrite (proj2 (contains_es_sort_keys _) Hlow), (getitem_Some _ _ _ Hes).
  rewrite (proj2 (contains_sort_keys _) Hlow), (getitem_Some _ _ _ Hdb).
  destruct (contains order_keys (lower (order r))) eqn:Horder; [|done].
  apply contains_order_keys in Horder.
  destruct Hbad as [Hbad|Hbad]; [done|].
  assert (Hnq : lower (quality_filter r) ∉ quality_keys)
    by (by rewrite lower_quality_key).
  rewrite (bool_decide_eq_false_2 _ Hnq), (proj2 (filter_keys_None models _) Hnq).
  destruct (rss r); [rewrite (getitem_Some _ "id" "id") by done|]; done.
Qed.

(** ** Rejected requests *)

(** X1: a sort parameter that is none of the five keys even after
    lower-casing is rejected with a 400 by both functions, whatever the
    other parameters are. *)
Theorem invalid_sort_rejected models config r :
  lower (sort r) ∉ valid_sort_keys ->
  search_elastic models config r = Raise (HTTPException 400) /\
  search_db models r = Raise (HTTPException 400).
Proof.
  intros Hbad.
  assert (Hes : contains es_sort_keys (lower (sort r)) = false).
  { apply not_true_iff_false. by rewrite contains_es_sort_keys. }
  assert (Hdb : contains sort_keys (lower (sort r)) = false).
  { apply not_true_iff_false. by rewrite contains_sort_keys. }
  split.
  - unfold search_elastic. by rewrite Hes.
  - unfold search_db. by rewrite Hdb.
Qed.

Lemma invalid_sort_rejected_witness :
  (lower "Name" ∉ valid_sort_keys) /\
  search_elastic nyaa_models nyaa_config (with_sort "Name" "desc" false default_request)
    = Raise (HTTPException 400) /\
  search_db nyaa_models (with_sort "Name" "desc" false default_request)
    = Raise (HTTPException 400).
Proof.
  assert (H : lower (sort (with_sort "Name" "desc" false default_request))
              ∉ valid_sort_keys)
    by (apply (bool_decide_unpack _); vm_compute; exact I).
  split; [exact H|].
  exact (invalid_sort_rejected nyaa_models nyaa_config
           (with_sort "Name" "desc" false default_request) H).
Defined.

(** X2: with one of the five sort keys, an order that is neither [desc]
    nor [asc] after lower-casing is rejected with a 400 by both
    functions, RSS or not: the order of an RSS request is validated
    before it is replaced. *)
Theorem invalid_order_rejected models config r :
  sort r ∈ valid_sort_keys ->
  lower (order r) ∉ valid_orders ->
  search_elastic models config r = Raise (HTTPException 400) /\
  search_db models r = Raise (HTTPException 400).
Proof.
  intros Hsort Hbad.
  destruct (valid_sort_key_lookup _ Hsort) as (Hlow & [es_sort Hes] & [column Hdb]).
  assert (Horder : contains order_keys (lower (order r)) = false).
  { apply not_true_iff_false. by rewrite contains_order_keys. }
  split.
  - unfold search_elastic.
    rewrite (proj2 (contains_es_sort_keys _) Hlow), (getitem_Some _ _ _ Hes).
    by rewrite Horder.
  - unfold search_db.
    rewrite (proj2 (contains_sort_keys _) Hlow), (getitem_Some _ _ _ Hdb).
    by rewrite Horder.
Qed.

Lemma invalid_order_rejected_witness :
  ("id" ∈ valid_sort_keys) /\ (lower "down" ∉ valid_orders) /\
  search_elastic nyaa_models nyaa_config (with_sort "id" "down" true default_request)
    = Raise (HTTPException 400) /\
  search_db nyaa_models (with_sort "id" "down" true default_request)
    = Raise (HTTPException 400).
Proof.
  assert (H1 : sort (with_sort "id" "down" true default_request) ∈ valid_sort_keys)
    by (apply (bool_decide_unpack _); vm_compute; exact I).
  assert (H2 : lower (order (with_sort "id" "down" true default_request)) ∉ valid_orders)
    by (apply (bool_decide_unpack _); vm_compute; exact I).
  split; [exact H1 | split; [exact H2|]].
  exact (invalid_order_rejected nyaa_models nyaa_config
           (with_sort "id" "down" true default_request) H1 H2).
Defined.

(** X3: with one of the five sort keys, a category code that is not
    empty and is not of the form digits, underscore, digits is rejected
    with a 400 by [search_elastic], and by [search_db] when the viewed
    user is absent or known ([search_db] looks the user up before the
    category). *)
Theorem malformed_category_rejected models config r :
  sort r ∈ valid_sort_keys ->
  category r <> EmptyString ->
  cat_match (category r) = None ->
  search_elastic models config r = Raise (HTTPException 400) /\
  (user_known models (user r) -> search_db models r = Raise (HTTPException 400)).
Proof.
  intros Hsort Hne Hmatch.
  destruct (valid_sort_key_lookup _ Hsort) as (Hlow & [es_sort Hes] & [column Hdb]).
  apply str_truthy_nonempty in Hne.
  assert (Hcat_es : es_category models (category r) = Raise (HTTPException 400))
    by (unfold es_category; by rewrite Hne, Hmatch).
  assert (Hcat_db : db_category models (category r) = Raise (HTTPException 400))
    by (unfold db_category; by rewrite Hne, Hmatch).
  assert (Hdb_cases : forall u, resolve_user models (user r) = Ok u ->
                        search_db models r = Raise (HTTPException 400)).
  { intros u Hu.
    destruct (decide (lower (order r) ∈ valid_orders)) as [Horder|Horder];
      [|by apply (order_or_quality_400 models config); [|left]].
    destruct (decide (quality_filter r ∈ quality_keys)) as [Hq|Hq];
      [|by apply (order_or_quality_400 models config); [|right]].
    destruct (filter_keys_quality_key models _ Hq) as [ft Hft].
    by rewrite (search_db_validated _ _ _ _ Hlow Hdb Horder Hft), Hu, Hcat_db. }
  split.
  - destruct (decide (lower (order r) ∈ valid_orders)) as [Horder|Horder];
      [|by apply order_or_quality_400; [|left]].
    destruct (decide (quality_filter r ∈ quality_keys)) as [Hq|Hq];
      [|by apply order_or_quality_400; [|right]].
    destruct (int_quality_key _ Hq) as [qf Hqf].
    by rewrite (search_elastic_validated _ _ _ _ _ Hlow Hes Horder Hq Hqf), Hcat_es.
  - intros Hknown. unfold user_known in Hknown.
    destruct (user r) as [n|].
    + destruct (decide (n = 0)) as [->|Hn0]; [by apply (Hdb_cases (Some 0))|].
      destruct Hknown as [->|[u Hu]]; [done|].
      apply (Hdb_cases (Some (user_id u))). unfold resolve_user.
      cbn. unfold int_truthy. rewrite (proj2 (Z.eqb_neq n 0) Hn0). cbn. by rewrite Hu.
    + by apply (Hdb_cases None).
Qed.

Lemma malformed_category_rejected_witness :
  let r := with_category "1-2" default_request in
  (sort r ∈ valid_sort_keys) /\ category r <> EmptyString /\
  cat_match (category r) = None /\ user_known nyaa_models (user r) /\
  search_elastic nyaa_models nyaa_config r = Raise (HTTPException 400) /\
  search_db nyaa_models r = Raise (HTTPException 400).
Proof.
  intros r.
  assert (H1 : sort r ∈ valid_sort_keys)
    by (apply (bool_decide_unpack _); vm_compute; exact I).
  assert (H2 : category r <> EmptyString) by discriminate.
  assert (H3 : cat_match (category r) = None) by (vm_compute; reflexivity).
  assert (H4 : user_known nyaa_models (user r)) by exact I.
  destruct (malformed_category_rejected nyaa_models nyaa_config r H1 H2 H3) as [Hes Hdb].
  split; [exact H1 | split; [exact H2 | split; [exact H3 | split; [exact H4 | split]]]].
  - exact Hes.
  - exact (Hdb H4).
Defined.

Lemma resolve_user_unknown models user :
  ~ user_known models user -> resolve_user models user = Raise (HTTPException 404).
Proof.
  unfold user_known, resolve_user. destruct user as [n|]; [|tauto].
  intros Hunknown. cbn. unfold int_truthy.
  destruct (Z.eqb_spec n 0) as [->|Hn]; [tauto|]. cbn.
  destruct (User_by_id models n) as [u|]; [|done].
  exfalso. apply Hunknown. right. by eexists.
Qed.

(** X4: a viewed user that is not in the directory.  With valid sort,
    order and quality code [search_db] answers 404 whatever the
    category is; [search_elastic] validates the category first, so it
    answers 404 only for a category it accepts and otherwise reports
    the category. *)
Theorem unknown_user_not_found models config r :
  sort r ∈ valid_sort_keys ->
  lower (order r) ∈ valid_orders ->
  quality_filter r ∈ quality_keys ->
  ~ user_known models (user r) ->
  search_db models r = Raise (HTTPException 404) /\
  search_elastic models config r
  = match es_category models (category r) with
    | Ok _ => Raise (HTTPException 404)
    | Raise e => Raise e
    end.
Proof.
  intros Hsort Horder Hq Hunknown.
  destruct (valid_sort_key_lookup _ Hsort) as (Hlow & [es_sort Hes] & [column Hdb]).
  destruct (filter_keys_quality_key models _ Hq) as [ft Hft].
  destruct (int_quality_key _ Hq) as [qf Hqf].
  apply resolve_user_unknown in Hunknown.
  split.
  - by rewrite (search_db_validated _ _ _ _ Hlow Hdb Horder Hft), Hunknown.
  - rewrite (search_elastic_validated _ _ _ _ _ Hlow Hes Horder Hq Hqf).
    destruct (es_category models (category r)) as [[[[mc sc] m] sid]|e]; [|done].
    cbn [mbind result_bind]. by rewrite Hunknown.
Qed.

Lemma unknown_user_not_found_witness :
  let r := with_user (Some 7) (with_category "1-2" default_request) in
  (sort r ∈ valid_sort_keys) /\ (lower (order r) ∈ valid_orders) /\
  (quality_filter r ∈ quality_keys) /\ ~ user_known nyaa_models (user r) /\
  search_db nyaa_models r = Raise (HTTPException 404) /\
  search_elastic nyaa_models nyaa_config r = Raise (HTTPException 400).
Proof.
  intros r.
  assert (H1 : sort r ∈ valid_sort_keys)
    by (apply (bool_decide_unpack _); vm_compute; exact I).
  assert (H2 : lower (order r) ∈ valid_orders)
    by (apply (bool_decide_unpack _); vm_compute; exact I).
  assert (H3 : quality_filter r ∈ quality_keys)
    by (apply (bool_decide_unpack _); vm_compute; exact I).
  assert (H4 : ~ user_known nyaa_models (user r)).
  { intros [H|[u H]]; [discriminate H | discriminate H]. }
  destruct (unknown_user_not_found nyaa_models nyaa_config r H1 H2 H3 H4) as [Hdb Hes].
  split; [exact H1 | split; [exact H2 | split; [exact H3 | split; [exact H4 | split]]]].
  - exact Hdb.
  - exact Hes.
Defined.

(** ** Which requests compile *)

Lemma resolve_user_Ok_iff models user :
  (exists u, resolve_user models user = Ok u) <-> user_known models user.
Proof.
  split.
  - intros [u Hu]. unfold user_known, resolve_user in *.
    destruct user as [n|]; [|done]. cbn in Hu. unfold int_truthy in Hu.
    destruct (Z.eqb_spec n 0) as [->|Hn]; [by left|]. cbn in Hu.
    destruct (User_by_id models n); [right; by eexists | done].
  - unfold user_known, resolve_user. destruct user as [n|]; [|by eauto].
    cbn. unfold int_truthy.
    destruct (Z.eqb_spec n 0) as [->|Hn]; cbn; [by eauto|].
    intros [->|[u Hu]]; [done|]. rewrite Hu. by eauto.
Qed.


Lemma es_category_Ok_iff models category :
  (exists x, es_category models category = Ok x) <-> category_known models category.
Proof.
  unfold category_known. split.
  - intros [x Hx]. unfold es_category in Hx.
    destruct (str_truthy category) eqn:Htruthy.
    + right. destruct (cat_match category) as [[g1 g2]|]; [|done].
      inv_bind Hx as m Hm. inv_bind Hx as sid Hsid.
      exists g1, g2, m, sid. repeat split; try done.
      intros Hpos. apply Z.ltb_lt in Hpos. rewrite Hpos in Hx.
      destruct (0 <? sid); inv_bind Hx as [] Hfound;
        by apply abort_if_Ok, negb_false_iff, bool_decide_eq_true in Hfound.
    + left. unfold str_truthy in Htruthy.
      by apply negb_false_iff, bool_decide_eq_true in Htruthy.
  - intros [->|(g1 & g2 & m & sid & Hm & Hg1 & Hg2 & Hknown)].
    + by eexists.
    + unfold es_category. rewrite Hm, Hg1, Hg2.
      destruct (str_truthy category); [|by eexists]. cbn [mbind result_bind].
      destruct (Z.ltb_spec 0 m) as [Hpos|Hneg]; [|by eexists].
      specialize (Hknown Hpos).
      destruct (0 <? sid); rewrite (bool_decide_eq_true_2 _ Hknown); by eexists.
Qed.





Lemma es_window_page_count rss page per_page max_search_results s :
  es_window rss page per_page max_search_results s
  = if rss then Ok (Search_getitem 0 per_page s)
    else
      pages ← page_count per_page max_search_results;
      let max_page := Z.min page pages in
      Ok (Search_getitem ((max_page - 1) * per_page)
                         (Z.min max_search_results (max_page * per_page)) s).
Proof.
  unfold es_window, page_count. destruct rss; [done|].
  destruct (float_of_int per_page) as [per_page_f|]; [|done]. cbn [mbind result_bind].
  destruct (int_truediv_float max_search_results per_page_f) as [quotient|]; [|done].
  cbn [mbind result_bind]. by destruct (math_ceil quotient).
Qed.




(** ** Ordering, join and paging of the datastore query *)

Lemma db_steps_join models items ft mc sc m sid u liu rss admin q :
  q_join (db_term_items items
            (db_quality_filter ft
               (db_category_filter mc sc m sid (db_view models u liu rss admin q))))
  = q_join q.
Proof.
  assert (Hitems : forall q0, q_join (db_term_items items q0) = q_join q0).
  { induction items as [|item items IH]; intros q0; cbn; [done|].
    rewrite IH. by destruct (2 <=? len item). }
  rewrite Hitems.
  unfold db_quality_filter, db_category_filter, db_view, db_user_view, db_general_view.
  repeat case_match; done.
Qed.

Lemma db_steps_order_by models items ft mc sc m sid u liu rss admin q :
  q_order_by (db_term_items items
                (db_quality_filter ft
                   (db_category_filter mc sc m sid (db_view models u liu rss admin q))))
  = q_order_by q.
Proof.
  assert (Hitems : forall q0, q_order_by (db_term_items items q0) = q_order_by q0).
  { induction items as [|item items IH]; intros q0; cbn; [done|].
    rewrite IH. by destruct (2 <=? len item). }
  rewrite Hitems.
  unfold db_quality_filter, db_category_filter, db_view, db_user_view, db_general_view.
  repeat case_match; done.
Qed.

Lemma search_db_tail models r q :
  search_db models r = Ok q ->
  exists column ordering q',
    sort_keys !! sort r = Some column /\
    getattr_call (if rss r then Torrent_id else column)
                 (if rss r then "desc" else order r) = Ok ordering /\
    q_join q' = [] /\
    q_order_by q' = [] /\
    q = (if rss r then Query_limit (per_page r)
         else Query_paginate_faste (page r) (per_page r) 5)
          (Query_order_by ordering
             (let sort := if rss r then Torrent_id else column in
              if negb (bool_decide (class_ sort = Torrent_))
              then Query_join (class_ sort) q' else q')).
Proof.
  intros H. apply search_db_Ok in H
    as (column & ft & u & mc & sc & m & sid & q' & ordering
        & _ & Hsort & _ & _ & _ & _ & Hq' & Hordering & ->).
  exists column, ordering, q'.
  split; [done|]. split; [done|].
  assert (Hq'' : exists items,
    q' = db_term_items items
           (db_quality_filter ft
              (db_category_filter mc sc m sid
                 (db_view models u (logged_in_user r) (rss r) (admin r)
                    (if str_truthy (term r) then Query_new TorrentNameSearch
                     else Query_new Torrent_))))).
  { unfold db_term_filter in Hq'. destruct (str_truthy (term r)).
    - inv_bind Hq' as items Hsplit. injection Hq' as <-. by exists items.
    - injection Hq' as <-. by exists []. }
  destruct Hq'' as [items ->].
  rewrite db_steps_join, db_steps_order_by.
  by destruct (str_truthy (term r)).
Qed.

(** X7: the query that [search_db] compiles for an RSS request orders
    by [Torrent.id] descending, joins nothing and is limited to
    [per_page] rows, whatever sort key, order and page the caller
    gave. *)
Theorem search_db_rss_shape models r q :
  rss r = true ->
  search_db models r = Ok q ->
  q_order_by q = [desc Torrent_id] /\
  q_join q = [] /\
  q_paging q = limit (per_page r).
Proof.
  intros Hrss H. apply search_db_tail in H
    as (column & ordering & q' & _ & Hord & Hjoin & Horder & ->).
  rewrite Hrss in Hord |- *. injection Hord as <-.
  cbn zeta. change (class_ Torrent_id) with Torrent_.
  rewrite (bool_decide_eq_true_2 (Torrent_ = Torrent_)) by done.
  unfold Query_limit, Query_order_by. cbn [negb q_order_by q_join q_paging].
  by rewrite Hjoin, Horder.
Qed.

Lemma search_db_rss_shape_witness :
  exists q,
    search_db nyaa_models (with_sort "seeders" "asc" true default_request) = Ok q /\
    q_order_by q = [desc Torrent_id] /\ q_join q = [] /\ q_paging q = limit 75.
Proof.
  eexists. split; [vm_compute; reflexivity|].
  apply (search_db_rss_shape nyaa_models
           (with_sort "seeders" "asc" true default_request)); [reflexivity|].
  vm_compute. reflexivity.
Defined.

Lemma sort_keys_class k column :
  sort_keys !! k = Some column ->
  class_ column = if bool_decide (k ∈ statistic_sort_keys) then Statistic else Torrent_.
Proof.
  intros H. apply sort_keys_lookup in H.
  rewrite !elem_of_cons, elem_of_nil in H.
  destruct H as [[= -> ->]|[[= -> ->]|[[= -> ->]|[[= -> ->]|[[= -> ->]|[]]]]]];
    vm_compute; reflexivity.
Qed.

(** X8: the query that [search_db] compiles for a request that is not
    RSS orders by the column of the sort key in the direction of the
    order, joins the statistics relation exactly when the key is
    [seeders], [leechers] or [downloads], and asks for the page [page]
    of [per_page] rows with step 5: no upper bound is put on the
    page. *)
Theorem search_db_sorted_shape models r q :
  rss r = false ->
  search_db models r = Ok q ->
  exists column,
    sort_keys !! sort r = Some column /\
    q_order_by q = [if bool_decide (order r = "desc") then desc column else asc column] /\
    q_join q = (if bool_decide (sort r ∈ statistic_sort_keys) then [Statistic] else []) /\
    q_paging q = paginate_faste (page r) (per_page r) 5.
Proof.
  intros Hrss H. apply search_db_tail in H
    as (column & ordering & q' & Hsort & Hord & Hjoin & Horder & ->).
  rewrite Hrss in Hord |- *. exists column. split; [done|].
  pose proof (sort_keys_class _ _ Hsort) as Hclass.
  unfold getattr_call in Hord. cbn zeta. rewrite Hclass.
  destruct (bool_decide (sort r ∈ statistic_sort_keys));
    [rewrite (bool_decide_eq_false_2 (Statistic = Torrent_)) by done
    |rewrite (bool_decide_eq_true_2 (Torrent_ = Torrent_)) by done];
    unfold Query_paginate_faste, Query_order_by, Query_join;
    cbn [negb q_order_by q_join q_paging]; rewrite Hjoin, Horder;
    (split; [|done]);
    repeat case_bool_decide; try done; by injection Hord as <-.
Qed.

Lemma search_db_sorted_shape_witness :
  exists q,
    search_db nyaa_models (with_sort "leechers" "asc" false default_request) = Ok q /\
    q_order_by q = [asc Statistic_leech_count] /\ q_join q = [Statistic] /\
    q_paging q = paginate_faste 1 75 5.
Proof.
  set (r := with_sort "leechers" "asc" false default_request).
  assert (Hq : search_db nyaa_models r
               = Ok (Query_paginate_faste 1 75 5
                       (Query_order_by (asc Statistic_leech_count)
                          (Query_join Statistic
                             (Query_filter (E_flags_is 2 false)
                                (Query_filter (E_flags_is 32 false)
                                   (Query_new Torrent_)))))))
    by (vm_compute; reflexivity).
  destruct (search_db_sorted_shape nyaa_models r _ eq_refl Hq)
    as (column & Hcolumn & Horder & Hjoin & Hpaging).
  eexists. split; [exact Hq|].
  vm_compute in Hcolumn. injection Hcolumn as <-.
  split; [exact Horder | split; [exact Hjoin | exact Hpaging]].
Defined.

(** ** Sort and window of the index search *)

(** X9: the search that [search_elastic] compiles for an RSS request
    has the window from 0 to [per_page] and sorts descending on the
    field of the caller's sort key; it sorts by [-id] only when the
    caller's key is [id]. *)
Theorem search_elastic_rss_shape models config r s :
  rss r = true ->
  search_elastic models config r = Ok s ->
  exists es_sort,
    es_sort_keys !! sort r = Some es_sort /\
    s_sort s = ["-" +:+ es_sort] /\
    s_slice s = Some (0, per_page r) /\
    (s_sort s = ["-id"] <-> sort r = "id").
Proof.
  intros Hrss H. pose proof H as Hslice.
  apply search_elastic_sort in H as (es_sort & Hsort & Hsorted).
  apply search_elastic_slice in Hslice as (s0 & s' & Hs' & Hslice).
  rewrite Hrss in Hsorted, Hs'. injection Hs' as <-.
  rewrite bool_decide_eq_true_2 in Hsorted by done.
  exists es_sort. split; [done|]. split; [done|]. split; [done|].
  rewrite Hsorted. apply es_sort_keys_lookup in Hsort.
  rewrite !elem_of_cons, elem_of_nil in Hsort.
  destruct Hsort as [[= -> ->]|[[= -> ->]|[[= -> ->]|[[= -> ->]|[[= -> ->]|[]]]]]];
    split; (done || discriminate).
Qed.

Lemma search_elastic_rss_shape_witness :
  exists s,
    search_elastic nyaa_models nyaa_config (with_sort "downloads" "asc" true default_request)
      = Ok s /\
    s_sort s = ["-download_count"] /\ s_slice s = Some (0, 75).
Proof.
  set (r := with_sort "downloads" "asc" true default_request).
  assert (Hs : search_elastic nyaa_models nyaa_config r
               = Ok (Search_getitem 0 75
                       (Search_sort "-download_count"
                          (Search_filter (Q_term "hidden" (Bool_ false))
                             (Search_filter (Q_term "deleted" (Bool_ false))
                                (Search_new (Some "nyaa")))))))
    by (vm_compute; reflexivity).
  destruct (search_elastic_rss_shape nyaa_models nyaa_config r _ eq_refl Hs)
    as (es_sort & Hkey & Hsorted & Hslice & _).
  eexists. split; [exact Hs|].
  vm_compute in Hkey. injection Hkey as <-.
  split; [exact Hsorted | exact Hslice].
Defined.

Lemma ceil_div_bounds a b :
  0 < b -> (ceil_div a b - 1) * b < a <= ceil_div a b * b.
Proof.
  intros Hb. unfold ceil_div.
  pose proof (Z.div_mod (- a) b ltac:(lia)).
  pose proof (Z.mod_pos_bound (- a) b Hb). nia.
Qed.

(** X10: for a request that is not RSS, with a page of at least 1 and
    [per_page] and [max_search_results] positive and below [2^53], the
    window of the compiled search is not empty, starts at 0 or later,
    ends at [max_search_results] or before and holds [per_page]
    results at most. *)
Theorem index_window_within_bounds models config r s :
  rss r = false ->
  1 <= page r ->
  0 < per_page r < 2 ^ 53 ->
  0 < max_search_results r < 2 ^ 53 ->
  search_elastic models config r = Ok s ->
  exists from_idx to_idx,
    s_slice s = Some (from_idx, to_idx) /\
    0 <= from_idx < to_idx /\
    to_idx <= max_search_results r /\
    to_idx - from_idx <= per_page r.
Proof.
  intros Hrss Hpage Hper Hmax H.
  apply search_elastic_slice in H as (s0 & s' & Hs' & ->).
  rewrite Hrss, es_window_not_rss in Hs' by lia. injection Hs' as <-.
  eexists _, _. split; [reflexivity|].
  unfold spec_window. cbn [fst snd].
  pose proof (ceil_div_bounds (max_search_results r) (per_page r) ltac:(lia)) as Hceil.
  set (pages := ceil_div (max_search_results r) (per_page r)) in *.
  assert (Hpages : 1 <= pages) by nia.
  set (max_page := Z.min (page r) pages).
  assert (Hmax_page : 1 <= max_page <= pages) by (unfold max_page; lia).
  assert (Hbelow : (max_page - 1) * per_page r <= (pages - 1) * per_page r) by nia.
  assert (Hstep : max_page * per_page r = (max_page - 1) * per_page r + per_page r)
    by lia.
  assert (Hnonneg : 0 <= (max_page - 1) * per_page r) by nia.
  lia.
Qed.

Lemma index_window_within_bounds_witness :
  let r := with_paging 3 75 1000 false default_request in
  rss r = false /\ 1 <= page r /\ 0 < per_page r < 2 ^ 53 /\
  0 < max_search_results r < 2 ^ 53 /\
  exists s from_idx to_idx,
    search_elastic nyaa_models nyaa_config r = Ok s /\
    s_slice s = Some (from_idx, to_idx) /\
    0 <= from_idx < to_idx /\ to_idx <= 1000 /\ to_idx - from_idx <= 75.
Proof.
  intros r.
  assert (H1 : rss r = false) by reflexivity.
  assert (H2 : 1 <= page r) by (cbn; lia).
  assert (H3 : 0 < per_page r < 2 ^ 53) by (cbn; lia).
  assert (H4 : 0 < max_search_results r < 2 ^ 53) by (cbn; lia).
  assert (Hs : search_elastic nyaa_models nyaa_config r
               = Ok (Search_getitem 150 225
                       (Search_sort "-id"
                          (Search_filter (Q_term "hidden" (Bool_ false))
                             (Search_filter (Q_term "deleted" (Bool_ false))
                                (Search_new (Some "nyaa")))))))
    by (vm_compute; reflexivity).
  destruct (index_window_within_bounds nyaa_models nyaa_config r _ H1 H2 H3 H4 Hs)
    as (from_idx & to_idx & Hslice & Hbounds).
  split; [exact H1 | split; [exact H2 | split; [exact H3 | split; [exact H4|]]]].
  eexists _, from_idx, to_idx. split; [exact Hs|]. split; [exact Hslice | exact Hbounds].
Defined.

(** The page reaches the compiled search through the window alone. *)
Lemma search_elastic_with_page models config r page' :
  (forall s0, es_window (rss r) page' (per_page r) (max_search_results r) s0
              = es_window (rss r) (page r) (per_page r) (max_search_results r) s0) ->
  search_elastic models config (with_page page' r) = search_elastic models config r.
Proof.
  intros Hwin. unfold search_elastic.
  cbn [with_page sort order rss quality_filter category user term page per_page
       max_search_results logged_in_user admin].
  repeat match goal with
         | |- (?m ≫= _) = (?m ≫= _) =>
             destruct m as [?|?]; [cbn [mbind result_bind]|reflexivity]
         | |- (let '(_, _) := ?p in _) = _ => destruct p
         end.
  by rewrite Hwin.
Qed.

(** X11: for a request that is not RSS, with [per_page] positive and
    [per_page] and [max_search_results] below [2^53], every page from
    the last one on gives what the last page gives: the call with
    [page] replaced by [ceil(max_search_results / per_page)] has the
    same outcome. *)
Theorem pages_beyond_last_are_clamped models config r :
  rss r = false ->
  0 < per_page r < 2 ^ 53 ->
  0 <= max_search_results r < 2 ^ 53 ->
  ceil_div (max_search_results r) (per_page r) <= page r ->
  search_elastic models config
    (with_page (ceil_div (max_search_results r) (per_page r)) r)
  = search_elastic models config r.
Proof.
  intros Hrss Hper Hmax Hpage. apply search_elastic_with_page. intros s0.
  rewrite Hrss, !es_window_not_rss by done. unfold spec_window. cbn [fst snd].
  by rewrite Z.min_id, (Z.min_r (page r)) by done.
Qed.

Lemma pages_beyond_last_are_clamped_witness :
  let r := with_paging 50 75 1000 false default_request in
  rss r = false /\ 0 < per_page r < 2 ^ 53 /\ 0 <= max_search_results r < 2 ^ 53 /\
  ceil_div (max_search_results r) (per_page r) <= page r /\
  search_elastic nyaa_models nyaa_config (with_page 14 r)
  = search_elastic nyaa_models nyaa_config r.
Proof.
  intros r.
  assert (H1 : rss r = false) by reflexivity.
  assert (H2 : 0 < per_page r < 2 ^ 53) by (cbn; lia).
  assert (H3 : 0 <= max_search_results r < 2 ^ 53) by (cbn; lia).
  assert (H4 : ceil_div (max_search_results r) (per_page r) <= page r)
    by (vm_compute; discriminate).
  split; [exact H1 | split; [exact H2 | split; [exact H3 | split; [exact H4|]]]].
  exact (pages_beyond_last_are_clamped nyaa_models nyaa_config r H1 H2 H3 H4).
Defined.

Lemma float_of_int_small n :
  0 <= n < 2 ^ 53 -> exists f, float_of_int n = Ok f.
Proof.
  intros Hn. destruct (Z.eq_dec n 0) as [->|Hn0]; [by eexists|].
  destruct (float_of_int_pos n ltac:(lia)) as (m & e & -> & _). by eexists.
Qed.

Lemma page_count_zero max_search_results :
  0 <= max_search_results < 2 ^ 53 ->
  page_count 0 max_search_results = Raise ZeroDivisionError.
Proof.
  intros Hmax. unfold page_count, int_truediv_float.
  change (float_of_int 0) with (Ok (S754_zero false)). cbn [mbind result_bind].
  destruct (float_of_int_small _ Hmax) as [f ->]. done.
Qed.

(** X12: [per_page = 0].  A request that is not RSS and passes every
    validation ends in [ZeroDivisionError], raised by the division of
    the page count; the same request as RSS compiles, with the empty
    window from 0 to 0. *)
Theorem per_page_zero models config r :
  per_page r = 0 ->
  sort r ∈ valid_sort_keys ->
  lower (order r) ∈ valid_orders ->
  quality_filter r ∈ quality_keys ->
  category_known models (category r) ->
  user_known models (user r) ->
  (rss r = false -> 0 <= max_search_results r < 2 ^ 53 ->
   search_elastic models config r = Raise ZeroDivisionError) /\
  (rss r = true ->
   exists s, search_elastic models config r = Ok s /\ s_slice s = Some (0, 0)).
Proof.
  intros Hzero Hsort Horder Hq Hcat Huser.
  destruct (valid_sort_key_lookup _ Hsort) as (Hlow & [es_sort Hes] & _).
  destruct (int_quality_key _ Hq) as [qf Hqf].
  apply es_category_Ok_iff in Hcat as [[[[mc sc] m] sid] Hcat].
  apply resolve_user_Ok_iff in Huser as [u Hu].
  rewrite (search_elastic_validated _ _ _ _ _ Hlow Hes Horder Hq Hqf), Hcat.
  cbn [mbind result_bind]. rewrite Hu. cbn [mbind result_bind].
  rewrite es_window_page_count, Hzero.
  split.
  - intros -> Hmax. by rewrite page_count_zero.
  - intros ->. cbn [mbind result_bind]. eexists. split; [reflexivity|].
    by destruct (ENABLE_ELASTIC_SEARCH_HIGHLIGHT config).
Qed.

Lemma per_page_zero_witness :
  let r := with_paging 1 0 1000 false default_request in
  per_page r = 0 /\ (sort r ∈ valid_sort_keys) /\ (lower (order r) ∈ valid_orders) /\
  (quality_filter r ∈ quality_keys) /\ category_known nyaa_models (category r) /\
  user_known nyaa_models (user r) /\ rss r = false /\
  0 <= max_search_results r < 2 ^ 53 /\
  search_elastic nyaa_models nyaa_config r = Raise ZeroDivisionError.
Proof.
  intros r.
  assert (H1 : per_page r = 0) by reflexivity.
  assert (H2 : sort r ∈ valid_sort_keys)
    by (apply (bool_decide_unpack _); vm_compute; exact I).
  assert (H3 : lower (order r) ∈ valid_orders)
    by (apply (bool_decide_unpack _); vm_compute; exact I).
  assert (H4 : quality_filter r ∈ quality_keys)
    by (apply (bool_decide_unpack _); vm_compute; exact I).
  assert (H5 : category_known nyaa_models (category r)).
  { right. exists "0", "0", 0, 0. repeat split. intros H. by apply Z.lt_irrefl in H. }
  assert (H6 : user_known nyaa_models (user r)) by exact I.
  assert (H7 : rss r = false) by reflexivity.
  assert (H8 : 0 <= max_search_results r < 2 ^ 53) by (cbn; lia).
  repeat (split; [assumption|]).
  exact (proj1 (per_page_zero nyaa_models nyaa_config r H1 H2 H3 H4 H5 H6) H7 H8).
Defined.



(** ** What the visibility filters guarantee *)

Lemma es_hit_view models config r s simple_query_string_hit t :
  search_elastic models config r = Ok s ->
  es_hit models simple_query_string_hit t s = true ->
  exists u,
    resolve_user models (user r) = Ok u /\
    forallb (es_matches models simple_query_string_hit t)
            (s_filter (es_view u (logged_in_user r) (rss r) (admin r) (Search_new None)))
    = true.
Proof.
  intros H Hhit. apply search_elastic_filter in H
    as (u & mc & sc & m & sid & qf & Hu & _ & _ & _ & Hfilter).
  exists u. split; [done|].
  unfold es_hit in Hhit. apply andb_true_iff in Hhit as [_ Hhit].
  rewrite Hfilter, forallb_app in Hhit. by apply andb_true_iff in Hhit as [Hhit _].
Qed.

Lemma db_hit_view models r q fulltext_hit t :
  search_db models r = Ok q ->
  db_hit fulltext_hit t q = true ->
  exists u,
    resolve_user models (user r) = Ok u /\
    forallb (db_matches fulltext_hit t)
            (q_filter (db_view models u (logged_in_user r) (rss r) (admin r)
                         (Query_new Torrent_)))
    = true.
Proof.
  intros H Hhit. apply search_db_filter in H
    as (u & mc & sc & m & sid & ft & items & Hu & _ & _ & _ & Hfilter).
  exists u. split; [done|].
  unfold db_hit in Hhit.
  rewrite Hfilter, forallb_app in Hhit. by apply andb_true_iff in Hhit as [Hhit _].
Qed.

(** X14: a request without the admin flag never selects a deleted
    record, in either backend, whoever views and whatever else is
    asked. *)
Theorem non_admin_never_sees_deleted models config r :
  admin r = false ->
  (forall s simple_query_string_hit t,
     search_elastic models config r = Ok s ->
     es_hit models simple_query_string_hit t s = true ->
     has_flag t (DELETED models) = false) /\
  (forall q fulltext_hit t,
     search_db models r = Ok q ->
     db_hit fulltext_hit t q = true ->
     has_flag t (DELETED models) = false).
Proof.
  intros Hadmin. split.
  - intros s sqs_hit t H Hhit.
    destruct (es_hit_view _ _ _ _ _ _ H Hhit) as (u & _ & Hview).
    rewrite Hadmin in Hview. revert Hview.
    generalize (logged_in_user r) (rss r). intros liu rss.
    unfold es_view, es_user_view, es_general_view.
    destruct u as [u|]; [destruct (int_truthy u)|];
      destruct rss, liu as [l|]; try destruct (same_user_of _ _);
      cbn -[doc_field]; rewrite ?term_uploader_matches; cbn;
      rewrite ?term_flag_false_matches; unfold has_flag;
      destruct (Z.land (flags t) (DELETED models) =? 0); cbn;
      rewrite ?andb_false_r; done.
  - intros q ft_hit t H Hhit.
    destruct (db_hit_view _ _ _ _ _ H Hhit) as (u & _ & Hview).
    rewrite Hadmin in Hview. revert Hview.
    generalize (logged_in_user r) (rss r). intros liu rss.
    unfold db_view, db_user_view, db_general_view.
    destruct u as [u|]; [destruct (int_truthy u)|];
      destruct rss, liu as [l|]; try destruct (same_user_of _ _);
      cbn; unfold has_flag;
      destruct (Z.land (flags t) (DELETED models) =? 0); cbn;
      rewrite ?andb_false_r; done.
Qed.

Lemma non_admin_never_sees_deleted_witness :
  admin default_request = false /\
  (forall q fulltext_hit t,
     search_db nyaa_models default_request = Ok q ->
     db_hit fulltext_hit t q = true ->
     has_flag t 32 = false).
Proof.
  assert (H : admin default_request = false) by reflexivity.
  split; [exact H|].
  exact (proj2 (non_admin_never_sees_deleted nyaa_models nyaa_config default_request H)).
Defined.

(** X15: an RSS request without the admin flag never selects a hidden
    record, in either backend, even when the logged-in user is its
    uploader or the owner of the viewed profile; in the profile view
    it never selects an anonymous record either. *)
Theorem rss_never_shows_hidden models config r :
  rss r = true ->
  admin r = false ->
  (forall s simple_query_string_hit t,
     search_elastic models config r = Ok s ->
     es_hit models simple_query_string_hit t s = true ->
     has_flag t (HIDDEN models) = false /\
     (forall u, resolve_user models (user r) = Ok (Some u) -> u <> 0 ->
                has_flag t (ANONYMOUS models) = false)) /\
  (forall q fulltext_hit t,
     search_db models r = Ok q ->
     db_hit fulltext_hit t q = true ->
     has_flag t (HIDDEN models) = false /\
     (forall u, resolve_user models (user r) = Ok (Some u) -> u <> 0 ->
                has_flag t (ANONYMOUS models) = false)).
Proof.
  intros Hrss Hadmin. split.
  - intros s sqs_hit t H Hhit.
    destruct (es_hit_view _ _ _ _ _ _ H Hhit) as (u & Hu & Hview).
    rewrite Hadmin, Hrss in Hview. revert Hview.
    generalize (logged_in_user r). intros liu.
    unfold es_view, es_user_view, es_general_view.
    destruct u as [u|]; [destruct (int_truthy u) eqn:Htruthy|];
      destruct liu as [l|]; try destruct (same_user_of _ _);
      cbn -[doc_field]; rewrite ?term_uploader_matches; cbn;
      rewrite ?term_flag_false_matches; unfold has_flag;
      destruct (Z.land (flags t) (HIDDEN models) =? 0);
      destruct (Z.land (flags t) (ANONYMOUS models) =? 0); cbn;
      rewrite ?andb_false_r; try done.
    all: intros _; split; [done|]; intros u' Hu' Hnz; rewrite Hu in Hu';
      try discriminate; injection Hu' as ->; try done;
      unfold int_truthy in Htruthy;
      by rewrite (proj2 (Z.eqb_neq u' 0) Hnz) in Htruthy.
  - intros q ft_hit t H Hhit.
    destruct (db_hit_view _ _ _ _ _ H Hhit) as (u & Hu & Hview).
    rewrite Hadmin, Hrss in Hview. revert Hview.
    generalize (logged_in_user r). intros liu.
    unfold db_view, db_user_view, db_general_view.
    destruct u as [u|]; [destruct (int_truthy u) eqn:Htruthy|];
      destruct liu as [l|]; try destruct (same_user_of _ _);
      cbn; rewrite ?land_lor_eqb_0; unfold has_flag;
      destruct (Z.land (flags t) (HIDDEN models) =? 0);
      destruct (Z.land (flags t) (ANONYMOUS models) =? 0); cbn;
      rewrite ?andb_false_r; try done.
    all: intros _; split; [done|]; intros u' Hu' Hnz; rewrite Hu in Hu';
      try discriminate; injection Hu' as ->; try done;
      unfold int_truthy in Htruthy;
      by rewrite (proj2 (Z.eqb_neq u' 0) Hnz) in Htruthy.
Qed.

Lemma rss_never_shows_hidden_witness :
  let r := with_viewer (Some 1) (Some {| user_id := 1 |}) true default_request in
  rss r = true /\ admin r = false /\
  (forall s simple_query_string_hit t,
     search_elastic nyaa_models nyaa_config r = Ok s ->
     es_hit nyaa_models simple_query_string_hit t s = true ->
     has_flag t 2 = false /\ has_flag t 1 = false).
Proof.
  intros r.
  assert (H1 : rss r = true) by reflexivity.
  assert (H2 : admin r = false) by reflexivity.
  split; [exact H1 | split; [exact H2|]].
  intros s sqs_hit t Hs Hhit.
  destruct (proj1 (rss_never_shows_hidden nyaa_models nyaa_config r H1 H2)
              s sqs_hit t Hs Hhit) as [Hhidden Hanonymous].
  split; [exact Hhidden|].
  apply (Hanonymous 1); [reflexivity | lia].
Defined.

(** X16: in the profile view every selected record is uploaded by the
    viewed user, in either backend, admin or not. *)
Theorem profile_hits_are_uploaded_by_viewed_user models config r u :
  resolve_user models (user r) = Ok (Some u) ->
  u <> 0 ->
  (forall s simple_query_string_hit t,
     search_elastic models config r = Ok s ->
     es_hit models simple_query_string_hit t s = true ->
     uploader_id t = Some u) /\
  (forall q fulltext_hit t,
     search_db models r = Ok q ->
     db_hit fulltext_hit t q = true ->
     uploader_id t = Some u).
Proof.
  intros Hu Hnz.
  assert (Htruthy : int_truthy u = true)
    by (unfold int_truthy; by apply negb_true_iff, Z.eqb_neq).
  split.
  - intros s sqs_hit t H Hhit.
    destruct (es_hit_view _ _ _ _ _ _ H Hhit) as (u' & Hu' & Hview).
    rewrite Hu in Hu'. injection Hu' as <-. revert Hview.
    unfold es_view, es_user_view. rewrite Htruthy.
    destruct (admin r), (negb (same_user_of _ _) || rss r);
      cbn -[doc_field]; rewrite term_uploader_matches;
      intros [Hup _]%andb_true_iff; by apply bool_decide_eq_true in Hup.
  - intros q ft_hit t H Hhit.
    destruct (db_hit_view _ _ _ _ _ H Hhit) as (u' & Hu' & Hview).
    rewrite Hu in Hu'. injection Hu' as <-. revert Hview.
    unfold db_view, db_user_view. rewrite Htruthy.
    destruct (admin r), (negb (same_user_of _ _) || rss r);
      cbn; intros [Hup _]%andb_true_iff; by apply bool_decide_eq_true in Hup.
Qed.

Lemma profile_hits_are_uploaded_by_viewed_user_witness :
  let r := with_admin true (with_viewer (Some 2) None false default_request) in
  resolve_user nyaa_models (user r) = Ok (Some 2) /\ 2 <> 0 /\
  (forall q fulltext_hit t,
     search_db nyaa_models r = Ok q ->
     db_hit fulltext_hit t q = true ->
     uploader_id t = Some 2).
Proof.
  intros r.
  assert (H1 : resolve_user nyaa_models (user r) = Ok (Some 2)) by reflexivity.
  assert (H2 : 2 <> 0) by lia.
  split; [exact H1 | split; [exact H2|]].
  exact (proj2 (profile_hits_are_uploaded_by_viewed_user nyaa_models nyaa_config r 2 H1 H2)).
Defined.

(** X17: with the admin flag no filter on deleted, hidden or anonymous
    is compiled, in either backend: the filters are the one on the
    uploader in the profile view, none in the general view, followed
    by those of the category and of the quality code (and, in the
    query, the match predicates of the term). *)
Theorem admin_view_filters models config r :
  admin r = true ->
  (forall s, search_elastic models config r = Ok s ->
     exists u main_category sub_category main_cat_id sub_cat_id qf,
       resolve_user models (user r) = Ok u /\
       s_filter s
       = (if opt_int_truthy u
          then [Q_term "uploader_id" (Int_ (default 0 u))] else [])
         ++ s_filter (es_quality_filter qf
                        (es_category_filter main_category sub_category
                           main_cat_id sub_cat_id (Search_new None)))) /\
  (forall q, search_db models r = Ok q ->
     exists u main_category sub_category main_cat_id sub_cat_id filter_tuple post,
       resolve_user models (user r) = Ok u /\
       q_filter q
       = (if opt_int_truthy u
          then [E_eq Torrent_uploader_id (default 0 u)] else [])
         ++ q_filter (db_quality_filter filter_tuple
                        (db_category_filter main_category sub_category
                           main_cat_id sub_cat_id (Query_new Torrent_)))
         ++ post /\
       forallb is_fulltext post = true).
Proof.
  intros Hadmin. split.
  - intros s H. apply search_elastic_filter in H
      as (u & mc & sc & m & sid & qf & Hu & _ & _ & _ & ->).
    exists u, mc, sc, m, sid, qf. split; [done|].
    rewrite (es_quality_filter_filter qf (es_category_filter _ _ _ _ _)).
    f_equal. rewrite Hadmin. unfold es_view, es_user_view, es_general_view.
    destruct u as [u|]; [|done]. cbn. by destruct (int_truthy u).
  - intros q H. apply search_db_filter in H
      as (u & mc & sc & m & sid & ft & items & Hu & _ & _ & _ & ->).
    exists u, mc, sc, m, sid, ft,
      (map (fun item => E_FullTextSearch item TorrentNameSearch NATURAL)
           (List.filter (fun item => 2 <=? len item) items)).
    split; [done|]. split.
    + rewrite (db_quality_filter_filter ft (db_category_filter _ _ _ _ _)).
      rewrite <- !app_assoc. f_equal.
      rewrite Hadmin. unfold db_view, db_user_view, db_general_view.
      destruct u as [u|]; [|done]. cbn. by destruct (int_truthy u).
    + apply forallb_forall. intros e (item & <- & _)%in_map_iff. done.
Qed.

Lemma admin_view_filters_witness :
  let r := with_admin true default_request in
  admin r = true /\
  exists s, search_elastic nyaa_models nyaa_config r = Ok s /\ s_filter s = [].
Proof.
  intros r.
  assert (H1 : admin r = true) by reflexivity.
  split; [exact H1|].
  assert (Hs : search_elastic nyaa_models nyaa_config r
               = Ok (Search_getitem 0 75
                       (Search_sort "-id" (Search_new (Some "nyaa")))))
    by (vm_compute; reflexivity).
  destruct (proj1 (admin_view_filters nyaa_models nyaa_config r H1) _ Hs)
    as (u & mc & sc & m & sid & qf & Hu & Hfilter).
  eexists. split; [exact Hs | reflexivity].
Defined.

(** ** The category filter *)

Lemma es_category_ids models category g1 g2 m sid mc sc m' sid' :
  cat_match category = Some (g1, g2) ->
  int g1 = Ok m -> int g2 = Ok sid ->
  es_category models category = Ok (mc, sc, m', sid') ->
  m' = m /\ sid' = sid.
Proof.
  intros Hmatch Hg1 Hg2 Hcat. unfold es_category in Hcat.
  destruct (str_truthy category) eqn:Htruthy.
  - rewrite Hmatch, Hg1, Hg2 in Hcat. cbn [mbind result_bind] in Hcat.
    repeat case_match; try done;
      first [ by injection Hcat as _ _ <- <-
            | by (inv_bind Hcat as [] Hfound; injection Hcat as _ _ <- <-) ].
  - unfold str_truthy in Htruthy.
    apply negb_false_iff, bool_decide_eq_true in Htruthy.
    by rewrite Htruthy in Hmatch.
Qed.

Lemma db_category_lookups models category g1 g2 m sid mc sc m' sid' :
  cat_match category = Some (g1, g2) ->
  int g1 = Ok m -> int g2 = Ok sid ->
  db_category models category = Ok (mc, sc, m', sid') ->
  m' = m /\ sid' = sid /\
  (mc, sc) = (if 0 <? m
              then if 0 <? sid
                   then (None, SubCategory_by_category_ids models m sid)
                   else (MainCategory_by_id models m, None)
              else (None, None)).
Proof.
  intros Hmatch Hg1 Hg2 Hcat. unfold db_category in Hcat.
  destruct (str_truthy category) eqn:Htruthy.
  - rewrite Hmatch, Hg1, Hg2 in Hcat. cbn [mbind result_bind] in Hcat.
    destruct (0 <? m); [|by injection Hcat as <- <- <- <-].
    destruct (0 <? sid); cbn [mbind result_bind abort_if negb] in Hcat;
      by injection Hcat as <- <- <- <-.
  - unfold str_truthy in Htruthy.
    apply negb_false_iff, bool_decide_eq_true in Htruthy.
    by rewrite Htruthy in Hmatch.
Qed.

(** X18: a category code whose main id is 0 is accepted by both
    functions whatever its sub id is, known or not, and no category
    filter is compiled for it: the filters are those of the view and
    of the quality code (and, in the query, the match predicates). *)
Theorem category_with_main_zero models config r g1 g2 :
  cat_match (category r) = Some (g1, g2) ->
  int g1 = Ok 0 ->
  category_known models (category r) /\
  (forall s, search_elastic models config r = Ok s ->
     exists u,
       resolve_user models (user r) = Ok u /\
       s_filter s
       = s_filter (es_view u (logged_in_user r) (rss r) (admin r) (Search_new None))
         ++ es_quality_terms (quality_filter r)) /\
  (forall q, search_db models r = Ok q ->
     exists u post,
       resolve_user models (user r) = Ok u /\
       q_filter q
       = q_filter (db_view models u (logged_in_user r) (rss r) (admin r)
                     (Query_new Torrent_))
         ++ db_quality_exprs models (quality_filter r) ++ post /\
       forallb is_fulltext post = true).
Proof.
  intros Hmatch Hg1.
  destruct (cat_match_int _ _ _ Hmatch) as (m & sid & Hg1' & Hg2 & _ & _).
  rewrite Hg1 in Hg1'. injection Hg1' as <-.
  split; [|split].
  - right. exists g1, g2, 0, sid. repeat split; done.
  - intros s H. apply search_elastic_filter in H
      as (u & mc & sc & m' & sid' & qf & Hu & Hcat & Hq & Hqf & ->).
    exists u. split; [done|].
    rewrite (es_quality_filter_terms _ _ Hq Hqf).
    unfold es_category in Hcat. rewrite Hmatch, Hg1, Hg2 in Hcat.
    destruct (str_truthy (category r)); cbn in Hcat; by injection Hcat as <- <- <- <-.
  - intros q H. apply search_db_filter in H
      as (u & mc & sc & m' & sid' & ft & items & Hu & Hcat & Hft & _ & ->).
    exists u, (map (fun item => E_FullTextSearch item TorrentNameSearch NATURAL)
                   (List.filter (fun item => 2 <=? len item) items)).
    split; [done|]. split.
    + rewrite (db_quality_filter_exprs _ _ _ Hft).
      destruct (db_category_lookups _ _ _ _ _ _ _ _ _ _ Hmatch Hg1 Hg2 Hcat)
        as (-> & -> & [= -> ->]).
      done.
    + apply forallb_forall. intros e (item & <- & _)%in_map_iff. done.
Qed.

Lemma category_with_main_zero_witness :
  let r := with_category "0_9" default_request in
  cat_match (category r) = Some ("0", "9") /\ int "0" = Ok 0 /\
  SubCategory_by_category_ids nyaa_models 0 9 = None /\
  exists s, search_elastic nyaa_models nyaa_config r = Ok s /\
            s_filter s = [Q_term "deleted" (Bool_ false); Q_term "hidden" (Bool_ false)].
Proof.
  intros r.
  assert (H1 : cat_match (category r) = Some ("0", "9")) by (vm_compute; reflexivity).
  assert (H2 : int "0" = Ok 0) by reflexivity.
  split; [exact H1 | split; [exact H2 | split; [reflexivity|]]].
  assert (Hs : search_elastic nyaa_models nyaa_config r
               = Ok (Search_getitem 0 75
                       (Search_sort "-id"
                          (Search_filter (Q_term "hidden" (Bool_ false))
                             (Search_filter (Q_term "deleted" (Bool_ false))
                                (Search_new (Some "nyaa")))))))
    by (vm_compute; reflexivity).
  destruct (proj1 (proj2 (category_with_main_zero nyaa_models nyaa_config r _ _ H1 H2))
              _ Hs) as (u & Hu & Hfilter).
  injection Hu as <-.
  eexists. split; [exact Hs | exact Hfilter].
Defined.

(** X19: with a category code of positive main id, every record that
    the compiled search selects has that main category and, for a
    positive sub id, that sub-category; the same holds of the compiled
    query when the catalogue knows the category. *)
Theorem category_hits models config r g1 g2 main_cat_id sub_cat_id :
  cat_match (category r) = Some (g1, g2) ->
  int g1 = Ok main_cat_id ->
  int g2 = Ok sub_cat_id ->
  0 < main_cat_id ->
  (forall s simple_query_string_hit t,
     search_elastic models config r = Ok s ->
     es_hit models simple_query_string_hit t s = true ->
     main_category_id t = main_cat_id /\
     (0 < sub_cat_id -> sub_category_id t = sub_cat_id)) /\
  (forall q fulltext_hit t,
     category_known models (category r) ->
     search_db models r = Ok q ->
     db_hit fulltext_hit t q = true ->
     main_category_id t = main_cat_id /\
     (0 < sub_cat_id -> sub_category_id t = sub_cat_id)).
Proof.
  intros Hmatch Hg1 Hg2 Hmain.
  pose proof (proj2 (Z.ltb_lt 0 main_cat_id) Hmain) as Hmainb.
  split.
  - intros s sqs_hit t H Hhit. apply search_elastic_filter in H
      as (u & mc & sc & m & sid & qf & _ & Hcat & _ & _ & Hfilter).
    destruct (es_category_ids _ _ _ _ _ _ _ _ _ _ Hmatch Hg1 Hg2 Hcat) as [-> ->].
    pose proof (es_category_known _ _ _ _ _ _ Hcat Hmain) as Hknown.
    unfold es_hit in Hhit. apply andb_true_iff in Hhit as [_ Hhit].
    rewrite Hfilter, !forallb_app in Hhit.
    apply andb_true_iff in Hhit as [_ [Hhit _]%andb_true_iff].
    revert Hhit. unfold es_category_filter.
    destruct (Z.ltb_spec 0 sub_cat_id) as [Hsub|Hsub].
    + destruct Hknown as (-> & _ & Hsome).
      rewrite bool_decide_eq_false_2 by (by intros [? ?]).
      rewrite (bool_decide_eq_true_2 _ Hsome). cbn.
      rewrite andb_true_r. intros [H1 H2]%andb_true_iff.
      apply bool_decide_eq_true in H1, H2. split; [congruence|]. intros _. congruence.
    + destruct Hknown as (-> & _ & Hsome).
      rewrite (bool_decide_eq_true_2 _ Hsome). cbn.
      rewrite andb_true_r. intros H1. apply bool_decide_eq_true in H1.
      split; [congruence | lia].
  - intros q ft_hit t Hknown H Hhit. apply search_db_filter in H
      as (u & mc & sc & m & sid & ft & items & _ & Hcat & _ & _ & Hfilter).
    destruct (db_category_lookups _ _ _ _ _ _ _ _ _ _ Hmatch Hg1 Hg2 Hcat)
      as (-> & -> & Hlookups).
    rewrite Hmainb in Hlookups.
    destruct Hknown as [Hempty|(g1' & g2' & m' & sid' & Hmatch' & Hg1' & Hg2' & Hknown)];
      [by rewrite Hempty in Hmatch|].
    rewrite Hmatch in Hmatch'. injection Hmatch' as <- <-.
    rewrite Hg1 in Hg1'. rewrite Hg2 in Hg2'. injection Hg1' as <-. injection Hg2' as <-.
    specialize (Hknown Hmain).
    unfold db_hit in Hhit. rewrite Hfilter, !forallb_app in Hhit.
    apply andb_true_iff in Hhit as [_ [Hhit _]%andb_true_iff].
    revert Hhit. unfold db_category_filter.
    destruct (Z.ltb_spec 0 sub_cat_id) as [Hsub|Hsub]; injection Hlookups as -> ->.
    + rewrite bool_decide_eq_false_2 by (by intros [? ?]).
      rewrite (bool_decide_eq_true_2 _ Hknown). cbn.
      rewrite andb_true_r. intros [H1 H2]%andb_true_iff.
      apply bool_decide_eq_true in H1, H2. split; [congruence|]. intros _. congruence.
    + rewrite (bool_decide_eq_true_2 _ Hknown). cbn.
      rewrite andb_true_r. intros H1. apply bool_decide_eq_true in H1.
      split; [congruence | lia].
Qed.

Lemma category_hits_witness :
  let r := with_category "1_2" default_request in
  cat_match (category r) = Some ("1", "2") /\ int "1" = Ok 1 /\ int "2" = Ok 2 /\ 0 < 1 /\
  (forall s simple_query_string_hit t,
     search_elastic nyaa_models nyaa_config r = Ok s ->
     es_hit nyaa_models simple_query_string_hit t s = true ->
     main_category_id t = 1 /\ sub_category_id t = 2).
Proof.
  intros r.
  assert (H1 : cat_match (category r) = Some ("1", "2")) by (vm_compute; reflexivity).
  assert (H2 : int "1" = Ok 1) by reflexivity.
  assert (H3 : int "2" = Ok 2) by reflexivity.
  assert (H4 : 0 < 1) by lia.
  split; [exact H1 | split; [exact H2 | split; [exact H3 | split; [exact H4|]]]].
  intros s sqs_hit t Hs Hhit.
  destruct (proj1 (category_hits nyaa_models nyaa_config r _ _ _ _ H1 H2 H3 H4)
              s sqs_hit t Hs Hhit) as [Hmain Hsub].
  split; [exact Hmain | apply Hsub; lia].
Defined.

(** ** The category pattern *)

Lemma all_digits_app d1 d2 :
  all_digits (d1 +:+ d2) = all_digits d1 && all_digits d2.
Proof.
  induction d1 as [|c d1 IH]; [done|].
  change (String c d1 +:+ d2) with (String c (d1 +:+ d2)). cbn.
  by rewrite IH, andb_assoc.
Qed.



Lemma string_append_nil_r (s : string) : s +:+ EmptyString = s.
Proof.
  induction s as [|c s IH]; [done|].
  change (String c (s +:+ EmptyString) = String c s). by rewrite IH.
Qed.



(** ** The search term in the two backends *)

Lemma es_steps_with_query q qf mc sc m sid u liu rss admin s :
  es_quality_filter qf
    (es_category_filter mc sc m sid (es_view u liu rss admin (Search_query q s)))
  = Search_query q
      (es_quality_filter qf (es_category_filter mc sc m sid (es_view u liu rss admin s))).
Proof.
  unfold es_quality_filter, es_category_filter, es_view, es_user_view, es_general_view.
  repeat case_match; done.
Qed.

(** X21: [search_elastic] never tokenizes the term.  When a request
    without a term compiles, the same request with any non-empty term
    compiles to the same search with one more part: a
    [simple_query_string] query holding the whole term, quotes and
    all. *)
Theorem term_is_passed_whole models config r s term' :
  term r = EmptyString ->
  term' <> EmptyString ->
  search_elastic models config r = Ok s ->
  search_elastic models config (with_term term' r)
  = Ok (Search_query (Q_simple_query_string "my_search_analyzer" "AND" term') s).
Proof.
  intros Hterm Hterm' H. apply str_truthy_nonempty in Hterm'.
  apply search_elastic_Ok in H
    as (es_sort & qf & mc & sc & m & sid & u & s' & Hs_ & Hsort & Ho_ & Hq & Hqf
        & Hcat & Hu & Hs' & ->).
  apply es_window_Ok in Hs' as (from_idx & to_idx & -> & Hwin).
  rewrite Hterm. change (str_truthy EmptyString) with false. cbv beta iota.
  rewrite (search_elastic_run models config (with_term term' r)
             es_sort qf mc sc m sid u _ Hs_ Hsort Ho_ Hq Hqf Hcat Hu (Hwin _)).
  cbn [with_term term rss admin logged_in_user].
  rewrite Hterm', es_steps_with_query.
  by destruct (ENABLE_ELASTIC_SEARCH_HIGHLIGHT config).
Qed.

Lemma term_is_passed_whole_witness :
  exists s,
    search_elastic nyaa_models nyaa_config default_request = Ok s /\
    search_elastic nyaa_models nyaa_config (with_term "'foo bar" default_request)
    = Ok (Search_query (Q_simple_query_string "my_search_analyzer" "AND" "'foo bar") s).
Proof.
  assert (Hs : search_elastic nyaa_models nyaa_config default_request
               = Ok (Search_getitem 0 75
                       (Search_sort "-id"
                          (Search_filter (Q_term "hidden" (Bool_ false))
                             (Search_filter (Q_term "deleted" (Bool_ false))
                                (Search_new (Some "nyaa")))))))
    by (vm_compute; reflexivity).
  eexists. split; [exact Hs|].
  apply term_is_passed_whole; [reflexivity | discriminate | exact Hs].
Defined.

Lemma read_tokens_error s : forall state token emitted e,
  read_tokens state token emitted s = Raise e ->
  e = ValueError "No closing quotation".
Proof.
  induction s as [|c s IH]; intros state token emitted e; cbn -[bool_decide].
  - destruct state; congruence.
  - destruct state; repeat case_match; apply IH.
Qed.

(** X22: the only failure of the tokenizer is the [ValueError] of a
    quote that is never closed, and [search_db] lets it through: when
    the request compiles without its term and the term does not
    tokenize, the call raises that [ValueError]. *)
Theorem unclosed_quote_raises models r e :
  shlex_split (term r) = Raise e ->
  e = ValueError "No closing quotation" /\
  term r <> EmptyString /\
  (forall q0, search_db models (with_term EmptyString r) = Ok q0 ->
              search_db models r = Raise e).
Proof.
  intros Hsplit. split; [by eapply read_tokens_error|].
  assert (Hterm : term r <> EmptyString) by (by intros Hempty; rewrite Hempty in Hsplit).
  split; [done|].
  intros q0 H. apply search_db_Ok in H
    as (column & ft & u & mc & sc & m & sid & q' & ordering
        & Hs_ & Hsort & Ho_ & Hft & Hu & Hcat & _).
  cbn [sort order with_term rss quality_filter category user term page per_page
       max_search_results logged_in_user admin] in *.
  rewrite (search_db_validated _ _ _ _ Hs_ Hsort Ho_ Hft), Hu. cbn [mbind result_bind].
  rewrite Hcat. cbn [mbind result_bind].
  unfold db_term_filter. apply str_truthy_nonempty in Hterm.
  by rewrite Hterm, Hsplit.
Qed.

Lemma unclosed_quote_raises_witness :
  let r := with_term "'foo bar" default_request in
  shlex_split (term r) = Raise (ValueError "No closing quotation") /\
  search_db nyaa_models r = Raise (ValueError "No closing quotation").
Proof.
  intros r.
  assert (H : shlex_split (term r) = Raise (ValueError "No closing quotation"))
    by (vm_compute; reflexivity).
  split; [exact H|].
  destruct (unclosed_quote_raises nyaa_models r _ H) as (_ & _ & Hraise).
  eapply Hraise. vm_compute. reflexivity.
Defined.

Lemma without_whitespace_app s1 s2 :
  without_whitespace (s1 +:+ s2) = without_whitespace s1 +:+ without_whitespace s2.
Proof.
  induction s1 as [|c s1 IH]; [done|].
  change (String c s1 +:+ s2) with (String c (s1 +:+ s2)).
  cbn [without_whitespace]. destruct (is_whitespace c); [done|].
  change (String c (without_whitespace s1) +:+ without_whitespace s2)
    with (String c (without_whitespace s1 +:+ without_whitespace s2)).
  by rewrite IH.
Qed.

Lemma concat_strings_app l1 l2 :
  concat_strings (l1 ++ l2) = concat_strings l1 +:+ concat_strings l2.
Proof.
  induction l1 as [|s l1 IH]; [done|].
  cbn [app concat_strings]. by rewrite IH, string_append_assoc.
Qed.

Lemma whitespace_free_push token c :
  whitespace_free token = true -> is_whitespace c = false ->
  whitespace_free (push_char token c) = true.
Proof.
  intros Ht Hc. unfold push_char. induction token as [|c' token IH].
  - change (EmptyString +:+ String c EmptyString) with (String c EmptyString).
    cbn. by rewrite Hc.
  - change (String c' token +:+ String c EmptyString)
      with (String c' (token +:+ String c EmptyString)).
    cbn in *. apply andb_true_iff in Ht as [-> Ht]. by apply IH.
Qed.

Lemma char_free_push q body c :
  char_free q body = true -> c <> q ->
  char_free q (body +:+ String c EmptyString) = true.
Proof.
  intros Hb Hc. induction body as [|c' body IH].
  - change (EmptyString +:+ String c EmptyString) with (String c EmptyString).
    cbn -[bool_decide]. by rewrite bool_decide_eq_false_2.
  - change (String c' body +:+ String c EmptyString)
      with (String c' (body +:+ String c EmptyString)).
    cbn -[bool_decide] in *. apply andb_true_iff in Hb as [-> Hb]. by apply IH.
Qed.

Lemma read_tokens_shape s : forall state token emitted items,
  read_tokens state token emitted s = Ok items ->
  Forall token_shape emitted ->
  match state with
  | in_whitespace => True
  | in_quotes q =>
      is_quote q = true /\
      exists body, char_free q body = true /\ token = String q body
  | in_word => token <> EmptyString /\ whitespace_free token = true
  end ->
  Forall token_shape items /\
  without_whitespace (concat_strings items)
  = without_whitespace
      (concat_strings (rev emitted)
       +:+ (match state with in_whitespace => EmptyString | _ => token end)
       +:+ s).
Proof.
  induction s as [|c s IH]; intros state token emitted items H Hemitted Hstate.
  - cbn in H. destruct state; [|done|]; injection H as <-.
    + split; [by apply Forall_rev|].
      by rewrite !string_append_nil_r.
    + destruct Hstate as [Htoken Hfree].
      split; [apply Forall_app; split; [by apply Forall_rev|by repeat constructor]|].
      rewrite concat_strings_app. cbn [concat_strings].
      by rewrite !string_append_nil_r.
  - cbn -[bool_decide] in H. destruct state as [|q|].
    + destruct (is_whitespace c) eqn:Hws; [|destruct (is_quote c) eqn:Hq].
      * apply IH in H as [Hitems ->]; [|done..]. split; [done|].
        rewrite !without_whitespace_app. cbn [without_whitespace]. by rewrite Hws.
      * apply IH in H as [Hitems ->]; [|done|by split; [|exists EmptyString]].
        done.
      * apply IH in H as [Hitems ->]; [|done|]; [done|].
        split; [done|]. cbn. by rewrite Hws.
    + destruct Hstate as (Hq & body & Hbody & ->).
      case_bool_decide as Hc.
      * subst c. apply IH in H as [Hitems ->]; [| |done].
        -- split; [done|]. cbn [rev]. rewrite concat_strings_app. cbn [concat_strings].
           unfold push_char. rewrite !string_append_nil_r.
           change (String q body +:+ String q EmptyString)
             with (String q (body +:+ String q EmptyString)).
           change (String q body +:+ String q s)
             with (String q (body +:+ String q s)).
           change (EmptyString +:+ s) with s.
           rewrite !string_append_assoc.
           change (String q (body +:+ String q EmptyString) +:+ s)
             with (String q ((body +:+ String q EmptyString) +:+ s)).
           by rewrite string_append_assoc.
        -- constructor; [|done]. right. by exists q, body.
      * apply IH in H as [Hitems ->]; [|done|].
        -- split; [done|]. unfold push_char.
           by rewrite !string_append_assoc.
        -- split; [done|]. exists (body +:+ String c EmptyString).
           split; [by apply char_free_push|done].
    + destruct Hstate as [Htoken Hfree].
      destruct (is_whitespace c) eqn:Hws.
      * apply IH in H as [Hitems ->]; [| |done].
        -- split; [done|]. cbn [rev]. rewrite concat_strings_app. cbn [concat_strings].
           rewrite !string_append_nil_r. change (EmptyString +:+ s) with s.
           rewrite !without_whitespace_app. cbn [without_whitespace].
           by rewrite Hws, string_append_assoc.
        -- constructor; [by left|done].
      * apply IH in H as [Hitems ->]; [|done|].
        -- split; [done|]. unfold push_char. by rewrite !string_append_assoc.
        -- split; [apply push_char_nonempty | by apply whitespace_free_push].
Qed.

(** X23: what [shlex.split] returns for a term.  Every token is a
    non-empty word without whitespace or a quoted string with both its
    quotes, and tokenizing loses nothing but whitespace: the tokens one
    after the other and the term are the same string once whitespace is
    taken out. *)
Theorem shlex_split_tokens s items :
  shlex_split s = Ok items ->
  Forall token_shape items /\
  without_whitespace (concat_strings items) = without_whitespace s.
Proof.
  intros H. by apply read_tokens_shape in H as [Hitems ->].
Qed.

Lemma shlex_split_tokens_witness :
  let s := "foo 'a b'c" in
  shlex_split s = Ok ["foo"; "'a b'"; "c"] /\
  Forall token_shape ["foo"; "'a b'"; "c"] /\
  without_whitespace (concat_strings ["foo"; "'a b'"; "c"]) = without_whitespace s.
Proof.
  intros s.
  assert (H : shlex_split s = Ok ["foo"; "'a b'"; "c"]) by (vm_compute; reflexivity).
  split; [exact H|]. exact (shlex_split_tokens s _ H).
Defined.

Lemma compiled_queries_agree_witness :
  let r := with_quality_filter "2" (with_category "1_2" default_request) in
  exists s q,
    search_elastic nyaa_models nyaa_config r = Ok s /\
    search_db nyaa_models r = Ok q /\
    forall simple_query_string_hit fulltext_hit t,
      es_hit nyaa_models simple_query_string_hit t s = db_hit fulltext_hit t q.
Proof.
  intros r.
  destruct (search_elastic nyaa_models nyaa_config r) as [s|e] eqn:Hs;
    [|vm_compute in Hs; discriminate].
  destruct (search_db nyaa_models r) as [q|e] eqn:Hq;
    [|vm_compute in Hq; discriminate].
  exists s, q. split; [reflexivity|]. split; [reflexivity|].
  exact (compiled_queries_agree nyaa_models nyaa_config r s q eq_refl Hs Hq).
Defined.

(** ** What sorting and paging leave alone *)

(** X25: sort key, order, page and page sizes decide the order and the
    window of the results, never the records selected.  Two requests
    that agree on term, user, category, quality filter, RSS flag, admin
    flag and viewer, and that both compile, compile to the same query
    part and the same filters in [search_elastic], and to the same
    entity and the same filters in [search_db]. *)
Theorem sort_and_paging_keep_the_selection models config r r' :
  term r' = term r ->
  user r' = user r ->
  category r' = category r ->
  quality_filter r' = quality_filter r ->
  rss r' = rss r ->
  admin r' = admin r ->
  logged_in_user r' = logged_in_user r ->
  (forall s s',
     search_elastic models config r = Ok s ->
     search_elastic models config r' = Ok s' ->
     s_index s' = s_index s /\ s_query s' = s_query s /\ s_filter s' = s_filter s) /\
  (forall q q',
     search_db models r = Ok q ->
     search_db models r' = Ok q' ->
     q_entity q' = q_entity q /\ q_filter q' = q_filter q).
Proof.
  intros Hterm Huser Hcategory Hquality Hrss Hadmin Hviewer. split.
  - intros s s' H H'.
    apply search_elastic_Ok in H
      as (es_sort & qf & mc & sc & m & sid & u & s1 & _ & _ & _ & _ & Hqf
          & Hcat & Hu & Hs1 & ->).
    apply search_elastic_Ok in H'
      as (es_sort' & qf' & mc' & sc' & m' & sid' & u' & s1' & _ & _ & _ & _ & Hqf'
          & Hcat' & Hu' & Hs1' & ->).
    rewrite Hterm, Hrss, Hadmin, Hviewer in Hs1'.
    rewrite Hquality, Hqf in Hqf'. injection Hqf' as <-.
    rewrite Hcategory, Hcat in Hcat'. injection Hcat' as <- <- <- <-.
    rewrite Huser, Hu in Hu'. injection Hu' as <-.
    apply es_window_Ok in Hs1 as (from_idx & to_idx & -> & _).
    apply es_window_Ok in Hs1' as (from_idx' & to_idx' & -> & _).
    by destruct (ENABLE_ELASTIC_SEARCH_HIGHLIGHT config).
  - intros q q' H H'.
    apply search_db_Ok in H
      as (column & ft & u & mc & sc & m & sid & q1 & ordering
          & _ & _ & _ & Hft & Hu & Hcat & Hq1 & _ & ->).
    apply search_db_Ok in H'
      as (column' & ft' & u' & mc' & sc' & m' & sid' & q1' & ordering'
          & _ & _ & _ & Hft' & Hu' & Hcat' & Hq1' & _ & ->).
    rewrite Hterm, Hrss, Hadmin, Hviewer in Hq1'.
    rewrite Hquality, Hft in Hft'. injection Hft' as <-.
    rewrite Hcategory, Hcat in Hcat'. injection Hcat' as <- <- <- <-.
    rewrite Huser, Hu in Hu'. injection Hu' as <-.
    rewrite Hq1 in Hq1'. injection Hq1' as <-.
    rewrite Hrss.
    by destruct (rss r); cbn zeta; repeat case_match.
Qed.

Lemma sort_and_paging_keep_the_selection_witness :
  let r := with_category "1_2" default_request in
  let r' := with_paging 3 10 500 false (with_sort "seeders" "asc" false r) in
  exists s s' q q',
    search_elastic nyaa_models nyaa_config r = Ok s /\
    search_elastic nyaa_models nyaa_config r' = Ok s' /\
    search_db nyaa_models r = Ok q /\
    search_db nyaa_models r' = Ok q' /\
    s <> s' /\ q <> q' /\
    (s_index s' = s_index s /\ s_query s' = s_query s /\ s_filter s' = s_filter s) /\
    (q_entity q' = q_entity q /\ q_filter q' = q_filter q).
Proof.
  intros r r'.
  destruct (search_elastic nyaa_models nyaa_config r) as [s|e] eqn:Hs;
    [|vm_compute in Hs; discriminate].
  destruct (search_elastic nyaa_models nyaa_config r') as [s'|e] eqn:Hs';
    [|vm_compute in Hs'; discriminate].
  destruct (search_db nyaa_models r) as [q|e] eqn:Hq;
    [|vm_compute in Hq; discriminate].
  destruct (search_db nyaa_models r') as [q'|e] eqn:Hq';
    [|vm_compute in Hq'; discriminate].
  exists s, s', q, q'. do 4 (split; [reflexivity|]).
  split; [intros ->; rewrite <- Hs' in Hs; vm_compute in Hs; discriminate|].
  split; [intros ->; rewrite <- Hq' in Hq; vm_compute in Hq; discriminate|].
  destruct (sort_and_paging_keep_the_selection nyaa_models nyaa_config r r'
              eq_refl eq_refl eq_refl eq_refl eq_refl eq_refl eq_refl) as [Hes Hdb].
  split; [exact (Hes s s' Hs Hs') | exact (Hdb q q' Hq Hq')].
Defined.

(** ** The user id 0 *)

(** X26: the user id 0 is falsy, so it is not looked up and not
    rejected with 404: both functions treat it as no user at all and
    compile the general view, also when the viewer is logged in. *)
Theorem user_zero_is_no_user models config r :
  search_elastic models config (with_user (Some 0) r)
  = search_elastic models config (with_user None r) /\
  search_db models (with_user (Some 0) r) = search_db models (with_user None r).
Proof.
  split.
  - unfold search_elastic.
    cbn [with_user term user sort order category quality_filter page rss admin
         logged_in_user per_page max_search_results].
    repeat match goal with
    | |- (?m ≫= _) = (?m ≫= _) => destruct m as [?|?]; [cbn [mbind result_bind]|reflexivity]
    | |- (let '(_, _) := ?p in _) = _ => destruct p
    end.
    reflexivity.
  - unfold search_db.
    cbn [with_user term user sort order category quality_filter page rss admin
         logged_in_user per_page max_search_results].
    repeat match goal with
    | |- (?m ≫= _) = (?m ≫= _) => destruct m as [?|?]; [cbn [mbind result_bind]|reflexivity]
    | |- (let '(_, _) := ?p in _) = _ => destruct p
    end.
    reflexivity.
Qed.
